(** * ENEM TRI calculator: the score estimator and the orchestrating calculator

    A shallow embedding of [src/tri_calculator/estimator.py],
    [src/tri_calculator/calculator.py], [src/models/exam_area.py] and
    [src/models/exam_result.py].

    Python [float] is read as a real number ([R]): rounding, infinities and
    NaN are outside the model.  Python [int] is [Z].  Exceptions are values
    of [exn] carried by the [result] monad; an f-string is the list of its
    literal and formatted parts.  Mutation of [self] is explicit state
    passing: a method that assigns attributes returns the new object. *)

From Stdlib Require Import Reals Lra Lia ZArith.
From stdpp Require Import gmap strings list fin_maps sorting.

(** ** The knowledge areas ([AreaType] of models/exam_area.py) *)

Inductive AreaType :=
  | MATHEMATICS
  | LANGUAGES
  | NATURAL_SCIENCES
  | HUMAN_SCIENCES
  | ESSAY.

#[global] Instance AreaType_eq_dec : EqDecision AreaType.
Proof. solve_decision. Defined.

Definition AreaType_to_nat (a : AreaType) : nat :=
  match a with
  | MATHEMATICS => 0 | LANGUAGES => 1 | NATURAL_SCIENCES => 2
  | HUMAN_SCIENCES => 3 | ESSAY => 4
  end.

Definition AreaType_of_nat (n : nat) : option AreaType :=
  match n with
  | 0 => Some MATHEMATICS | 1 => Some LANGUAGES | 2 => Some NATURAL_SCIENCES
  | 3 => Some HUMAN_SCIENCES | 4 => Some ESSAY | _ => None
  end.

#[global] Instance AreaType_countable : Countable AreaType.
Proof.
  apply (inj_countable AreaType_to_nat AreaType_of_nat).
  intros []; reflexivity.
Defined.

(** [AreaType.value]: the string of each member of the enumeration. *)
Definition AreaType_value (a : AreaType) : string :=
  match a with
  | MATHEMATICS => "mathematics"
  | LANGUAGES => "languages"
  | NATURAL_SCIENCES => "natural_sciences"
  | HUMAN_SCIENCES => "human_sciences"
  | ESSAY => "essay"
  end.

(** ** Exceptions and the result monad *)

Inductive fpart :=
  | Lit (s : string)
  | FmtInt (z : Z)
  | FmtFloat (r : R)
  | FmtArea (a : AreaType).

Inductive exn :=
  | ValueError (msg : list fpart)
  | ZeroDivisionError
  | TypeError
  | AttributeError
  | IndexError
  | KeyError.

Inductive result (A : Type) :=
  | Ok (a : A)
  | Raise (e : exn).
Arguments Ok {A} a.
Arguments Raise {A} e.

#[global] Instance result_ret : MRet result := fun A x => Ok x.
#[global] Instance result_bind : MBind result :=
  fun A B f m => match m with Ok a => f a | Raise e => Raise e end.

Definition is_Ok {A} (r : result A) : Prop := ∃ a, r = Ok a.

(** ** Comparisons on floats, as booleans *)

Definition Rltb (a b : R) : bool := if Rlt_dec a b then true else false.
Definition Rgtb (a b : R) : bool := Rltb b a.

(** ** The NumPy and builtin functions the estimator calls *)

Section Numeric.
Local Open Scope R_scope.

(** [np.clip(x, lo, hi)] is [minimum(maximum(x, lo), hi)]. *)
Definition np_clip (x lo hi : R) : R := Rmin (Rmax x lo) hi.

Fixpoint insert_sorted (x : R) (l : list R) : list R :=
  match l with
  | [] => [x]
  | y :: l' => if Rle_dec x y then x :: l else y :: insert_sorted x l'
  end.

(** [sorted(l)] on floats. *)
Fixpoint sorted (l : list R) : list R :=
  match l with
  | [] => []
  | x :: l' => insert_sorted x (sorted l')
  end.

(** [np.median(l)]: the middle element of the sorted data, or the mean of the
    two middle elements.  The code calls it on non-empty lists only (NumPy
    yields nan on an empty one, which has no counterpart here). *)
Definition np_median (l : list R) : R :=
  let s := sorted l in
  let n := length s in
  if Nat.even n
  then (nth (n / 2 - 1) s 0 + nth (n / 2) s 0) / 2
  else nth (n / 2) s 0.

Definition sum_list (l : list R) : R := foldr Rplus 0 l.

(** [np.mean(l)]. *)
Definition np_mean (l : list R) : R := sum_list l / INR (length l).

(** [np.average(a, weights=w)]: sum(a * w) / sum(w). *)
Definition np_average (a w : list R) : R :=
  sum_list (zip_with Rmult a w) / sum_list w.

(** The builtins [min(l)] and [max(l)] on a non-empty list. *)
Definition py_min (l : list R) : R :=
  match l with [] => 0 | x :: l' => foldl Rmin x l' end.
Definition py_max (l : list R) : R :=
  match l with [] => 0 | x :: l' => foldl Rmax x l' end.

End Numeric.

(** ** models/exam_area.py *)

Module ExamArea.

Record t := mk {
  area_type : AreaType;
  total_questions : Z;
  correct_answers : Z;
  score : option R
}.

(** [__post_init__]: the dataclass validation, run by the constructor. *)
Definition __post_init__ (self : t) : result t :=
  if (correct_answers self <? 0)%Z then
    Raise (ValueError [Lit "Number of correct answers cannot be negative"])
  else if (correct_answers self >? total_questions self)%Z then
    Raise (ValueError [Lit "Correct answers ("; FmtInt (correct_answers self);
                       Lit ") cannot exceed total questions (";
                       FmtInt (total_questions self); Lit ")"])
  else Ok self.

(** [ExamArea(area_type=.., total_questions=.., correct_answers=.., score=..)] *)
Definition new (area_type : AreaType) (total_questions correct_answers : Z)
    (score : option R) : result t :=
  __post_init__ (mk area_type total_questions correct_answers score).

(** [area.score = s] *)
Definition set_score (self : t) (s : R) : t :=
  mk (area_type self) (total_questions self) (correct_answers self) (Some s).

(** The property [accuracy_rate]. *)
Definition accuracy_rate (self : t) : R :=
  if (total_questions self =? 0)%Z then 0%R
  else (IZR (correct_answers self) / IZR (total_questions self))%R.

End ExamArea.

(** ** models/exam_result.py *)

Module ExamResult.

Record t := mk {
  mathematics_score : R;
  languages_score : R;
  natural_sciences_score : R;
  human_sciences_score : R;
  essay_score : R;
  areas : gmap AreaType ExamArea.t;
  mathematics_pessimistic : option R;
  mathematics_calculated : option R;
  mathematics_optimistic : option R;
  languages_pessimistic : option R;
  languages_calculated : option R;
  languages_optimistic : option R;
  natural_sciences_pessimistic : option R;
  natural_sciences_calculated : option R;
  natural_sciences_optimistic : option R;
  human_sciences_pessimistic : option R;
  human_sciences_calculated : option R;
  human_sciences_optimistic : option R
}.

(** The loop of [__post_init__] over the five scores, in order. *)
Fixpoint check_scores (scores : list R) : result unit :=
  match scores with
  | [] => Ok tt
  | score :: rest =>
      if Rltb score 0 || Rgtb score 1000 then
        Raise (ValueError [Lit "Score "; FmtFloat score;
                           Lit " must be between 0 and 1000"])
      else check_scores rest
  end.

Definition __post_init__ (self : t) : result t :=
  _ ← check_scores [mathematics_score self; languages_score self;
                    natural_sciences_score self; human_sciences_score self;
                    essay_score self];
  mret self.

Definition get_score_by_area (self : t) (area_type : AreaType) : R :=
  match area_type with
  | MATHEMATICS => mathematics_score self
  | LANGUAGES => languages_score self
  | NATURAL_SCIENCES => natural_sciences_score self
  | HUMAN_SCIENCES => human_sciences_score self
  | ESSAY => essay_score self
  end.

(** The property [average_score]. *)
Definition average_score (self : t) : R :=
  ((mathematics_score self + languages_score self +
    natural_sciences_score self + human_sciences_score self +
    essay_score self) / 5)%R.

(** The property [objective_average]. *)
Definition objective_average (self : t) : R :=
  ((mathematics_score self + languages_score self +
    natural_sciences_score self + human_sciences_score self) / 4)%R.

Definition to_dict (self : t) : gmap string R :=
  {[ "mathematics" := mathematics_score self;
     "languages" := languages_score self;
     "natural_sciences" := natural_sciences_score self;
     "human_sciences" := human_sciences_score self;
     "essay" := essay_score self;
     "average" := average_score self;
     "objective_average" := objective_average self ]}.

End ExamResult.

(** ** The statistics of one area in one year

    The JSON object [{min, max, mean, std}] that the statistics files hold
    per area ([HistoricalDataCollector.load_inep_statistics]). *)

Record AreaStatistics := mkAreaStatistics {
  stat_min : R;
  stat_max : R;
  stat_mean : R;
  stat_std : R
}.

(** ** tri_calculator/estimator.py *)

Module TriEstimator.

(** The value of [self._interpolator] when it is not [None]: the closure
    [factor_interpolator], which reads [self._conversion_factor] when it is
    called. *)
Inductive interpolator := factor_interpolator.

(** An attribute that [__init__] does not create is [None] here until the
    first assignment ([hasattr] is [is_Some]); [_historical_years] and
    [_conversion_factor] can also hold Python's [None], the inner option. *)
Record t := mk {
  total_questions : Z;
  min_score : R;
  max_score : R;
  mean_score : R;
  std_deviation : R;
  area_name : option string;
  data_dir : option string;
  _score_map : option (gmap Z R);
  _interpolator : option interpolator;
  _historical_correct_answers : option (list Z);
  _historical_scores : option (list R);
  _historical_years : option (option (list Z));
  _conversion_factor : option (option R)
}.

Section Methods.
Local Open Scope R_scope.

Definition __init__ (total_questions : Z)
    (min_score max_score mean_score std_deviation : R)
    (area_name data_dir : option string) : t :=
  mk total_questions min_score max_score mean_score std_deviation
     area_name data_dir None None None None None None.

(** [TriEstimator()] with every default. *)
Definition with_defaults : t := __init__ 45 300 900 500 100 None None.

(** The loop that collects [score / ca] for the points with [ca > 0]. *)
Fixpoint conversion_factors (points : list (Z * R)) : list R :=
  match points with
  | [] => []
  | (ca, score) :: rest =>
      if (ca >? 0)%Z then (score / IZR ca) :: conversion_factors rest
      else conversion_factors rest
  end.

(** [grouped = defaultdict(list)] filled by [grouped[ca].append(sc)]. *)
Definition group_scores (points : list (Z * R)) : gmap Z (list R) :=
  foldl (λ grouped p, <[p.1 := default [] (grouped !! p.1) ++ [p.2]]> grouped)
        ∅ points.

(** [dict(zip(x_data, y_data))] with [x_data = sorted(grouped.keys())] and
    [y_data = [np.mean(grouped[ca]) for ca in x_data]]. *)
Definition build_score_map (grouped : gmap Z (list R)) : gmap Z R :=
  let x_data := merge_sort Z.le (elements (dom grouped)) in
  let y_data := (λ ca, np_mean (default [] (grouped !! ca))) <$> x_data in
  list_to_map (zip x_data y_data).

(** The method assigns attributes of [self]: it returns the object as it is
    when the call ends, and the outcome of the call. *)
Definition set_historical_data (self : t)
    (correct_answers : list Z) (scores : list R)
    (years : option (list Z))
    (inep_stats_by_year : option (gmap Z AreaStatistics)) : t * result unit :=
  if negb (length correct_answers =? length scores)%nat then
    (self,
     Raise (ValueError [Lit "correct_answers and scores must have same length"]))
  else if (length correct_answers <? 2)%nat then
    (self, Ok tt)
  else
    let factors := conversion_factors (zip correct_answers scores) in
    if (0 <? length factors)%nat then
      (mk (total_questions self) (min_score self) (max_score self)
          (mean_score self) (std_deviation self)
          (area_name self) (data_dir self)
          (Some (build_score_map (group_scores (zip correct_answers scores))))
          (Some factor_interpolator)
          (Some correct_answers) (Some scores) (Some years)
          (Some (Some (np_median factors))),
       Ok tt)
    else
      (mk (total_questions self) (min_score self) (max_score self)
          (mean_score self) (std_deviation self)
          (area_name self) (data_dir self)
          None None
          (Some correct_answers) (Some scores) (Some years)
          (Some None),
       Ok tt).

(** Calling [self._interpolator(ca)]: [self._conversion_factor * ca]. *)
Definition call_interpolator (self : t) (f : interpolator) (ca : Z) : result R :=
  match f with
  | factor_interpolator =>
      match _conversion_factor self with
      | Some (Some factor) => Ok (factor * IZR ca)
      | Some None => Raise TypeError
      | None => Raise AttributeError
      end
  end.

(** [growth_rates]: for [i] from 1, [scores[i] / scores[i-1]] when
    [scores[i-1] > 0]; [prev] is [scores[i-1]]. *)
Fixpoint growth_rates_from (prev : R) (rest : list R) : list R :=
  match rest with
  | [] => []
  | s :: rest' =>
      if Rgtb prev 0 then (s / prev) :: growth_rates_from s rest'
      else growth_rates_from s rest'
  end.

Definition growth_rates (scores : list R) : list R :=
  match scores with
  | [] => []
  | s0 :: rest => growth_rates_from s0 rest
  end.

(** [[2 ** i for i in range(n)]] *)
Definition recency_weights (n : nat) : list R :=
  (λ i : nat, 2 ^ i) <$> seq 0 n.

Definition _calculate_growth_factor (self : t) : R :=
  match _historical_scores self with
  | None => 1
  | Some scores =>
      if (length scores <? 2)%nat then 1
      else
        let rates := growth_rates scores in
        match rates with
        | [] => 1
        | _ =>
            let weights := recency_weights (length rates) in
            np_clip (np_average rates weights) 0.9 1.15
        end
  end.

(** The loop of [estimate_score_range] over [enumerate(hist_ca)], from
    index [i]: [self._historical_scores[i] - interpolator(hist_ca)]. *)
Fixpoint prediction_errors (self : t) (f : interpolator) (i : nat)
    (hist_cas : list Z) : result (list R) :=
  match hist_cas with
  | [] => Ok []
  | hist_ca :: rest =>
      match _historical_scores self with
      | None => Raise AttributeError
      | Some scores =>
          match scores !! i with
          | None => Raise IndexError
          | Some hist_score =>
              predicted_hist ← call_interpolator self f hist_ca;
              errors ← prediction_errors self f (S i) rest;
              mret ((hist_score - predicted_hist) :: errors)
          end
      end
  end.

Definition estimate_score_range (self : t) (correct_answers : Z)
    (current_year : option Z) : result (option (R * R * R)) :=
  match _interpolator self with
  | None => Ok None
  | Some f =>
      match _historical_correct_answers self with
      | None => Ok None
      | Some hist_cas =>
          if (length hist_cas <? 2)%nat then Ok None
          else
            base_score ← call_interpolator self f correct_answers;
            errors ← prediction_errors self f 0 hist_cas;
            let min_error := py_min errors in
            let max_error := py_max errors in
            let median_error := np_median errors in
            let pessimistic_error := (min_error + median_error) / 2 in
            let optimistic_error := 0.9 * max_error in
            let pessimistic := np_clip (base_score + pessimistic_error) 300 1000 in
            let optimistic := np_clip (base_score + optimistic_error) 300 1000 in
            let '(pessimistic, optimistic) :=
              if Rgtb pessimistic optimistic then (optimistic, pessimistic)
              else (pessimistic, optimistic) in
            let growth_factor := _calculate_growth_factor self in
            let base_calculated := (pessimistic + optimistic) / 2 in
            let calculated := base_calculated * growth_factor in
            let calculated := np_clip calculated pessimistic optimistic in
            Ok (Some (pessimistic, calculated, optimistic))
      end
  end.

(** [correct_answers / self.total_questions] on two ints. *)
Definition proportion (self : t) (correct_answers : Z) : result R :=
  if (total_questions self =? 0)%Z then Raise ZeroDivisionError
  else Ok (IZR correct_answers / IZR (total_questions self)).

Definition _estimate_with_logistic (self : t) (correct_answers : Z) : result R :=
  proportion ← proportion self correct_answers;
  let z_score := (proportion - 0.5) / 0.15 in
  let score_range := max_score self - min_score self in
  let normalized_score := 1 / (1 + exp (- z_score)) in
  let score := min_score self + score_range * normalized_score in
  let score :=
    if (correct_answers =? 0)%Z then Rmax score (min_score self)
    else if (correct_answers =? total_questions self)%Z
         then Rmin score (max_score self)
         else score in
  mret score.

Definition _estimate_with_linear (self : t) (correct_answers : Z) : result R :=
  proportion ← proportion self correct_answers;
  let score_range := max_score self - min_score self in
  mret (min_score self + proportion * score_range).

Definition estimate_score (self : t) (correct_answers : Z)
    (use_logistic : bool) (current_year : option Z) : result R :=
  if (correct_answers <? 0)%Z || (correct_answers >? total_questions self)%Z then
    Raise (ValueError [Lit "Correct answers must be between 0 and ";
                       FmtInt (total_questions self)])
  else
    match _score_map self ≫= (.!! correct_answers) with
    | Some exact => Ok exact
    | None =>
        match _interpolator self with
        | Some f => call_interpolator self f correct_answers
        | None =>
            if use_logistic then _estimate_with_logistic self correct_answers
            else _estimate_with_linear self correct_answers
        end
    end.

(** [scipy.stats.norm.ppf], the inverse normal CDF, is a library function
    outside the repository: a parameter of the method. *)
Variable norm_ppf : R → R.

Definition get_confidence_interval (self : t) (correct_answers : Z)
    (confidence : R) : result (R * R) :=
  score ← estimate_score self correct_answers true None;
  let standard_error := std_deviation self / sqrt (IZR (total_questions self)) in
  let z_score := norm_ppf ((1 + confidence) / 2) in
  let margin_of_error := z_score * standard_error in
  let lower_bound := Rmax (min_score self) (score - margin_of_error) in
  let upper_bound := Rmin (max_score self) (score + margin_of_error) in
  mret (lower_bound, upper_bound).

(** [estimate_proficiency]: the count is not validated here. *)
Definition estimate_proficiency (self : t) (correct_answers : Z) : result R :=
  proportion ← proportion self correct_answers;
  let z_score :=
    if Rle_dec proportion 0.01 then -3
    else if Rge_dec proportion 0.99 then 3
    else norm_ppf proportion in
  mret z_score.

End Methods.

End TriEstimator.

(** ** tri_calculator/calculator.py *)

Module TriCalculator.

Record t := mk {
  total_questions : Z;
  estimators : gmap AreaType TriEstimator.t;
  use_inep_data : bool;
  reference_year : Z
}.

Section Methods.
Local Open Scope R_scope.

(** [HistoricalDataCollector.load_inep_statistics]: the statistics file of a
    year, read from disk; [None] when there is no file. *)
Variable load_inep_statistics : Z → option (gmap string AreaStatistics).

(** [scipy.stats.norm.ppf], as in the estimator. *)
Variable norm_ppf : R → R.

Definition area_mapping : list (string * AreaType) :=
  [("mathematics", MATHEMATICS); ("languages", LANGUAGES);
   ("natural_sciences", NATURAL_SCIENCES); ("human_sciences", HUMAN_SCIENCES)].

Definition area_name_mapping (area_type : AreaType) : option string :=
  match area_type with
  | MATHEMATICS => Some "mathematics"
  | LANGUAGES => Some "languages"
  | NATURAL_SCIENCES => Some "natural_sciences"
  | HUMAN_SCIENCES => Some "human_sciences"
  | ESSAY => None
  end.

(** The parameter dict of one area. *)
Definition area_params (min_score max_score mean_score std_deviation : R)
    : gmap string R :=
  {[ "min_score" := min_score; "max_score" := max_score;
     "mean_score" := mean_score; "std_deviation" := std_deviation ]}.

(** [range(2020, 2025)] *)
Definition years_to_average : list Z := [2020; 2021; 2022; 2023; 2024]%Z.

Definition _calculate_default_params_from_inep : gmap AreaType (gmap string R) :=
  foldl (λ params (entry : string * AreaType),
           let '(area_name, area_type) := entry in
           let found :=
             omap (λ year, load_inep_statistics year ≫= (.!! area_name))
                  years_to_average in
           let count := INR (length found) in
           if (0 <? length found)%nat then
             <[area_type := area_params
                 (sum_list (stat_min <$> found) / count)
                 (sum_list (stat_max <$> found) / count)
                 (sum_list (stat_mean <$> found) / count)
                 (sum_list (stat_std <$> found) / count)]> params
           else
             <[area_type := area_params 300 900 500 100]> params)
        ∅ area_mapping.

(** The downloads at the start write no file ([_get_inep_statistics] is
    [None] for every year), so only the lookups remain. *)
Definition _load_inep_parameters (year : Z) : gmap AreaType (gmap string R) :=
  match load_inep_statistics year with
  | None => _calculate_default_params_from_inep
  | Some stats =>
      if decide (stats = ∅) then _calculate_default_params_from_inep
      else
        foldl (λ params (entry : string * AreaType),
                 let '(area_name, area_type) := entry in
                 match stats !! area_name with
                 | Some area_stats =>
                     <[area_type := area_params (stat_min area_stats)
                         (stat_max area_stats) (stat_mean area_stats)
                         (stat_std area_stats)]> params
                 | None =>
                     match _calculate_default_params_from_inep !! area_type with
                     | Some d => <[area_type := d]> params
                     | None => params
                     end
                 end)
              ∅ area_mapping
  end.

Definition objective_areas : list AreaType :=
  [MATHEMATICS; LANGUAGES; NATURAL_SCIENCES; HUMAN_SCIENCES].

Definition __init__ (total_questions_per_area : Z)
    (custom_parameters : option (gmap AreaType (gmap string R)))
    (use_inep_data : bool) (reference_year : Z) : t :=
  let params :=
    match custom_parameters with
    | None =>
        if use_inep_data then _load_inep_parameters reference_year
        else _calculate_default_params_from_inep
    | Some custom => custom
    end in
  let estimators :=
    foldl (λ (ests : gmap AreaType TriEstimator.t) area_type,
             let area_params := default ∅ (params !! area_type) in
             <[area_type := TriEstimator.__init__ total_questions_per_area
                 (default 300 (area_params !! "min_score"))
                 (default 900 (area_params !! "max_score"))
                 (default 500 (area_params !! "mean_score"))
                 (default 100 (area_params !! "std_deviation"))
                 (area_name_mapping area_type) (Some "data")]> ests)
          ∅ objective_areas in
  mk total_questions_per_area estimators use_inep_data reference_year.

(** [self.estimators[area_type]]: a missing key is a [KeyError], which the
    four objective areas never meet. *)
Definition estimator_of (self : t) (area_type : AreaType)
    : result TriEstimator.t :=
  match estimators self !! area_type with
  | Some e => Ok e
  | None => Raise KeyError
  end.

Definition calculate_score (self : t)
    (mathematics languages natural_sciences human_sciences : Z)
    (essay_score : R) : result ExamResult.t :=
  if Rltb essay_score 0 || Rgtb essay_score 1000 then
    Raise (ValueError [Lit "Essay score must be between 0 and 1000"])
  else
    a_math ← ExamArea.new MATHEMATICS (total_questions self) mathematics None;
    a_lang ← ExamArea.new LANGUAGES (total_questions self) languages None;
    a_nat ← ExamArea.new NATURAL_SCIENCES (total_questions self) natural_sciences None;
    a_hum ← ExamArea.new HUMAN_SCIENCES (total_questions self) human_sciences None;
    a_essay ← ExamArea.new ESSAY 1 1 (Some essay_score);
    let current_year := Some (reference_year self) in
    e_math ← estimator_of self MATHEMATICS;
    math_score ← TriEstimator.estimate_score e_math mathematics true current_year;
    e_lang ← estimator_of self LANGUAGES;
    lang_score ← TriEstimator.estimate_score e_lang languages true current_year;
    e_nat ← estimator_of self NATURAL_SCIENCES;
    nat_score ← TriEstimator.estimate_score e_nat natural_sciences true current_year;
    e_hum ← estimator_of self HUMAN_SCIENCES;
    hum_score ← TriEstimator.estimate_score e_hum human_sciences true current_year;
    math_range ← TriEstimator.estimate_score_range e_math mathematics current_year;
    lang_range ← TriEstimator.estimate_score_range e_lang languages current_year;
    nat_range ← TriEstimator.estimate_score_range e_nat natural_sciences current_year;
    hum_range ← TriEstimator.estimate_score_range e_hum human_sciences current_year;
    let areas : gmap AreaType ExamArea.t :=
      {[ MATHEMATICS := ExamArea.set_score a_math math_score;
         LANGUAGES := ExamArea.set_score a_lang lang_score;
         NATURAL_SCIENCES := ExamArea.set_score a_nat nat_score;
         HUMAN_SCIENCES := ExamArea.set_score a_hum hum_score;
         ESSAY := a_essay ]} in
    ExamResult.__post_init__
      (ExamResult.mk math_score lang_score nat_score hum_score essay_score areas
         ((λ r, r.1.1) <$> math_range) ((λ r, r.1.2) <$> math_range)
         ((λ r, r.2) <$> math_range)
         ((λ r, r.1.1) <$> lang_range) ((λ r, r.1.2) <$> lang_range)
         ((λ r, r.2) <$> lang_range)
         ((λ r, r.1.1) <$> nat_range) ((λ r, r.1.2) <$> nat_range)
         ((λ r, r.2) <$> nat_range)
         ((λ r, r.1.1) <$> hum_range) ((λ r, r.1.2) <$> hum_range)
         ((λ r, r.2) <$> hum_range)).

Definition calculate_area_score (self : t) (area_type : AreaType)
    (correct_answers : Z) (current_year : option Z) : result R :=
  if decide (area_type = ESSAY) then
    Raise (ValueError [Lit "Essay score must be provided directly, not calculated"])
  else
    match estimators self !! area_type with
    | None => Raise (ValueError [Lit "Invalid area type: "; FmtArea area_type])
    | Some estimator =>
        TriEstimator.estimate_score estimator correct_answers true current_year
    end.

Definition get_confidence_interval (self : t) (area_type : AreaType)
    (correct_answers : Z) (confidence : R) : result (R * R) :=
  if decide (area_type = ESSAY) then
    Raise (ValueError [Lit "Confidence interval not applicable for essay"])
  else
    match estimators self !! area_type with
    | None => Raise (ValueError [Lit "Invalid area type: "; FmtArea area_type])
    | Some estimator =>
        TriEstimator.get_confidence_interval norm_ppf estimator
          correct_answers confidence
    end.

(** [inep_stats_by_year] of [calibrate_with_user_data]; an empty dict is
    passed on as [None]. *)
Definition inep_stats_for (area_type : AreaType) (years_list : option (list Z))
    : option (gmap Z AreaStatistics) :=
  let stats : gmap Z AreaStatistics :=
    match years_list, area_name_mapping area_type with
    | Some years, Some area_name =>
        foldl (λ acc year,
                 match load_inep_statistics year ≫= (.!! area_name) with
                 | Some year_stats => <[year := year_stats]> acc
                 | None => acc
                 end) ∅ years
    | _, _ => ∅
    end in
  if decide (stats = ∅) then None else Some stats.

Definition calibrate_with_user_data (self : t) (area_type : AreaType)
    (correct_answers_list : list Z) (scores_list : list R)
    (years_list : option (list Z)) : t * result unit :=
  if decide (area_type = ESSAY) then (self, Ok tt)
  else
    match estimators self !! area_type with
    | None => (self, Ok tt)
    | Some estimator =>
        if (0 <? length correct_answers_list)%nat
           && (0 <? length scores_list)%nat then
          let '(estimator', outcome) :=
            TriEstimator.set_historical_data estimator
              correct_answers_list scores_list years_list
              (inep_stats_for area_type years_list) in
          (mk (total_questions self)
              (<[area_type := estimator']> (estimators self))
              (use_inep_data self) (reference_year self),
           outcome)
        else (self, Ok tt)
    end.

End Methods.

End TriCalculator.

(** ** data_collection/user_data_loader.py *)

Module UserDataLoader.

(** [YearData].  The fields that [validate_current_year] tests against
    [None] are optional here, whatever their annotation says. *)
Record YearData := mkYearData {
  year : Z;
  mathematics_correct : option Z;
  mathematics_score : option R;
  languages_correct : option Z;
  languages_score : option R;
  natural_sciences_correct : option Z;
  natural_sciences_score : option R;
  human_sciences_correct : option Z;
  human_sciences_score : option R;
  essay_score : option R
}.

(** [self.settings], a dict read at three keys only. *)
Record Settings := mkSettings {
  setting_use_historical_data : option bool;
  setting_show_comparison : option bool;
  setting_confidence_level : option R
}.

Record t := mk {
  current_year : option YearData;
  previous_years : list YearData;
  settings : Settings
}.

Section Methods.
Local Open Scope R_scope.

(** The count and the score of a year in the area of that name; [None] for a
    name that is none of the four. *)
Definition area_fields (area : string) (year_data : YearData)
    : option (option Z * option R) :=
  if decide (area = "mathematics") then
    Some (mathematics_correct year_data, mathematics_score year_data)
  else if decide (area = "languages") then
    Some (languages_correct year_data, languages_score year_data)
  else if decide (area = "natural_sciences") then
    Some (natural_sciences_correct year_data, natural_sciences_score year_data)
  else if decide (area = "human_sciences") then
    Some (human_sciences_correct year_data, human_sciences_score year_data)
  else None.

(** The loop of [get_historical_data_for_area].  [correct > 0] on a count
    that is [None] is a [TypeError]; it is reached only after the score was
    found not to be [None]. *)
Fixpoint get_historical_data_for_area_from (area : string)
    (years : list YearData) (correct_answers : list Z) (scores : list R)
    : result (list Z * list R) :=
  match years with
  | [] => Ok (correct_answers, scores)
  | year_data :: rest =>
      match area_fields area year_data with
      | Some (correct, Some score) =>
          match correct with
          | None => Raise TypeError
          | Some ca =>
              if (ca >? 0)%Z then
                get_historical_data_for_area_from area rest
                  (correct_answers ++ [ca]) (scores ++ [score])
              else
                get_historical_data_for_area_from area rest
                  correct_answers scores
          end
      | _ => get_historical_data_for_area_from area rest correct_answers scores
      end
  end.

Definition get_historical_data_for_area (self : t) (area : string)
    : result (list Z * list R) :=
  get_historical_data_for_area_from area (previous_years self) [] [].

(** The loop of [get_historical_data_with_years]: a year is included when
    its score is not [None], with its count as it is. *)
Fixpoint get_historical_data_with_years_from (area : string)
    (years : list YearData)
    (acc : list (option Z) * list R * list Z)
    : list (option Z) * list R * list Z :=
  match years with
  | [] => acc
  | year_data :: rest =>
      match area_fields area year_data with
      | Some (ca, Some score) =>
          get_historical_data_with_years_from area rest
            (acc.1.1 ++ [ca], acc.1.2 ++ [score], acc.2 ++ [year year_data])
      | _ => get_historical_data_with_years_from area rest acc
      end
  end.

Definition get_historical_data_with_years (self : t) (area : string)
    : list (option Z) * list R * list Z :=
  get_historical_data_with_years_from area (previous_years self) ([], [], []).

Fixpoint get_historical_scores_only_from (area : string)
    (years : list YearData) (scores : list R) : list R :=
  match years with
  | [] => scores
  | year_data :: rest =>
      match area_fields area year_data with
      | Some (_, Some score) =>
          get_historical_scores_only_from area rest (scores ++ [score])
      | _ => get_historical_scores_only_from area rest scores
      end
  end.

Definition get_historical_scores_only (self : t) (area : string) : list R :=
  get_historical_scores_only_from area (previous_years self) [].

Definition has_historical_data (self : t) : bool :=
  (0 <? length (previous_years self))%nat.

Definition use_historical_data (self : t) : bool :=
  default true (setting_use_historical_data (settings self)).

Definition show_comparison (self : t) : bool :=
  default true (setting_show_comparison (settings self)).

Definition get_confidence_level (self : t) : R :=
  default 0.95 (setting_confidence_level (settings self)).

(** One round of the loop over the four counts of [validate_current_year]. *)
Definition validate_count (errors : list (list fpart))
    (entry : string * option Z) : list (list fpart) :=
  match entry.2 with
  | None => errors ++ [[Lit entry.1; Lit ": correct answers cannot be None"]]
  | Some value =>
      if negb ((0 <=? value)%Z && (value <=? 45)%Z) then
        errors ++ [[Lit entry.1;
                    Lit ": correct answers must be between 0 and 45, got ";
                    FmtInt value]]
      else errors
  end.

Definition validate_current_year (self : t) : bool * list (list fpart) :=
  match current_year self with
  | None => (false, [[Lit "No current year data found"]])
  | Some cy =>
      let errors :=
        foldl validate_count []
          [("mathematics", mathematics_correct cy);
           ("languages", languages_correct cy);
           ("natural_sciences", natural_sciences_correct cy);
           ("human_sciences", human_sciences_correct cy)] in
      let errors :=
        match essay_score cy with
        | None => errors ++ [[Lit "essay_score cannot be None"]]
        | Some essay =>
            if Rltb essay 0 || Rgtb essay 1000 then
              errors ++ [[Lit "essay_score must be between 0 and 1000, got ";
                          FmtFloat essay]]
            else errors
        end in
      ((length errors =? 0)%nat, errors)
  end.

End Methods.

End UserDataLoader.

(** ** cli/cli.py: the calibration from the personal history

    The block that the commands [calculate] and [interactive] share: when the
    loader says so, each objective area with at least one usable year is
    calibrated.  Printing is left out. *)

Module Cli.

Section Calibration.

Variable load_inep_statistics : Z → option (gmap string AreaStatistics).

(** [[year_data.year for year_data in loader.previous_years if year_data.year]] *)
Definition years_list (loader : UserDataLoader.t) : list Z :=
  filter (λ y, y ≠ 0%Z) (UserDataLoader.year <$> UserDataLoader.previous_years loader).

(** One round of the loop over the four areas; the state is the calculator
    and the number of calibrated areas. *)
Definition calibrate_area (loader : UserDataLoader.t)
    (state : TriCalculator.t * nat) (entry : string * AreaType)
    : (TriCalculator.t * nat) * result unit :=
  match UserDataLoader.get_historical_data_for_area loader entry.1 with
  | Raise e => (state, Raise e)
  | Ok (correct_list, scores_list) =>
      if (0 <? length scores_list)%nat then
        let '(calculator, outcome) :=
          TriCalculator.calibrate_with_user_data load_inep_statistics
            state.1 entry.2 correct_list scores_list (Some (years_list loader)) in
        match outcome with
        | Raise e => ((calculator, state.2), Raise e)
        | Ok _ => ((calculator, S state.2), Ok tt)
        end
      else (state, Ok tt)
  end.

Fixpoint calibrate_areas (loader : UserDataLoader.t)
    (state : TriCalculator.t * nat) (entries : list (string * AreaType))
    : (TriCalculator.t * nat) * result unit :=
  match entries with
  | [] => (state, Ok tt)
  | entry :: rest =>
      match calibrate_area loader state entry with
      | (state', Ok _) => calibrate_areas loader state' rest
      | (state', Raise e) => (state', Raise e)
      end
  end.

Definition calibrate_from_history (loader : UserDataLoader.t)
    (calculator : TriCalculator.t)
    : (TriCalculator.t * nat) * result unit :=
  if UserDataLoader.use_historical_data loader
     && UserDataLoader.has_historical_data loader then
    calibrate_areas loader (calculator, 0%nat) TriCalculator.area_mapping
  else ((calculator, 0%nat), Ok tt).

End Calibration.

End Cli.

(** * Specification-level notions *)

Section Specification.
Local Open Scope R_scope.
Import TriEstimator.

(** The estimator objects a program can hold: a freshly constructed one, or
    one on which [set_historical_data] has been called (whatever the call's
    outcome). *)
Inductive reachable : TriEstimator.t → Prop :=
  | reachable_init tq mn mx mean sd name dir :
      reachable (__init__ tq mn mx mean sd name dir)
  | reachable_set self cas scores years stats :
      reachable self →
      reachable (set_historical_data self cas scores years stats).1.

(** The supplied scores whose correct-answer count is [ca], in order. *)
Definition scores_sharing (ca : Z) (points : list (Z * R)) : list R :=
  snd <$> filter (λ p, p.1 = ca) points.

(** The per-point factors [score / correct_answers] of the points with a
    positive count, as the spec words them. *)
Definition factors_of_positive_counts (points : list (Z * R)) : list R :=
  (λ p, p.2 / IZR p.1) <$> filter (λ p, (0 < p.1)%Z) points.

(** The personal linear factor, when there is one. *)
Definition personal_factor (self : t) : option R :=
  match _conversion_factor self with
  | Some (Some factor) => Some factor
  | _ => None
  end.

(** The exact historical score of a count: the mean of the historical
    scores that share it, kept only when calibration produced a factor. *)
Definition exact_historical_score (self : t) (ca : Z) : option R :=
  match personal_factor self, _historical_correct_answers self,
        _historical_scores self with
  | Some _, Some cas, Some scores =>
      match scores_sharing ca (zip cas scores) with
      | [] => None
      | shared => Some (np_mean shared)
      end
  | _, _, _ => None
  end.

(** The logistic population model of the spec. *)
Definition logistic_population_model (mn mx : R) (tq ca : Z) : R :=
  let p := IZR ca / IZR tq in
  let z := (p - 0.5) / 0.15 in
  let normalized := 1 / (1 + exp (- z)) in
  mn + (mx - mn) * normalized.


(** What a reachable estimator's calibration attributes look like. *)
Definition consistent (self : t) : Prop :=
  match _interpolator self with
  | None => _score_map self = None ∧ personal_factor self = None
  | Some _ =>
      ∃ cas scores,
        _historical_correct_answers self = Some cas ∧
        _historical_scores self = Some scores ∧
        length cas = length scores ∧
        (2 ≤ length cas)%nat ∧
        conversion_factors (zip cas scores) ≠ [] ∧
        _conversion_factor self =
          Some (Some (np_median (conversion_factors (zip cas scores)))) ∧
        _score_map self =
          Some (build_score_map (group_scores (zip cas scores)))
  end.

(** The margin of error of the spec: z * standard_error. *)
Definition margin_of_error (norm_ppf : R → R) (self : t) (confidence : R) : R :=
  norm_ppf ((1 + confidence) / 2) *
  (std_deviation self / sqrt (IZR (total_questions self))).

(** The errors that [ExamArea]'s constructor raises. *)
Definition exam_area_error (e : exn) : Prop :=
  e = ValueError [Lit "Number of correct answers cannot be negative"] ∨
  ∃ ca tq, e = ValueError [Lit "Correct answers ("; FmtInt ca;
                           Lit ") cannot exceed total questions (";
                           FmtInt tq; Lit ")"].

(** The width of an interval. *)
Definition width (i : R * R) : R := i.2 - i.1.

(** What the confidence interval needs of [scipy.stats.norm.ppf]: it is 0 at
    the median and strictly increasing on the upper half of (0, 1). *)
Definition quantile_like (ppf : R → R) : Prop :=
  ppf (1 / 2) = 0 ∧ ∀ p q, 1 / 2 <= p → p < q → q < 1 → ppf p < ppf q.

(** An estimator with [std_deviation = 0], calibrated with the points
    (20, 100.0) and (30, 150.0): the factor is 5. *)
Definition flat_calibrated : t :=
  (set_historical_data (__init__ 45 300 900 500 0 None None)
     [20; 30]%Z [100; 150] None None).1.

(** The calculators a program can hold: a freshly constructed one, or one on
    which [calibrate_with_user_data] has been called. *)
Inductive reachable_calculator
    (load_inep_statistics : Z → option (gmap string AreaStatistics))
    : TriCalculator.t → Prop :=
  | reachable_calculator_init total custom use_inep year :
      reachable_calculator load_inep_statistics
        (TriCalculator.__init__ load_inep_statistics total custom use_inep year)
  | reachable_calculator_calibrate calc area cas scores years :
      reachable_calculator load_inep_statistics calc →
      reachable_calculator load_inep_statistics
        (TriCalculator.calibrate_with_user_data load_inep_statistics
           calc area cas scores years).1.

(** Every objective area has its estimator, a reachable one with the
    calculator's question count. *)
Definition calculator_invariant (calc : TriCalculator.t) : Prop :=
  ∀ area, area ≠ ESSAY →
    ∃ estimator,
      TriCalculator.estimators calc !! area = Some estimator ∧
      total_questions estimator = TriCalculator.total_questions calc ∧
      reachable estimator.

(** A statistics repository with no file at all. *)
Definition no_statistics : Z → option (gmap string AreaStatistics) := λ _, None.

(** [TriCalculator(custom_parameters={})]: every parameter at its default. *)
Definition default_calculator : TriCalculator.t :=
  TriCalculator.__init__ no_statistics 45 (Some ∅) true 2023.

(** The default calculator after
    [calibrate_with_user_data(MATHEMATICS, [20, 30], [100.0, 150.0])]. *)
Definition calibrated_calculator : TriCalculator.t :=
  (TriCalculator.calibrate_with_user_data no_statistics default_calculator
     MATHEMATICS [20; 30]%Z [100; 150] None).1.

(** The default calculator after
    [calibrate_with_user_data(MATHEMATICS, [20, 30], [500.0, 650.0])]. *)
Definition round_trip_calculator : TriCalculator.t :=
  (TriCalculator.calibrate_with_user_data no_statistics default_calculator
     MATHEMATICS [20; 30]%Z [500; 650] None).1.

(** The parameters that [_calculate_default_params_from_inep] gives the area
    of a name: the averages over the years 2020-2024 that have statistics for
    it, or the fixed fallback when none has. *)
Definition averaged_params
    (load_inep_statistics : Z → option (gmap string AreaStatistics))
    (area_name : string) : gmap string R :=
  let found :=
    omap (λ year, load_inep_statistics year ≫= (.!! area_name))
         TriCalculator.years_to_average in
  let count := INR (length found) in
  if (0 <? length found)%nat then
    TriCalculator.area_params
      (sum_list (stat_min <$> found) / count)
      (sum_list (stat_max <$> found) / count)
      (sum_list (stat_mean <$> found) / count)
      (sum_list (stat_std <$> found) / count)
  else TriCalculator.area_params 300 900 500 100.

(** The three range fields of a result for an objective area. *)
Definition result_range (r : ExamResult.t) (area : AreaType)
    : option R * option R * option R :=
  match area with
  | MATHEMATICS =>
      (ExamResult.mathematics_pessimistic r, ExamResult.mathematics_calculated r,
       ExamResult.mathematics_optimistic r)
  | LANGUAGES =>
      (ExamResult.languages_pessimistic r, ExamResult.languages_calculated r,
       ExamResult.languages_optimistic r)
  | NATURAL_SCIENCES =>
      (ExamResult.natural_sciences_pessimistic r,
       ExamResult.natural_sciences_calculated r,
       ExamResult.natural_sciences_optimistic r)
  | HUMAN_SCIENCES =>
      (ExamResult.human_sciences_pessimistic r,
       ExamResult.human_sciences_calculated r,
       ExamResult.human_sciences_optimistic r)
  | ESSAY => (None, None, None)
  end.

(** The years of a personal history in which an area is usable for
    calibration: the score is there and the count is positive. *)
Definition usable_points (area : string)
    (years : list UserDataLoader.YearData) : list (Z * R) :=
  omap (λ year_data,
          match UserDataLoader.area_fields area year_data with
          | Some (Some ca, Some score) =>
              if (ca >? 0)%Z then Some (ca, score) else None
          | _ => None
          end) years.

(** Every count of a year is there (what [_parse_previous_years] ensures by
    [... or 0]). *)
Definition counts_present (year_data : UserDataLoader.YearData) : Prop :=
  is_Some (UserDataLoader.mathematics_correct year_data) ∧
  is_Some (UserDataLoader.languages_correct year_data) ∧
  is_Some (UserDataLoader.natural_sciences_correct year_data) ∧
  is_Some (UserDataLoader.human_sciences_correct year_data).

(** A calculator whose estimators are all without personal factor, with
    population parameters inside the score scale. *)
Definition uncalibrated_calculator (calc : TriCalculator.t) : Prop :=
  calculator_invariant calc ∧
  ∀ area estimator,
    TriCalculator.estimators calc !! area = Some estimator →
    personal_factor estimator = None ∧
    (0 <= min_score estimator)%R ∧
    (min_score estimator <= max_score estimator)%R ∧
    (max_score estimator <= 1000)%R.

End Specification.

(** * Properties *)

Section BasicFacts.
Local Open Scope R_scope.

Lemma Rltb_true a b : Rltb a b = true ↔ a < b.
Proof. unfold Rltb. destruct (Rlt_dec a b); split; (congruence || tauto). Qed.

Lemma Rltb_false a b : Rltb a b = false ↔ b <= a.
Proof.
  unfold Rltb. destruct (Rlt_dec a b); split; intros; try congruence; lra.
Qed.

Lemma Rgtb_true a b : Rgtb a b = true ↔ a > b.
Proof. unfold Rgtb. rewrite Rltb_true. lra. Qed.

Lemma Rgtb_false a b : Rgtb a b = false ↔ a <= b.
Proof. unfold Rgtb. rewrite Rltb_false. lra. Qed.

Lemma out_of_range_false x lo hi :
  Rltb x lo || Rgtb x hi = false ↔ lo <= x <= hi.
Proof.
  rewrite orb_false_iff, Rltb_false, Rgtb_false. tauto.
Qed.

Lemma out_of_range_true x lo hi :
  Rltb x lo || Rgtb x hi = true ↔ x < lo ∨ x > hi.
Proof. rewrite orb_true_iff, Rltb_true, Rgtb_true. tauto. Qed.

Lemma np_clip_bounds x lo hi : lo <= hi → lo <= np_clip x lo hi <= hi.
Proof.
  intros H. unfold np_clip, Rmin, Rmax.
  repeat destruct Rle_dec; lra.
Qed.

Lemma np_clip_inside x lo hi : lo <= x <= hi → np_clip x lo hi = x.
Proof.
  intros H. unfold np_clip, Rmin, Rmax.
  repeat destruct Rle_dec; lra.
Qed.

End BasicFacts.

(** ** The exact-match table *)

Section ScoreMap.
Local Open Scope R_scope.
Import TriEstimator.

Lemma scores_sharing_cons ca p points :
  scores_sharing ca (p :: points) =
    if decide (p.1 = ca) then p.2 :: scores_sharing ca points
    else scores_sharing ca points.
Proof.
  unfold scores_sharing. rewrite filter_cons.
  destruct (decide (p.1 = ca)); reflexivity.
Qed.

(** [grouped[ca]] after the loop: what was there, then the scores of the
    points with count [ca], in the order of the list. *)
Lemma group_scores_from_lookup points : ∀ (grouped : gmap Z (list R)) ca,
  foldl (λ grouped p, <[p.1 := default [] (grouped !! p.1) ++ [p.2]]> grouped)
        grouped points !! ca =
  match grouped !! ca, scores_sharing ca points with
  | None, [] => None
  | o, shared => Some (default [] o ++ shared)
  end.
Proof.
  induction points as [|p points IH]; intros grouped ca; simpl.
  - destruct (grouped !! ca); simpl; [rewrite app_nil_r|]; reflexivity.
  - rewrite IH, scores_sharing_cons.
    destruct (decide (p.1 = ca)) as [->|Hne].
    + rewrite lookup_insert_eq.
      destruct (grouped !! ca) as [l|]; simpl; [rewrite <- app_assoc|];
        reflexivity.
    + rewrite lookup_insert_ne by done. reflexivity.
Qed.

Lemma group_scores_lookup points ca :
  group_scores points !! ca =
  match scores_sharing ca points with
  | [] => None
  | shared => Some shared
  end.
Proof.
  unfold group_scores. rewrite group_scores_from_lookup, lookup_empty.
  destruct (scores_sharing ca points); reflexivity.
Qed.

Lemma list_to_map_zip_fmap (f : Z → R) (keys : list Z) (k : Z) :
  (list_to_map (zip keys (f <$> keys)) : gmap Z R) !! k =
  if decide (k ∈ keys) then Some (f k) else None.
Proof.
  induction keys as [|x keys IH].
  - simpl. rewrite lookup_empty. destruct (decide (k ∈ [])) as [H|]; [|done].
    by apply elem_of_nil in H.
  - change (zip (x :: keys) (f <$> x :: keys))
      with ((x, f x) :: zip keys (f <$> keys)).
    rewrite list_to_map_cons.
    destruct (decide (x = k)) as [->|Hne].
    + rewrite lookup_insert_eq. rewrite decide_True; [done|]. by left.
    + rewrite lookup_insert_ne by done. rewrite IH.
      destruct (decide (k ∈ keys)) as [Hin|Hnin].
      * rewrite decide_True; [done|]. by right.
      * rewrite decide_False; [done|]. intros Hin.
        apply elem_of_cons in Hin as [->|]; done.
Qed.

(** The table maps every key of [grouped] to the mean of its scores. *)
Lemma build_score_map_lookup (grouped : gmap Z (list R)) (k : Z) :
  build_score_map grouped !! k = np_mean <$> grouped !! k.
Proof.
  unfold build_score_map. rewrite list_to_map_zip_fmap.
  destruct (grouped !! k) as [l|] eqn:Hk; simpl.
  - rewrite decide_True; [done|].
    rewrite merge_sort_Permutation, elem_of_elements, elem_of_dom. eauto.
  - rewrite decide_False; [done|].
    rewrite merge_sort_Permutation, elem_of_elements, elem_of_dom.
    rewrite Hk. by intros [? ?].
Qed.

Lemma score_map_of_points points ca :
  build_score_map (group_scores points) !! ca =
  match scores_sharing ca points with
  | [] => None
  | shared => Some (np_mean shared)
  end.
Proof.
  rewrite build_score_map_lookup, group_scores_lookup.
  destruct (scores_sharing ca points); reflexivity.
Qed.

(** A count of the list has at least its own score in its group. *)
Lemma scores_sharing_nonempty cas scores ca :
  length cas = length scores → ca ∈ cas →
  scores_sharing ca (zip cas scores) ≠ [].
Proof.
  revert scores. induction cas as [|c cas IH]; intros [|s scores] Hlen Hin;
    simpl in *; try discriminate.
  - by apply elem_of_nil in Hin.
  - rewrite scores_sharing_cons. simpl.
    destruct (decide (c = ca)) as [->|Hne]; [done|].
    apply elem_of_cons in Hin as [->|Hin]; [done|].
    apply IH; [lia|done].
Qed.

(** The loop over the points computes the factors of the spec. *)
Lemma conversion_factors_spec points :
  conversion_factors points = factors_of_positive_counts points.
Proof.
  unfold factors_of_positive_counts.
  induction points as [|[ca score] points IH]; simpl; [done|].
  rewrite filter_cons. simpl.
  destruct (Z.gtb_spec ca 0).
  - rewrite decide_True by lia. simpl. by rewrite IH.
  - rewrite decide_False by lia. done.
Qed.

Lemma conversion_factors_nonempty cas scores :
  length cas = length scores → (∃ ca, ca ∈ cas ∧ (0 < ca)%Z) →
  conversion_factors (zip cas scores) ≠ [].
Proof.
  revert scores. induction cas as [|c cas IH]; intros [|s scores] Hlen [ca [Hin Hpos]];
    simpl in *; try discriminate.
  - by apply elem_of_nil in Hin.
  - destruct (Z.gtb_spec c 0); [done|].
    apply elem_of_cons in Hin as [->|Hin]; [lia|].
    apply IH; [lia|eauto].
Qed.


End ScoreMap.

(** ** The calibration invariant *)

Section Invariant.
Local Open Scope R_scope.
Import TriEstimator.

Lemma consistent_init tq mn mx mean sd name dir :
  consistent (__init__ tq mn mx mean sd name dir).
Proof. unfold consistent; simpl. done. Qed.

Lemma consistent_set self cas scores years stats :
  consistent self →
  consistent (set_historical_data self cas scores years stats).1.
Proof.
  intros Hself. unfold set_historical_data.
  destruct (Nat.eqb_spec (length cas) (length scores)) as [Hlen|]; simpl; [|done].
  destruct (Nat.ltb_spec (length cas) 2); simpl; [done|].
  destruct (Nat.ltb_spec 0 (length (conversion_factors (zip cas scores))))
    as [Hpos|]; simpl.
  - unfold consistent; simpl. exists cas, scores.
    repeat split; try done.
    intros Hnil. rewrite Hnil in Hpos. simpl in Hpos. lia.
  - unfold consistent; simpl. done.
Qed.

(** Every reachable estimator is consistent. *)
Lemma reachable_consistent self : reachable self → consistent self.
Proof.
  induction 1; [apply consistent_init | by apply consistent_set].
Qed.

(** The population parameters never change. *)
Lemma set_historical_data_parameters self cas scores years stats :
  let self' := (set_historical_data self cas scores years stats).1 in
  total_questions self' = total_questions self ∧
  min_score self' = min_score self ∧
  max_score self' = max_score self ∧
  std_deviation self' = std_deviation self.
Proof.
  unfold set_historical_data.
  destruct (negb _); simpl; [done|].
  destruct (_ <? 2)%nat; simpl; [done|].
  destruct (0 <? _)%nat; simpl; done.
Qed.

(** In a consistent estimator the table holds exactly the exact historical
    scores: for each count of the history, the mean of its scores. *)
Lemma score_map_exact self ca :
  consistent self →
  _score_map self ≫= (.!! ca) = exact_historical_score self ca.
Proof.
  unfold consistent, exact_historical_score, personal_factor.
  destruct (_interpolator self).
  - intros (cas & scores & -> & -> & _ & _ & _ & -> & ->). simpl.
    apply score_map_of_points.
  - intros [-> Hnone]. simpl.
    unfold personal_factor in Hnone.
    destruct (_conversion_factor self) as [[?|]|]; done.
Qed.

Lemma interpolator_factor self f ca :
  consistent self → _interpolator self = Some f →
  ∃ factor, personal_factor self = Some factor ∧
            call_interpolator self f ca = Ok (factor * IZR ca).
Proof.
  unfold consistent, personal_factor. intros H Hf. rewrite Hf in H.
  destruct H as (cas & scores & _ & _ & _ & _ & _ & Hfactor & _).
  destruct f. unfold call_interpolator. rewrite Hfactor. eauto.
Qed.

End Invariant.

(** ** The logistic curve *)

Section Logistic.
Local Open Scope R_scope.
Import TriEstimator.

Lemma logistic_unit z : 0 < 1 / (1 + exp (- z)) < 1.
Proof.
  pose proof (exp_pos (- z)) as Hexp.
  split.
  - apply Rdiv_lt_0_compat; lra.
  - apply (Rmult_lt_reg_r (1 + exp (- z))); [lra|].
    field_simplify; lra.
Qed.

Lemma logistic_increasing z1 z2 :
  z1 <= z2 → 1 / (1 + exp (- z1)) <= 1 / (1 + exp (- z2)).
Proof.
  intros Hz.
  pose proof (exp_pos (- z1)). pose proof (exp_pos (- z2)).
  assert (exp (- z2) <= exp (- z1)) as Hexp.
  { destruct (Req_dec z1 z2) as [->|Hne]; [lra|].
    left. apply exp_increasing. lra. }
  unfold Rdiv. rewrite !Rmult_1_l.
  apply Rinv_le_contravar; lra.
Qed.

Lemma logistic_population_model_bounds mn mx tq ca :
  mn <= mx → mn <= logistic_population_model mn mx tq ca <= mx.
Proof.
  intros Hle. unfold logistic_population_model.
  match goal with |- context [1 / (1 + exp (- ?z))] =>
    pose proof (logistic_unit z) as Hs; set (s := 1 / (1 + exp (- z))) in * end.
  split; nra.
Qed.

Lemma logistic_population_model_monotone mn mx tq ca1 ca2 :
  mn <= mx → (0 < tq)%Z → (ca1 <= ca2)%Z →
  logistic_population_model mn mx tq ca1 <= logistic_population_model mn mx tq ca2.
Proof.
  intros Hle Htq Hca. unfold logistic_population_model.
  assert (0 < IZR tq) as Htq' by (apply IZR_lt; lia).
  assert (IZR ca1 <= IZR ca2) as Hca' by (apply IZR_le; lia).
  assert ((IZR ca1 / IZR tq - 0.5) / 0.15 <= (IZR ca2 / IZR tq - 0.5) / 0.15) as Hz.
  { apply Rmult_le_compat_r; [lra|].
    apply Rplus_le_compat_r.
    apply Rmult_le_compat_r; [|done].
    left. by apply Rinv_0_lt_compat. }
  apply logistic_increasing in Hz.
  nra.
Qed.

(** With [min_score <= max_score] the adjustments at the two extreme counts
    change nothing: the method returns the value of the model. *)
Lemma estimate_with_logistic_model self ca :
  min_score self <= max_score self → total_questions self ≠ 0%Z →
  _estimate_with_logistic self ca =
  Ok (logistic_population_model (min_score self) (max_score self)
        (total_questions self) ca).
Proof.
  intros Hle Htq. unfold _estimate_with_logistic, proportion.
  destruct (Z.eqb_spec (total_questions self) 0); [done|]. simpl.
  pose proof (logistic_population_model_bounds (min_score self)
                (max_score self) (total_questions self) ca Hle) as Hb.
  unfold logistic_population_model in *. simpl in Hb.
  f_equal.
  destruct (ca =? 0)%Z.
  - unfold Rmax. destruct Rle_dec; lra.
  - destruct (ca =? total_questions self)%Z; [|done].
    unfold Rmin. destruct Rle_dec; lra.
Qed.

End Logistic.

(** ** The contract of [estimate_score] *)

Section EstimateScore.
Local Open Scope R_scope.
Import TriEstimator.


Lemma estimate_score_valid self ca use_logistic year :
  (0 <= ca <= total_questions self)%Z →
  estimate_score self ca use_logistic year =
  match _score_map self ≫= (.!! ca) with
  | Some exact => Ok exact
  | None =>
      match _interpolator self with
      | Some f => call_interpolator self f ca
      | None =>
          if use_logistic then _estimate_with_logistic self ca
          else _estimate_with_linear self ca
      end
  end.
Proof.
  intros H. unfold estimate_score.
  destruct (Z.ltb_spec ca 0); simpl; [lia|].
  destruct (Z.gtb_spec ca (total_questions self)); [lia|done].
Qed.

(** A valid count without an exact historical score is estimated by the
    personal factor when there is one, by the logistic model otherwise. *)
Lemma estimate_score_no_exact self ca year :
  consistent self →
  min_score self <= max_score self →
  total_questions self ≠ 0%Z →
  (0 <= ca <= total_questions self)%Z →
  exact_historical_score self ca = None →
  estimate_score self ca true year =
  match personal_factor self with
  | Some factor => Ok (factor * IZR ca)
  | None => Ok (logistic_population_model (min_score self) (max_score self)
                  (total_questions self) ca)
  end.
Proof.
  intros Hc Hle Htq Hca Hexact.
  rewrite estimate_score_valid by done.
  rewrite score_map_exact, Hexact by done.
  destruct (_interpolator self) as [f|] eqn:Hf.
  - destruct (interpolator_factor self f ca Hc Hf) as (k & -> & ->). done.
  - unfold consistent in Hc. rewrite Hf in Hc. destruct Hc as [_ ->].
    by apply estimate_with_logistic_model.
Qed.







End EstimateScore.

(** ** [set_historical_data]: failure and no-op *)

Section SetHistoricalData.
Import TriEstimator.

(** C7. [set_historical_data] fails, with the [ValueError] of unequal
    lengths, exactly when the two lists differ in length, and then the
    estimator is left as it was; with lists of equal length it succeeds, and
    with fewer than 2 points it changes nothing. *)
Theorem set_historical_data_length_mismatch self cas scores years stats :
  let '(self', outcome) := set_historical_data self cas scores years stats in
  (length cas ≠ length scores →
     self' = self ∧
     outcome = Raise (ValueError
                 [Lit "correct_answers and scores must have same length"])) ∧
  (length cas = length scores → outcome = Ok tt) ∧
  (length cas = length scores → (length cas < 2)%nat → self' = self).
Proof.
  unfold set_historical_data.
  destruct (Nat.eqb_spec (length cas) (length scores)) as [Hlen|Hlen]; simpl.
  - destruct (Nat.ltb_spec (length cas) 2); simpl.
    + repeat split; done.
    + destruct (0 <? _)%nat; repeat split; (done || lia).
  - repeat split; done.
Qed.

End SetHistoricalData.

(** ** Sorting and the median *)

Section Median.
Local Open Scope R_scope.

Lemma insert_sorted_Permutation x l : insert_sorted x l ≡ₚ x :: l.
Proof.
  induction l as [|y l IH]; simpl; [done|].
  destruct (Rle_dec x y); [done|].
  rewrite IH. apply Permutation_swap.
Qed.

Lemma sorted_Permutation l : sorted l ≡ₚ l.
Proof.
  induction l as [|x l IH]; simpl; [done|].
  by rewrite insert_sorted_Permutation, IH.
Qed.

Lemma sorted_length l : length (sorted l) = length l.
Proof. by rewrite sorted_Permutation. Qed.

Lemma insert_sorted_Sorted x l :
  Sorted Rle l → Sorted Rle (insert_sorted x l).
Proof.
  induction 1 as [|y l Hs IH Hhd]; simpl.
  - repeat constructor.
  - destruct (Rle_dec x y) as [Hxy|Hxy].
    + constructor; [by constructor | by constructor].
    + constructor; [done|].
      destruct l as [|z l]; simpl in *.
      * constructor. lra.
      * destruct (Rle_dec x z); constructor; [lra|].
        by inversion Hhd.
Qed.

(** [sorted] does sort. *)
Lemma sorted_Sorted l : Sorted Rle (sorted l).
Proof.
  induction l; simpl; [constructor | by apply insert_sorted_Sorted].
Qed.

Lemma nth_nonneg (l : list R) i : Forall (λ x, 0 <= x) l → 0 <= nth i l 0.
Proof.
  intros H. revert i. induction H as [|x l Hx _ IH]; intros [|i]; simpl;
    try lra; try done.
Qed.

(** The median of non-negative numbers is non-negative. *)
Lemma np_median_nonneg l : Forall (λ x, 0 <= x) l → 0 <= np_median l.
Proof.
  intros H. unfold np_median.
  assert (Forall (λ x, 0 <= x) (sorted l)) as Hs
    by (by rewrite sorted_Permutation).
  destruct (Nat.even _).
  - pose proof (nth_nonneg _ (length (sorted l) / 2 - 1) Hs).
    pose proof (nth_nonneg _ (length (sorted l) / 2) Hs). lra.
  - by apply nth_nonneg.
Qed.

Lemma conversion_factors_nonneg cas scores :
  Forall (λ x, 0 <= x) scores →
  Forall (λ x, 0 <= x) (TriEstimator.conversion_factors (zip cas scores)).
Proof.
  intros H. revert cas. induction H as [|s scores Hs _ IH]; intros [|c cas];
    simpl; try constructor.
  destruct (Z.gtb_spec c 0); [|apply IH].
  constructor; [|apply IH].
  assert (0 < IZR c) by (apply IZR_lt; lia).
  apply Rmult_le_pos; [done|]. left. by apply Rinv_0_lt_compat.
Qed.

End Median.

(** ** Monotonicity of the estimate *)

Section Monotone.
Local Open Scope R_scope.
Import TriEstimator.

(** The factor of a reachable estimator whose historical scores are
    non-negative is non-negative. *)
Lemma personal_factor_nonneg self factor :
  reachable self →
  (∀ scores, _historical_scores self = Some scores →
             Forall (λ x, 0 <= x) scores) →
  _interpolator self ≠ None →
  personal_factor self = Some factor → 0 <= factor.
Proof.
  intros Hreach Hscores Hinterp. apply reachable_consistent in Hreach.
  unfold consistent in Hreach.
  destruct (_interpolator self); [|done].
  destruct Hreach as (cas & scores & _ & Hs & _ & _ & _ & Hf & _).
  unfold personal_factor. rewrite Hf. intros [= <-].
  apply np_median_nonneg, conversion_factors_nonneg. by apply Hscores.
Qed.

(** C5. On a reachable estimator with [min_score <= max_score], a positive
    question count and non-negative historical scores, for two valid counts
    [ca1 <= ca2] that have no exact historical score (so that resolution goes
    through the personal factor or the logistic model), [estimate_score]
    returns for both and the estimate of [ca1] is at most that of [ca2]. *)
Theorem estimate_score_monotone self ca1 ca2 year :
  reachable self →
  min_score self <= max_score self →
  (0 < total_questions self)%Z →
  (∀ scores, _historical_scores self = Some scores →
             Forall (λ x, 0 <= x) scores) →
  (0 <= ca1)%Z → (ca1 <= ca2)%Z → (ca2 <= total_questions self)%Z →
  exact_historical_score self ca1 = None →
  exact_historical_score self ca2 = None →
  ∃ s1 s2,
    estimate_score self ca1 true year = Ok s1 ∧
    estimate_score self ca2 true year = Ok s2 ∧
    s1 <= s2.
Proof.
  intros Hreach Hle Htq Hscores H0 H12 H2 He1 He2.
  pose proof (reachable_consistent _ Hreach) as Hc.
  rewrite !estimate_score_no_exact by (done || lia).
  destruct (personal_factor self) as [factor|] eqn:Hf.
  - exists (factor * IZR ca1), (factor * IZR ca2). repeat split.
    assert (0 <= factor) as Hpos.
    { apply (personal_factor_nonneg self); try done.
      intros Hnone. unfold consistent in Hc. rewrite Hnone in Hc.
      destruct Hc as [_ Hc]. congruence. }
    apply Rmult_le_compat_l; [done|]. by apply IZR_le.
  - eexists _, _. repeat split.
    by apply logistic_population_model_monotone.
Qed.

Lemma estimate_score_monotone_witness :
  (∃ s1 s2,
     estimate_score with_defaults 10 true None = Ok s1 ∧
     estimate_score with_defaults 20 true None = Ok s2 ∧
     s1 <= s2) ∧
  (let calibrated :=
     (set_historical_data with_defaults [20; 30]%Z [500; 650] None None).1 in
   ∃ s1 s2,
     estimate_score calibrated 10 true None = Ok s1 ∧
     estimate_score calibrated 25 true None = Ok s2 ∧
     s1 <= s2).
Proof.
  split.
  - apply estimate_score_monotone.
    + apply reachable_init.
    + simpl. lra.
    + simpl. lia.
    + simpl. discriminate.
    + lia.
    + lia.
    + simpl. lia.
    + reflexivity.
    + reflexivity.
  - apply estimate_score_monotone.
    + apply reachable_set, reachable_init.
    + simpl. lra.
    + simpl. lia.
    + simpl. intros scores [= <-]. repeat constructor; lra.
    + lia.
    + lia.
    + simpl. lia.
    + reflexivity.
    + reflexivity.
Defined.

End Monotone.

(** ** The calibration round trip *)

Section RoundTrip.
Local Open Scope R_scope.
Import TriEstimator.

(** The object that a calibration with at least 2 points, one of them with a
    positive count, leaves behind. *)
Lemma set_historical_data_calibrated self cas scores years stats :
  length cas = length scores → (2 <= length cas)%nat →
  (∃ ca, ca ∈ cas ∧ (0 < ca)%Z) →
  set_historical_data self cas scores years stats =
  (mk (total_questions self) (min_score self) (max_score self)
      (mean_score self) (std_deviation self) (area_name self) (data_dir self)
      (Some (build_score_map (group_scores (zip cas scores))))
      (Some factor_interpolator)
      (Some cas) (Some scores) (Some years)
      (Some (Some (np_median (conversion_factors (zip cas scores))))),
   Ok tt).
Proof.
  intros Hlen H2 Hpos. unfold set_historical_data.
  rewrite (proj2 (Nat.eqb_eq _ _) Hlen). simpl.
  destruct (Nat.ltb_spec (length cas) 2); [lia|].
  pose proof (conversion_factors_nonempty cas scores Hlen Hpos) as Hne.
  destruct (conversion_factors (zip cas scores)); [done|]. reflexivity.
Qed.

(** C6, as amended. After [set_historical_data] with two lists of equal
    length, at least 2 points and at least one positive count, the call has
    succeeded, the personal factor is the median of [score / correct_answers]
    over the points with a positive count, and for every count of the list
    that lies in [0, total_questions], [estimate_score] returns the mean of
    the supplied scores that share this count. *)
Theorem calibration_round_trip self cas scores years stats :
  length cas = length scores → (2 <= length cas)%nat →
  (∃ ca, ca ∈ cas ∧ (0 < ca)%Z) →
  let '(self', outcome) := set_historical_data self cas scores years stats in
  outcome = Ok tt ∧
  personal_factor self' =
    Some (np_median (factors_of_positive_counts (zip cas scores))) ∧
  ∀ ca use_logistic year,
    ca ∈ cas → (0 <= ca <= total_questions self)%Z →
    estimate_score self' ca use_logistic year =
    Ok (np_mean (scores_sharing ca (zip cas scores))).
Proof.
  intros Hlen H2 Hpos.
  rewrite set_historical_data_calibrated by done.
  split; [done|]. split.
  - unfold personal_factor; simpl. by rewrite conversion_factors_spec.
  - intros ca use_logistic year Hin Hrange.
    rewrite estimate_score_valid by (simpl; lia). simpl.
    rewrite score_map_of_points.
    pose proof (scores_sharing_nonempty cas scores ca Hlen Hin) as Hne.
    destruct (scores_sharing ca (zip cas scores)); done.
Qed.

(** The example of the spec: [set_historical_data([20, 30], [500.0, 650.0])],
    then [estimate_score(20) == 500.0] and [estimate_score(30) == 650.0]. *)
Lemma calibration_round_trip_witness :
  let self' :=
    (set_historical_data with_defaults [20; 30]%Z [500; 650] None None).1 in
  estimate_score self' 20 true None = Ok 500 ∧
  estimate_score self' 30 true None = Ok 650.
Proof.
  pose proof (calibration_round_trip with_defaults [20; 30]%Z [500; 650]
                None None eq_refl (le_n 2)
                (ex_intro _ 20%Z (conj (list_elem_of_here _ _) eq_refl))) as H.
  destruct (set_historical_data with_defaults [20; 30]%Z [500; 650] None None)
    as [self' outcome].
  destruct H as (_ & _ & H). simpl. split.
  - rewrite H; [|by left|simpl; lia].
    f_equal. unfold scores_sharing, np_mean. simpl. lra.
  - rewrite H; [|right; by left|simpl; lia].
    f_equal. unfold scores_sharing, np_mean. simpl. lra.
Defined.

(** C6 as stated fails: a supplied count above [total_questions] is not
    estimated at all, and a history whose counts are all 0 stores no factor
    although the call succeeds. *)
Lemma calibration_round_trip_counterexample :
  estimate_score
    (set_historical_data with_defaults [50; 20]%Z [900; 500] None None).1
    50 true None =
    Raise (ValueError [Lit "Correct answers must be between 0 and "; FmtInt 45])
  ∧ (set_historical_data with_defaults [0; 0]%Z [300; 310] None None).2 = Ok tt
  ∧ personal_factor
      (set_historical_data with_defaults [0; 0]%Z [300; 310] None None).1 = None.
Proof. repeat split. Qed.

End RoundTrip.

(** ** The three-point range *)

Section ScoreRange.
Local Open Scope R_scope.
Import TriEstimator.

(** The loop over the history computes the residuals of the spec: actual
    score minus factor * correct_answers, point by point. *)
Lemma prediction_errors_residuals self f scores factor :
  _historical_scores self = Some scores →
  _conversion_factor self = Some (Some factor) →
  ∀ cas i, (i + length cas <= length scores)%nat →
  prediction_errors self f i cas =
  Ok (zip_with (λ ca score, score - factor * IZR ca) cas (drop i scores)).
Proof.
  intros Hs Hf. induction cas as [|ca cas IH]; intros i Hlen; simpl in *.
  - done.
  - rewrite Hs.
    destruct (lookup_lt_is_Some_2 scores i) as [s Hi]; [lia|].
    rewrite Hi, (drop_S _ _ _ Hi).
    destruct f. unfold call_interpolator at 1. rewrite Hf. simpl.
    rewrite IH by lia. done.
Qed.

(** Whatever the base estimate, the residuals and the growth factor are, the
    clipping and the swap order the three points inside [300, 1000]. *)
Lemma range_points_ordered (a b m : R) :
  let pessimistic := np_clip a 300 1000 in
  let optimistic := np_clip b 300 1000 in
  let band :=
    if Rgtb pessimistic optimistic then (optimistic, pessimistic)
    else (pessimistic, optimistic) in
  300 <= band.1 ∧
  band.1 <= np_clip m band.1 band.2 ∧
  np_clip m band.1 band.2 <= band.2 ∧
  band.2 <= 1000.
Proof.
  intros pessimistic optimistic band.
  assert (300 <= pessimistic <= 1000) by (apply np_clip_bounds; lra).
  assert (300 <= optimistic <= 1000) by (apply np_clip_bounds; lra).
  assert (band.1 <= band.2) as Hband.
  { unfold band. destruct (Rgtb pessimistic optimistic) eqn:Hgt; simpl.
    - apply Rgtb_true in Hgt. lra.
    - by apply Rgtb_false in Hgt. }
  pose proof (np_clip_bounds m _ _ Hband).
  unfold band in *. destruct (Rgtb pessimistic optimistic); simpl in *; lra.
Qed.

Lemma estimate_score_range_unavailable self ca year :
  _interpolator self = None → estimate_score_range self ca year = Ok None.
Proof. intros H. unfold estimate_score_range. by rewrite H. Qed.

Lemma estimate_score_range_available self ca year :
  consistent self → _interpolator self ≠ None →
  ∃ p c o,
    estimate_score_range self ca year = Ok (Some (p, c, o)) ∧
    300 <= p ∧ p <= c ∧ c <= o ∧ o <= 1000 ∧
    c = np_clip ((p + o) / 2 * _calculate_growth_factor self) p o.
Proof.
  intros Hc Hne. unfold consistent in Hc. unfold estimate_score_range.
  destruct (_interpolator self) as [f|] eqn:Hf; [|done].
  destruct Hc as (cas & scores & -> & Hs & Hlen & H2 & _ & Hfac & _).
  destruct (Nat.ltb_spec (length cas) 2); [lia|].
  destruct f. unfold call_interpolator at 1. rewrite Hfac. simpl.
  rewrite (prediction_errors_residuals self _ scores _ Hs Hfac) by lia.
  simpl.
  match goal with |- context [Rgtb (np_clip ?a 300 1000) (np_clip ?b 300 1000)] =>
    pose proof (λ m, range_points_ordered a b m) as Hord;
    set (p0 := np_clip a 300 1000) in *; set (o0 := np_clip b 300 1000) in *
  end.
  simpl in Hord.
  destruct (Rgtb p0 o0); simpl in *; eexists _, _, _;
    (split; [reflexivity|]);
    match goal with |- context [np_clip ?m _ _] => specialize (Hord m) end;
    repeat split; tauto.
Qed.

(** C3, as amended. A reachable estimator with no personal factor (one never
    calibrated with 2 or more points among them) has no range: the result is
    [None]; a call of [set_historical_data] with fewer than 2 points does not
    change that.  After a calibration with two lists of equal length, at
    least 2 points and at least one positive count, for every count the
    result is a triple (pessimistic, calculated, optimistic) with
    300 <= pessimistic <= calculated <= optimistic <= 1000, where calculated
    is the midpoint times the growth factor, clipped into the band. *)
Theorem estimate_score_range_contract self cas scores years stats ca year :
  reachable self →
  let self' := (set_historical_data self cas scores years stats).1 in
  (personal_factor self = None → estimate_score_range self ca year = Ok None) ∧
  ((length cas < 2)%nat → self' = self) ∧
  (length cas = length scores → (2 <= length cas)%nat →
   (∃ c, c ∈ cas ∧ (0 < c)%Z) →
   ∃ p c o,
     estimate_score_range self' ca year = Ok (Some (p, c, o)) ∧
     300 <= p ∧ p <= c ∧ c <= o ∧ o <= 1000 ∧
     c = np_clip ((p + o) / 2 * _calculate_growth_factor self') p o).
Proof.
  intros Hreach self'. split; [|split].
  - intros Hnone. apply estimate_score_range_unavailable.
    apply reachable_consistent in Hreach. unfold consistent in Hreach.
    destruct (_interpolator self); [|done].
    destruct Hreach as (? & ? & _ & _ & _ & _ & _ & Hf & _).
    unfold personal_factor in Hnone. rewrite Hf in Hnone. done.
  - intros Hlt. unfold self', set_historical_data.
    destruct (negb _); [done|].
    destruct (Nat.ltb_spec (length cas) 2); [done|lia].
  - intros Hlen H2 Hpos. apply estimate_score_range_available.
    + apply consistent_set. by apply reachable_consistent.
    + unfold self'. by rewrite set_historical_data_calibrated.
Qed.

Lemma estimate_score_range_contract_witness :
  let self' :=
    (set_historical_data with_defaults [20; 30]%Z [500; 650] None None).1 in
  estimate_score_range with_defaults 25 None = Ok None ∧
  ∃ p c o,
    estimate_score_range self' 25 None = Ok (Some (p, c, o)) ∧
    300 <= p ∧ p <= c ∧ c <= o ∧ o <= 1000.
Proof.
  destruct (estimate_score_range_contract with_defaults [20; 30]%Z [500; 650]
              None None 25%Z None (reachable_init _ _ _ _ _ _ _))
    as (Hnone & _ & Hsome).
  split.
  - apply Hnone. reflexivity.
  - destruct (Hsome eq_refl (le_n 2)
                (ex_intro _ 20%Z (conj (list_elem_of_here _ _) eq_refl)))
      as (p & c & o & H & H1 & H2 & H3 & H4 & _).
    exists p, c, o. tauto.
Defined.

(** C3 as stated fails: a calibration with 2 points whose counts are all 0
    succeeds and still leaves the range unavailable. *)
Lemma estimate_score_range_counterexample :
  (set_historical_data with_defaults [0; 0]%Z [300; 310] None None).2 = Ok tt ∧
  estimate_score_range
    (set_historical_data with_defaults [0; 0]%Z [300; 310] None None).1
    10 None = Ok None.
Proof. split; reflexivity. Qed.

End ScoreRange.

(** ** Bounds of the estimate and the confidence interval *)

Section Bounds.
Local Open Scope R_scope.
Import TriEstimator.

(** With no personal calibration active the estimate of a valid count lies
    between [min_score] and [max_score]. *)
Lemma estimate_score_bounded self ca year :
  reachable self → personal_factor self = None →
  min_score self <= max_score self → total_questions self ≠ 0%Z →
  (0 <= ca <= total_questions self)%Z →
  ∃ score, estimate_score self ca true year = Ok score ∧
           min_score self <= score <= max_score self.
Proof.
  intros Hreach Hnone Hle Htq Hca.
  rewrite estimate_score_no_exact; try done.
  - rewrite Hnone. eexists. split; [reflexivity|].
    by apply logistic_population_model_bounds.
  - by apply reachable_consistent.
  - unfold exact_historical_score. by rewrite Hnone.
Qed.

Lemma get_confidence_interval_bounds norm_ppf self ca confidence score :
  estimate_score self ca true None = Ok score →
  get_confidence_interval norm_ppf self ca confidence =
  Ok (Rmax (min_score self) (score - margin_of_error norm_ppf self confidence),
      Rmin (max_score self) (score + margin_of_error norm_ppf self confidence)).
Proof.
  intros H. unfold get_confidence_interval. rewrite H. reflexivity.
Qed.

Lemma clipped_intervals_nested mn mx s m1 m2 :
  mn <= s <= mx → 0 <= m1 → m1 < m2 →
  let lo1 := Rmax mn (s - m1) in let hi1 := Rmin mx (s + m1) in
  let lo2 := Rmax mn (s - m2) in let hi2 := Rmin mx (s + m2) in
  mn <= lo2 ∧ lo2 <= lo1 ∧ lo1 <= hi1 ∧ hi1 <= hi2 ∧ hi2 <= mx ∧
  (¬ (lo1 = mn ∧ hi1 = mx) → hi1 - lo1 < hi2 - lo2).
Proof.
  intros Hs H1 H12. simpl. unfold Rmax, Rmin.
  repeat destruct Rle_dec; repeat split; try lra;
    intros Hfull; try lra; exfalso; apply Hfull; split; lra.
Qed.

Lemma margin_of_error_increasing norm_ppf self c1 c2 :
  quantile_like norm_ppf →
  0 < std_deviation self → (0 < total_questions self)%Z →
  0 <= c1 → c1 < c2 → c2 < 1 →
  0 <= margin_of_error norm_ppf self c1 ∧
  margin_of_error norm_ppf self c1 < margin_of_error norm_ppf self c2.
Proof.
  intros [Hhalf Hincr] Hstd Htq H0 H12 H1. unfold margin_of_error.
  assert (0 < sqrt (IZR (total_questions self))) as Hsqrt.
  { apply sqrt_lt_R0, IZR_lt. lia. }
  assert (0 < std_deviation self / sqrt (IZR (total_questions self))) as Hse
    by (by apply Rdiv_lt_0_compat).
  assert (norm_ppf ((1 + c1) / 2) < norm_ppf ((1 + c2) / 2)) as Hz
    by (apply Hincr; lra).
  assert (0 <= norm_ppf ((1 + c1) / 2)) as Hz0.
  { destruct (Req_dec c1 0) as [->|Hne].
    - replace ((1 + 0) / 2) with (1 / 2) by lra. lra.
    - left. rewrite <- Hhalf. apply Hincr; lra. }
  split; nra.
Qed.

(** C4, as amended. For an inverse normal CDF that is 0 at 1/2 and strictly
    increasing on [1/2, 1), an estimator with a positive standard deviation
    and question count, a count whose estimate lies in
    [min_score, max_score], and confidence levels 0 <= c1 < c2 < 1: both
    intervals are the estimate plus or minus the margin
    inverse_normal_cdf((1+confidence)/2) * std_deviation / sqrt(total_questions),
    the lower bound clipped at [min_score] and the upper one at [max_score];
    both lie within [min_score, max_score]; the interval at c2 contains the
    one at c1, and it is strictly wider unless the interval at c1 is already
    the whole of [min_score, max_score]. *)
Theorem confidence_interval_widens norm_ppf self ca c1 c2 score :
  quantile_like norm_ppf →
  estimate_score self ca true None = Ok score →
  min_score self <= score <= max_score self →
  0 < std_deviation self → (0 < total_questions self)%Z →
  0 <= c1 → c1 < c2 → c2 < 1 →
  ∃ i1 i2,
    get_confidence_interval norm_ppf self ca c1 = Ok i1 ∧
    get_confidence_interval norm_ppf self ca c2 = Ok i2 ∧
    i1 = (Rmax (min_score self) (score - margin_of_error norm_ppf self c1),
          Rmin (max_score self) (score + margin_of_error norm_ppf self c1)) ∧
    i2 = (Rmax (min_score self) (score - margin_of_error norm_ppf self c2),
          Rmin (max_score self) (score + margin_of_error norm_ppf self c2)) ∧
    min_score self <= i2.1 ∧ i2.1 <= i1.1 ∧ i1.1 <= i1.2 ∧ i1.2 <= i2.2 ∧
    i2.2 <= max_score self ∧
    (i1 ≠ (min_score self, max_score self) → width i1 < width i2).
Proof.
  intros Hppf Hscore Hin Hstd Htq H0 H12 H1.
  destruct (margin_of_error_increasing norm_ppf self c1 c2) as [Hm1 Hm12];
    try done.
  pose proof (clipped_intervals_nested (min_score self) (max_score self) score
                _ _ Hin Hm1 Hm12) as Hn.
  simpl in Hn. destruct Hn as (? & ? & ? & ? & ? & Hstrict).
  eexists _, _.
  split; [by apply get_confidence_interval_bounds|].
  split; [by apply get_confidence_interval_bounds|].
  do 2 (split; [reflexivity|]). simpl.
  repeat split; try done.
  intros Hne. unfold width; simpl. apply Hstrict.
  intros [Hlo Hhi]. apply Hne. by rewrite Hlo, Hhi.
Qed.

End Bounds.

Section ConfidenceExamples.
Local Open Scope R_scope.
Import TriEstimator.

Lemma confidence_interval_widens_witness :
  ∃ i1 i2,
    get_confidence_interval (λ p, p - 1 / 2) with_defaults 25 0.95 = Ok i1 ∧
    get_confidence_interval (λ p, p - 1 / 2) with_defaults 25 0.99 = Ok i2 ∧
    300 <= i2.1 ∧ i2.1 <= i1.1 ∧ i1.1 <= i1.2 ∧ i1.2 <= i2.2 ∧ i2.2 <= 900.
Proof.
  destruct (estimate_score_bounded with_defaults 25 None)
    as (score & Hscore & Hin).
  { apply reachable_init. }
  { reflexivity. }
  { simpl. lra. }
  { simpl. lia. }
  { simpl. lia. }
  assert (quantile_like (λ p, p - 1 / 2)) as Hppf.
  { split; [lra|]. intros p q ? ? ?. lra. }
  assert (0 < std_deviation with_defaults) as Hstd by (simpl; lra).
  assert (0 < total_questions with_defaults)%Z as Htq by (simpl; lia).
  assert (0 <= 0.95) as H0 by lra.
  assert (0.95 < 0.99) as H12 by lra.
  assert (0.99 < 1) as H1 by lra.
  destruct (confidence_interval_widens (λ p, p - 1 / 2) with_defaults 25
              0.95 0.99 score Hppf Hscore Hin Hstd Htq H0 H12 H1)
    as (i1 & i2 & Hi1 & Hi2 & _ & _ & Hb).
  exists i1, i2. simpl in Hb. tauto.
Defined.

Lemma np_median_pair a b : np_median [a; b] = (a + b) / 2.
Proof.
  unfold np_median. simpl. destruct (Rle_dec a b); simpl; lra.
Qed.

(** After a calibration with the points (20, 100.0) and (30, 150.0) the
    factor is 5, and 10 correct answers are estimated at 50. *)
Lemma calibrated_example_estimate self years stats year :
  (10 <= total_questions self)%Z →
  estimate_score
    (set_historical_data self [20; 30]%Z [100; 150] years stats).1
    10 true year = Ok 50.
Proof.
  intros Htq.
  rewrite set_historical_data_calibrated;
    [|reflexivity|simpl; lia|exists 20%Z; split; [by left|lia]].
  rewrite estimate_score_valid by (simpl; lia). simpl.
  rewrite score_map_of_points. simpl.
  rewrite np_median_pair. f_equal. lra.
Qed.

Lemma flat_calibrated_estimate :
  estimate_score flat_calibrated 10 true None = Ok 50.
Proof. apply calibrated_example_estimate. simpl. lia. Qed.

(** C4 as stated fails, whatever the inverse normal CDF is: on this
    estimator the intervals at 95% and at 99% for 10 correct answers are the
    same pair, so the second is not wider, and their upper bound 50 lies
    below [min_score = 300]. *)
Lemma confidence_interval_counterexample :
  (∀ norm_ppf : R → R,
     get_confidence_interval norm_ppf flat_calibrated 10 0.95 = Ok (300, 50)) ∧
  (∀ norm_ppf : R → R,
     get_confidence_interval norm_ppf flat_calibrated 10 0.99 = Ok (300, 50)) ∧
  min_score flat_calibrated = 300 ∧ max_score flat_calibrated = 900.
Proof.
  assert (∀ norm_ppf c, get_confidence_interval norm_ppf flat_calibrated 10 c
                        = Ok (300, 50)) as H.
  { intros norm_ppf c.
    rewrite (get_confidence_interval_bounds _ _ _ _ _ flat_calibrated_estimate).
    unfold margin_of_error. simpl.
    unfold Rdiv at 2. rewrite Rmult_0_l, Rmult_0_r.
    unfold Rmax, Rmin. repeat destruct Rle_dec; (f_equal; f_equal; lra) || lra. }
  repeat split; intros; apply H.
Qed.

End ConfidenceExamples.

(** ** The calculator *)

Section Calculator.
Local Open Scope R_scope.

Lemma exam_area_new_ok area tq ca s :
  (0 <= ca <= tq)%Z →
  ExamArea.new area tq ca s = Ok (ExamArea.mk area tq ca s).
Proof.
  intros H. unfold ExamArea.new, ExamArea.__post_init__. simpl.
  destruct (Z.ltb_spec ca 0); [lia|].
  destruct (Z.gtb_spec ca tq); [lia|done].
Qed.

Lemma exam_area_new_error area tq ca s :
  (ca < 0 ∨ ca > tq)%Z →
  ∃ err, ExamArea.new area tq ca s = Raise err ∧ exam_area_error err.
Proof.
  intros H. unfold ExamArea.new, ExamArea.__post_init__, exam_area_error. simpl.
  destruct (Z.ltb_spec ca 0).
  { eexists. split; [reflexivity|by left]. }
  destruct (Z.gtb_spec ca tq); [|lia].
  eexists. split; [reflexivity|]. right. by exists ca, tq.
Qed.

Lemma exam_area_new_cases area tq ca s :
  (0 <= ca <= tq)%Z ∧ ExamArea.new area tq ca s = Ok (ExamArea.mk area tq ca s)
  ∨ (ca < 0 ∨ ca > tq)%Z ∧
    ∃ err, ExamArea.new area tq ca s = Raise err ∧ exam_area_error err.
Proof.
  destruct (decide (0 <= ca <= tq)%Z).
  - left. split; [done|]. by apply exam_area_new_ok.
  - right. split; [lia|]. apply exam_area_new_error. lia.
Qed.

Lemma check_scores_ok scores :
  Forall (λ s, 0 <= s <= 1000) scores ↔ ExamResult.check_scores scores = Ok tt.
Proof.
  induction scores as [|s scores IH]; simpl.
  - split; [done|constructor].
  - destruct (Rltb s 0 || Rgtb s 1000) eqn:Hs.
    + apply out_of_range_true in Hs. split; [|done].
      intros Hall. inversion Hall; subst. lra.
    + apply out_of_range_false in Hs. rewrite <- IH. split.
      * intros Hall. by inversion Hall.
      * intros Hall. by constructor.
Qed.

Lemma post_init_ok r :
  Forall (λ s, 0 <= s <= 1000)
    [ExamResult.mathematics_score r; ExamResult.languages_score r;
     ExamResult.natural_sciences_score r; ExamResult.human_sciences_score r;
     ExamResult.essay_score r] ↔
  ExamResult.__post_init__ r = Ok r.
Proof.
  unfold ExamResult.__post_init__. rewrite check_scores_ok.
  destruct (ExamResult.check_scores _) as [[]|]; simpl; split;
    (done || discriminate).
Qed.

Lemma post_init_inv r r' : ExamResult.__post_init__ r = Ok r' → r' = r.
Proof.
  unfold ExamResult.__post_init__.
  destruct (ExamResult.check_scores _); simpl; unfold mret, result_ret;
    congruence.
Qed.

Lemma calculate_score_essay_invalid calc m l n h e :
  e < 0 ∨ e > 1000 →
  TriCalculator.calculate_score calc m l n h e =
  Raise (ValueError [Lit "Essay score must be between 0 and 1000"]).
Proof.
  intros H. unfold TriCalculator.calculate_score.
  by rewrite (proj2 (out_of_range_true e 0 1000) H).
Qed.

(** What a returned result says about the call. *)
Lemma calculate_score_Ok_inv calc m l n h e r :
  TriCalculator.calculate_score calc m l n h e = Ok r →
  0 <= e <= 1000 ∧
  (0 <= m <= TriCalculator.total_questions calc)%Z ∧
  (0 <= l <= TriCalculator.total_questions calc)%Z ∧
  (0 <= n <= TriCalculator.total_questions calc)%Z ∧
  (0 <= h <= TriCalculator.total_questions calc)%Z ∧
  ExamResult.essay_score r = e ∧
  ExamResult.areas r !! ESSAY = Some (ExamArea.mk ESSAY 1 1 (Some e)) ∧
  Forall (λ s, 0 <= s <= 1000)
    [ExamResult.mathematics_score r; ExamResult.languages_score r;
     ExamResult.natural_sciences_score r; ExamResult.human_sciences_score r] ∧
  ∃ e_math e_lang e_nat e_hum,
    TriCalculator.estimators calc !! MATHEMATICS = Some e_math ∧
    TriCalculator.estimators calc !! LANGUAGES = Some e_lang ∧
    TriCalculator.estimators calc !! NATURAL_SCIENCES = Some e_nat ∧
    TriCalculator.estimators calc !! HUMAN_SCIENCES = Some e_hum ∧
    let year := Some (TriCalculator.reference_year calc) in
    TriEstimator.estimate_score e_math m true year
      = Ok (ExamResult.mathematics_score r) ∧
    TriEstimator.estimate_score e_lang l true year
      = Ok (ExamResult.languages_score r) ∧
    TriEstimator.estimate_score e_nat n true year
      = Ok (ExamResult.natural_sciences_score r) ∧
    TriEstimator.estimate_score e_hum h true year
      = Ok (ExamResult.human_sciences_score r).
Proof.
  unfold TriCalculator.calculate_score, TriCalculator.estimator_of.
  destruct (Rltb e 0 || Rgtb e 1000) eqn:He; [discriminate|].
  apply out_of_range_false in He.
  destruct (exam_area_new_cases MATHEMATICS (TriCalculator.total_questions calc) m None)
    as [[Hm ->]|[_ (? & -> & _)]]; [|discriminate].
  destruct (exam_area_new_cases LANGUAGES (TriCalculator.total_questions calc) l None)
    as [[Hl ->]|[_ (? & -> & _)]]; [|discriminate].
  destruct (exam_area_new_cases NATURAL_SCIENCES (TriCalculator.total_questions calc) n None)
    as [[Hn ->]|[_ (? & -> & _)]]; [|discriminate].
  destruct (exam_area_new_cases HUMAN_SCIENCES (TriCalculator.total_questions calc) h None)
    as [[Hh ->]|[_ (? & -> & _)]]; [|discriminate].
  rewrite exam_area_new_ok by lia. simpl.
  destruct (TriCalculator.estimators calc !! MATHEMATICS) as [e_math|];
    [simpl|discriminate].
  destruct (TriEstimator.estimate_score e_math m true _) as [s_math|] eqn:Em;
    [simpl|discriminate].
  destruct (TriCalculator.estimators calc !! LANGUAGES) as [e_lang|];
    [simpl|discriminate].
  destruct (TriEstimator.estimate_score e_lang l true _) as [s_lang|] eqn:El;
    [simpl|discriminate].
  destruct (TriCalculator.estimators calc !! NATURAL_SCIENCES) as [e_nat|];
    [simpl|discriminate].
  destruct (TriEstimator.estimate_score e_nat n true _) as [s_nat|] eqn:En;
    [simpl|discriminate].
  destruct (TriCalculator.estimators calc !! HUMAN_SCIENCES) as [e_hum|];
    [simpl|discriminate].
  destruct (TriEstimator.estimate_score e_hum h true _) as [s_hum|] eqn:Eh;
    [simpl|discriminate].
  destruct (TriEstimator.estimate_score_range e_math m _); [simpl|discriminate].
  destruct (TriEstimator.estimate_score_range e_lang l _); [simpl|discriminate].
  destruct (TriEstimator.estimate_score_range e_nat n _); [simpl|discriminate].
  destruct (TriEstimator.estimate_score_range e_hum h _); [simpl|discriminate].
  intros Hpost. pose proof (post_init_inv _ _ Hpost) as ->.
  apply post_init_ok in Hpost. simpl in Hpost.
  apply Forall_cons in Hpost as [H1 Hpost].
  apply Forall_cons in Hpost as [H2 Hpost].
  apply Forall_cons in Hpost as [H3 Hpost].
  apply Forall_cons in Hpost as [H4 _].
  do 6 (split; [done|]).
  split; [reflexivity|].
  split; [repeat (constructor; [done|]); constructor|].
  exists e_math, e_lang, e_nat, e_hum. simpl. repeat split; done.
Qed.

Lemma init_estimators load tq custom use_inep year area :
  area ≠ ESSAY →
  ∃ mn mx mean sd,
    TriCalculator.estimators
      (TriCalculator.__init__ load tq custom use_inep year) !! area =
    Some (TriEstimator.__init__ tq mn mx mean sd
            (TriCalculator.area_name_mapping area) (Some "data")).
Proof.
  intros Harea. unfold TriCalculator.__init__; simpl.
  destruct area; [..|done]; eexists _, _, _, _;
    repeat (rewrite lookup_insert_ne by done); by rewrite lookup_insert_eq.
Qed.

Lemma init_invariant load tq custom use_inep year :
  calculator_invariant (TriCalculator.__init__ load tq custom use_inep year).
Proof.
  intros area Harea.
  destruct (init_estimators load tq custom use_inep year area Harea)
    as (mn & mx & mean & sd & ->).
  eexists. split; [reflexivity|]. split; [reflexivity|apply reachable_init].
Qed.

Lemma calibrate_invariant load calc area cas scores years :
  calculator_invariant calc →
  calculator_invariant
    (TriCalculator.calibrate_with_user_data load calc area cas scores years).1.
Proof.
  intros Hinv. unfold TriCalculator.calibrate_with_user_data.
  destruct (decide (area = ESSAY)); [done|].
  destruct (TriCalculator.estimators calc !! area) as [est|] eqn:Hest; [|done].
  destruct (_ && _); [|done].
  destruct (TriEstimator.set_historical_data est cas scores years _)
    as [est' outcome] eqn:Hset.
  simpl. intros area' Harea'. simpl.
  destruct (decide (area = area')) as [<-|Hne].
  - rewrite lookup_insert_eq. exists est'. split; [done|].
    destruct (Hinv area n) as (est0 & Hest0 & Htq & Hreach).
    rewrite Hest in Hest0. injection Hest0 as <-.
    pose proof (set_historical_data_parameters est cas scores years
                  (TriCalculator.inep_stats_for load area years)) as Hp.
    pose proof (reachable_set est cas scores years
                  (TriCalculator.inep_stats_for load area years) Hreach) as Hr.
    rewrite Hset in Hp, Hr. simpl in Hp, Hr.
    split; [|done]. destruct Hp as [-> _]. done.
  - rewrite lookup_insert_ne by done. by apply Hinv.
Qed.

Lemma reachable_calculator_invariant load calc :
  reachable_calculator load calc → calculator_invariant calc.
Proof.
  induction 1; [apply init_invariant | by apply calibrate_invariant].
Qed.

(** C8. On every reachable calculator, [calculate_area_score] and
    [get_confidence_interval] both fail for the essay, each with its own
    [ValueError], whatever the count; for each of the four objective areas
    the area's estimator exists and both calls are that estimator's
    [estimate_score] and [get_confidence_interval]. *)
Theorem essay_unsupported_objective_delegated load norm_ppf calc ca year confidence :
  reachable_calculator load calc →
  TriCalculator.calculate_area_score calc ESSAY ca year =
    Raise (ValueError
             [Lit "Essay score must be provided directly, not calculated"]) ∧
  TriCalculator.get_confidence_interval norm_ppf calc ESSAY ca confidence =
    Raise (ValueError [Lit "Confidence interval not applicable for essay"]) ∧
  ∀ area, area ≠ ESSAY →
    ∃ estimator,
      TriCalculator.estimators calc !! area = Some estimator ∧
      TriCalculator.calculate_area_score calc area ca year =
        TriEstimator.estimate_score estimator ca true year ∧
      TriCalculator.get_confidence_interval norm_ppf calc area ca confidence =
        TriEstimator.get_confidence_interval norm_ppf estimator ca confidence.
Proof.
  intros Hreach. apply reachable_calculator_invariant in Hreach.
  split; [reflexivity|]. split; [reflexivity|].
  intros area Harea. destruct (Hreach area Harea) as (est & Hest & _ & _).
  exists est. split; [done|].
  unfold TriCalculator.calculate_area_score,
    TriCalculator.get_confidence_interval.
  rewrite !decide_False by done. rewrite Hest. split; reflexivity.
Qed.

Lemma essay_unsupported_objective_delegated_witness :
  TriCalculator.calculate_area_score default_calculator ESSAY 1 None =
    Raise (ValueError
             [Lit "Essay score must be provided directly, not calculated"]) ∧
  TriCalculator.get_confidence_interval (λ p, p - 1 / 2)%R
      default_calculator ESSAY 1 0.95%R =
    Raise (ValueError [Lit "Confidence interval not applicable for essay"]).
Proof.
  pose proof (essay_unsupported_objective_delegated no_statistics
                (λ p, p - 1 / 2)%R default_calculator 1 None 0.95%R
                (reachable_calculator_init _ _ _ _ _)) as (H1 & H2 & _).
  split; [exact H1|exact H2].
Defined.

Lemma estimate_score_range_total self ca year :
  consistent self → is_Ok (TriEstimator.estimate_score_range self ca year).
Proof.
  intros Hc. destruct (TriEstimator._interpolator self) eqn:Hf.
  - destruct (estimate_score_range_available self ca year Hc)
      as (p & c & o & -> & _); [congruence|]. by eexists.
  - rewrite estimate_score_range_unavailable by done. by eexists.
Qed.

(** When the four estimates exist and lie in [0, 1000], the call returns. *)
Lemma calculate_score_returns calc m l n h e
    e_math e_lang e_nat e_hum s_math s_lang s_nat s_hum :
  let year := Some (TriCalculator.reference_year calc) in
  0 <= e <= 1000 →
  (0 <= m <= TriCalculator.total_questions calc)%Z →
  (0 <= l <= TriCalculator.total_questions calc)%Z →
  (0 <= n <= TriCalculator.total_questions calc)%Z →
  (0 <= h <= TriCalculator.total_questions calc)%Z →
  TriCalculator.estimators calc !! MATHEMATICS = Some e_math →
  TriCalculator.estimators calc !! LANGUAGES = Some e_lang →
  TriCalculator.estimators calc !! NATURAL_SCIENCES = Some e_nat →
  TriCalculator.estimators calc !! HUMAN_SCIENCES = Some e_hum →
  consistent e_math → consistent e_lang → consistent e_nat → consistent e_hum →
  TriEstimator.estimate_score e_math m true year = Ok s_math →
  TriEstimator.estimate_score e_lang l true year = Ok s_lang →
  TriEstimator.estimate_score e_nat n true year = Ok s_nat →
  TriEstimator.estimate_score e_hum h true year = Ok s_hum →
  0 <= s_math <= 1000 → 0 <= s_lang <= 1000 →
  0 <= s_nat <= 1000 → 0 <= s_hum <= 1000 →
  ∃ r, TriCalculator.calculate_score calc m l n h e = Ok r ∧
       ExamResult.mathematics_score r = s_math ∧
       ExamResult.languages_score r = s_lang ∧
       ExamResult.natural_sciences_score r = s_nat ∧
       ExamResult.human_sciences_score r = s_hum ∧
       ExamResult.essay_score r = e.
Proof.
  intros year He Hm Hl Hn Hh Em El En Eh Cm Cl Cn Ch Sm Sl Sn Sh Bm Bl Bn Bh.
  unfold TriCalculator.calculate_score, TriCalculator.estimator_of.
  rewrite (proj2 (out_of_range_false e 0 1000) He).
  rewrite !exam_area_new_ok by lia. simpl.
  rewrite Em; simpl. fold year. rewrite Sm; simpl.
  rewrite El; simpl. rewrite Sl; simpl.
  rewrite En; simpl. rewrite Sn; simpl.
  rewrite Eh; simpl. rewrite Sh; simpl.
  destruct (estimate_score_range_total e_math m year Cm) as [rm ->]. simpl.
  destruct (estimate_score_range_total e_lang l year Cl) as [rl ->]. simpl.
  destruct (estimate_score_range_total e_nat n year Cn) as [rn ->]. simpl.
  destruct (estimate_score_range_total e_hum h year Ch) as [rh ->]. simpl.
  eexists. split.
  - apply post_init_ok. simpl. repeat (constructor; [done|]). constructor.
  - simpl. repeat split; reflexivity.
Qed.

(** C9. [calculate_score] with an essay score below 0 or above 1000 fails
    with the [ValueError] whose message gives the bounds 0 and 1000; every
    result it returns carries the essay score it was given, in the result
    and in the essay area, unchanged; and it does return, with that essay
    score, for a valid essay score and valid counts on a calculator whose
    estimators are uncalibrated with 0 <= min_score <= max_score <= 1000 and
    a non-zero question count. *)
Theorem calculate_score_essay calc m l n h e :
  (e < 0 ∨ e > 1000 →
   TriCalculator.calculate_score calc m l n h e =
   Raise (ValueError [Lit "Essay score must be between 0 and 1000"])) ∧
  (∀ r, TriCalculator.calculate_score calc m l n h e = Ok r →
        0 <= e <= 1000 ∧ ExamResult.essay_score r = e ∧
        ExamResult.areas r !! ESSAY = Some (ExamArea.mk ESSAY 1 1 (Some e))) ∧
  (calculator_invariant calc →
   (∀ area estimator,
      TriCalculator.estimators calc !! area = Some estimator →
      personal_factor estimator = None ∧
      0 <= TriEstimator.min_score estimator ∧
      TriEstimator.min_score estimator <= TriEstimator.max_score estimator ∧
      TriEstimator.max_score estimator <= 1000) →
   TriCalculator.total_questions calc ≠ 0%Z →
   0 <= e <= 1000 →
   (0 <= m <= TriCalculator.total_questions calc)%Z →
   (0 <= l <= TriCalculator.total_questions calc)%Z →
   (0 <= n <= TriCalculator.total_questions calc)%Z →
   (0 <= h <= TriCalculator.total_questions calc)%Z →
   ∃ r, TriCalculator.calculate_score calc m l n h e = Ok r ∧
        ExamResult.essay_score r = e).
Proof.
  split; [apply calculate_score_essay_invalid|]. split.
  - intros r Hr. apply calculate_score_Ok_inv in Hr. tauto.
  - intros Hinv Hparams Htq He Hm Hl Hn Hh.
    assert (∀ area ca, area ≠ ESSAY →
              (0 <= ca <= TriCalculator.total_questions calc)%Z →
              ∃ est s,
                TriCalculator.estimators calc !! area = Some est ∧
                consistent est ∧
                TriEstimator.estimate_score est ca true
                  (Some (TriCalculator.reference_year calc)) = Ok s ∧
                0 <= s <= 1000) as Harea.
    { intros area ca Hne Hca.
      destruct (Hinv area Hne) as (est & Hest & Hq & Hreach).
      destruct (Hparams area est Hest) as (Hnone & H0 & Hle & H1).
      destruct (estimate_score_bounded est ca
                  (Some (TriCalculator.reference_year calc)))
        as (s & Hs & Hb); try done; try (rewrite Hq; done).
      exists est, s. split; [done|]. split; [by apply reachable_consistent|].
      split; [done|lra]. }
    destruct (Harea MATHEMATICS m) as (em & sm & ? & ? & ? & ?); [done..|].
    destruct (Harea LANGUAGES l) as (el & sl & ? & ? & ? & ?); [done..|].
    destruct (Harea NATURAL_SCIENCES n) as (en & sn & ? & ? & ? & ?); [done..|].
    destruct (Harea HUMAN_SCIENCES h) as (eh & sh & ? & ? & ? & ?); [done..|].
    destruct (calculate_score_returns calc m l n h e em el en eh sm sl sn sh)
      as (r & Hr & _ & _ & _ & _ & Hessay); try done.
    by exists r.
Qed.

(** C10, as amended. When some objective area's count is negative or above
    [total_questions], [calculate_score] never returns a result; and when the
    essay score is valid, the error is one raised by the construction of an
    [ExamArea], whatever the estimators are. *)
Theorem invalid_count_rejected calc m l n h e :
  let tq := TriCalculator.total_questions calc in
  (m < 0 ∨ m > tq ∨ l < 0 ∨ l > tq ∨ n < 0 ∨ n > tq ∨ h < 0 ∨ h > tq)%Z →
  (∃ err, TriCalculator.calculate_score calc m l n h e = Raise err) ∧
  (0 <= e <= 1000 →
   ∃ err, TriCalculator.calculate_score calc m l n h e = Raise err ∧
          exam_area_error err).
Proof.
  intros tq Hbad.
  assert (0 <= e <= 1000 →
          ∃ err, TriCalculator.calculate_score calc m l n h e = Raise err ∧
                 exam_area_error err) as Hvalid.
  { intros He. unfold TriCalculator.calculate_score. fold tq.
    rewrite (proj2 (out_of_range_false e 0 1000) He).
    destruct (exam_area_new_cases MATHEMATICS tq m None)
      as [[Hm ->]|[_ (err & -> & Herr)]]; simpl; [|by eauto].
    destruct (exam_area_new_cases LANGUAGES tq l None)
      as [[Hl ->]|[_ (err & -> & Herr)]]; simpl; [|by eauto].
    destruct (exam_area_new_cases NATURAL_SCIENCES tq n None)
      as [[Hn ->]|[_ (err & -> & Herr)]]; simpl; [|by eauto].
    destruct (exam_area_new_cases HUMAN_SCIENCES tq h None)
      as [[Hh ->]|[_ (err & -> & Herr)]]; simpl; [|by eauto].
    lia. }
  split; [|done].
  destruct (Rle_dec 0 e) as [H0|H0]; [destruct (Rle_dec e 1000) as [H1|H1]|].
  - destruct Hvalid as (err & -> & _); [done|]. by eexists.
  - rewrite calculate_score_essay_invalid by lra. by eexists.
  - rewrite calculate_score_essay_invalid by lra. by eexists.
Qed.

Lemma invalid_count_rejected_witness :
  ∃ err,
    TriCalculator.calculate_score default_calculator (-1) 0 0 0 500 = Raise err ∧
    exam_area_error err.
Proof.
  apply (invalid_count_rejected default_calculator (-1) 0 0 0 500).
  - left. lia.
  - lra.
Defined.

(** C10 as stated fails: with an invalid essay score the error of a negative
    count is the one of the essay check, which runs before any [ExamArea] is
    constructed. *)
Lemma invalid_count_counterexample :
  TriCalculator.calculate_score default_calculator (-1) 0 0 0 1500 =
    Raise (ValueError [Lit "Essay score must be between 0 and 1000"]) ∧
  ¬ exam_area_error (ValueError [Lit "Essay score must be between 0 and 1000"]).
Proof.
  split.
  - apply calculate_score_essay_invalid. lra.
  - intros [H|(ca & tq & H)]; discriminate H.
Qed.

(** The example of the spec: [calculate_score(..., essay_score=1500.0)]. *)
Lemma calculate_score_essay_1500 m l n h :
  TriCalculator.calculate_score default_calculator m l n h 1500 =
  Raise (ValueError [Lit "Essay score must be between 0 and 1000"]).
Proof. apply calculate_score_essay_invalid. lra. Qed.

(** C2, as amended. On a reachable estimator with no personal calibration,
    [min_score <= max_score] and a non-zero question count, the estimate of
    every valid count lies in [min_score, max_score].  With a personal factor
    the estimate is not confined to that range, and the layer above bounds it
    by validation only: each of the five scores of a result that
    [calculate_score] returns lies in [0, 1000], the objective ones being the
    estimators' estimates as they are. *)
Theorem score_bounds :
  (∀ self ca year,
     reachable self → personal_factor self = None →
     TriEstimator.min_score self <= TriEstimator.max_score self →
     TriEstimator.total_questions self ≠ 0%Z →
     (0 <= ca <= TriEstimator.total_questions self)%Z →
     ∃ score, TriEstimator.estimate_score self ca true year = Ok score ∧
              TriEstimator.min_score self <= score <= TriEstimator.max_score self) ∧
  (∀ calc m l n h e r,
     TriCalculator.calculate_score calc m l n h e = Ok r →
     (∀ area, 0 <= ExamResult.get_score_by_area r area <= 1000) ∧
     ∀ area estimator ca,
       TriCalculator.estimators calc !! area = Some estimator →
       (area, ca) ∈ [(MATHEMATICS, m); (LANGUAGES, l);
                     (NATURAL_SCIENCES, n); (HUMAN_SCIENCES, h)] →
       TriEstimator.estimate_score estimator ca true
         (Some (TriCalculator.reference_year calc)) =
       Ok (ExamResult.get_score_by_area r area)).
Proof.
  split; [apply estimate_score_bounded|].
  intros calc m l n h e r Hr.
  apply calculate_score_Ok_inv in Hr
    as (He & _ & _ & _ & _ & Hessay & _ & Hall &
        em & el & en & eh & Em & El & En & Eh & Sm & Sl & Sn & Sh).
  apply Forall_cons in Hall as [H1 Hall].
  apply Forall_cons in Hall as [H2 Hall].
  apply Forall_cons in Hall as [H3 Hall].
  apply Forall_cons in Hall as [H4 _].
  split.
  - intros []; simpl; try done. by rewrite Hessay.
  - intros area est ca Hest Hin.
    repeat (apply elem_of_cons in Hin as [[= -> ->]|Hin];
            [simpl; congruence|]).
    by apply elem_of_nil in Hin.
Qed.

(** C2 as stated fails: with a personal factor of 5 in mathematics, the
    result for 10 correct answers records a mathematics score of 50, below
    300. *)
Lemma score_bounds_counterexample :
  ∃ r, TriCalculator.calculate_score calibrated_calculator 10 0 0 0 0 = Ok r ∧
       ExamResult.mathematics_score r = 50 ∧
       ¬ (300 <= ExamResult.mathematics_score r <= 1000).
Proof.
  set (fresh name := TriEstimator.__init__ 45 300 900 500 100 (Some name)
                       (Some "data")).
  set (e_math := (TriEstimator.set_historical_data (fresh "mathematics")
                    [20; 30]%Z [100; 150] None None).1).
  assert (∀ name, ∃ s, TriEstimator.estimate_score (fresh name) 0 true
                         (Some 2023%Z) = Ok s ∧ 0 <= s <= 1000) as Hfresh.
  { intros name.
    destruct (estimate_score_bounded (fresh name) 0 (Some 2023%Z))
      as (s & Hs & Hb); try (simpl; done || lia || lra).
    - apply reachable_init.
    - exists s. split; [done|]. simpl in Hb. lra. }
  destruct (Hfresh "languages") as (sl & Hl & Bl).
  destruct (Hfresh "natural_sciences") as (sn & Hn & Bn).
  destruct (Hfresh "human_sciences") as (sh & Hh & Bh).
  assert (TriEstimator.estimate_score e_math 10 true (Some 2023%Z) = Ok 50)
    as Hm by (apply calibrated_example_estimate; simpl; lia).
  assert (0 <= 0 <= 1000) as Be by lra.
  assert (0 <= 50 <= 1000) as Bm by lra.
  assert (0 <= 10 <= 45)%Z as Cm by lia.
  assert (0 <= 0 <= 45)%Z as C0 by lia.
  destruct (calculate_score_returns calibrated_calculator 10 0 0 0 0
              e_math (fresh "languages") (fresh "natural_sciences")
              (fresh "human_sciences") 50 sl sn sh
              Be Cm C0 C0 C0 eq_refl eq_refl eq_refl eq_refl
              (consistent_set _ _ _ _ _ (consistent_init _ _ _ _ _ _ _))
              (consistent_init _ _ _ _ _ _ _) (consistent_init _ _ _ _ _ _ _)
              (consistent_init _ _ _ _ _ _ _)
              Hm Hl Hn Hh Bm Bl Bn Bh)
    as (r & Hr & Hr50 & _).
  exists r. split; [done|]. split; [done|]. rewrite Hr50. lra.
Qed.

End Calculator.

Section EndToEnd.
Local Open Scope R_scope.

Lemma default_calculator_estimators area estimator :
  TriCalculator.estimators default_calculator !! area = Some estimator →
  ∃ name, estimator =
          TriEstimator.__init__ 45 300 900 500 100 (Some name) (Some "data").
Proof.
  destruct area; intros H;
    (match type of H with ?l = _ =>
       let v := eval hnf in l in change l with v in H end);
    [injection H as <-; eexists; reflexivity..|discriminate H].
Qed.

(** The end-to-end example of the spec: all counts at 45 and an essay of
    1000.0 on default parameters give a result with that essay score. *)
Lemma calculate_score_essay_witness :
  ∃ r, TriCalculator.calculate_score default_calculator 45 45 45 45 1000 = Ok r ∧
       ExamResult.essay_score r = 1000.
Proof.
  apply calculate_score_essay.
  - apply init_invariant.
  - intros area est Hest.
    apply default_calculator_estimators in Hest as [name ->]. simpl.
    repeat split; (done || lra).
  - simpl. lia.
  - lra.
  - simpl. lia.
  - simpl. lia.
  - simpl. lia.
  - simpl. lia.
Defined.

End EndToEnd.

(** ** The model on concrete inputs *)

Section Examples.
Local Open Scope R_scope.
Import TriEstimator.

(** Settle the comparisons of a closed computation, innermost first. *)
Ltac decide_reals :=
  repeat match goal with
         | |- context [Rle_dec ?a ?b] =>
             first [ assert (a <= b) by lra; destruct (Rle_dec a b); [|lra]
                   | assert (¬ a <= b) by lra; destruct (Rle_dec a b); [lra|] ]
         | |- context [Rlt_dec ?a ?b] =>
             first [ assert (a < b) by lra; destruct (Rlt_dec a b); [|lra]
                   | assert (¬ a < b) by lra; destruct (Rlt_dec a b); [lra|] ]
         | |- context [Rmax ?a ?b] =>
             first [ rewrite (Rmax_left a b) by lra
                   | rewrite (Rmax_right a b) by lra ]
         | |- context [Rmin ?a ?b] =>
             first [ rewrite (Rmin_left a b) by lra
                   | rewrite (Rmin_right a b) by lra ]
         end.

Example np_median_odd : np_median [3; 1; 2] = 2.
Proof.
  unfold np_median, sorted, insert_sorted. decide_reals; simpl; lra.
Qed.

Example np_median_even : np_median [4; 1; 3; 2] = 2.5.
Proof.
  unfold np_median, sorted, insert_sorted. decide_reals; simpl; lra.
Qed.

Example np_clip_examples :
  np_clip 250 300 1000 = 300 ∧ np_clip 1200 300 1000 = 1000 ∧
  np_clip 640 300 1000 = 640.
Proof.
  unfold np_clip. repeat split; decide_reals; lra.
Qed.

(** The estimator of the round-trip example. *)
Lemma round_trip_state :
  (set_historical_data with_defaults [20; 30]%Z [500; 650] None None).1 =
  mk 45 300 900 500 100 None None
     (Some (build_score_map (group_scores [(20%Z, 500); (30%Z, 650)])))
     (Some factor_interpolator) (Some [20; 30]%Z) (Some [500; 650]) (Some None)
     (Some (Some (70 / 3))).
Proof.
  rewrite set_historical_data_calibrated;
    [|reflexivity|simpl; lia|exists 20%Z; split; [by left|lia]].
  simpl. rewrite np_median_pair. do 3 f_equal. lra.
Qed.

(** Scores 500 then 650: one rate, 1.3, clipped to 1.15. *)
Example growth_factor_example :
  _calculate_growth_factor
    (set_historical_data with_defaults [20; 30]%Z [500; 650] None None).1 = 1.15.
Proof.
  rewrite round_trip_state.
  unfold _calculate_growth_factor, growth_rates, growth_rates_from, Rgtb, Rltb.
  simpl. decide_reals.
  unfold np_average, np_clip. simpl. decide_reals; lra.
Qed.

(** [estimate_score_range(25)] after the round-trip calibration: the factor
    is 70/3, the residuals are 100/3 and -50, and the growth-adjusted
    midpoint is clipped down to the optimistic score. *)
Example estimate_score_range_example :
  estimate_score_range
    (set_historical_data with_defaults [20; 30]%Z [500; 650] None None).1
    25 None = Ok (Some (3325 / 6, 1840 / 3, 1840 / 3)).
Proof.
  rewrite round_trip_state.
  unfold estimate_score_range, _calculate_growth_factor, growth_rates,
    growth_rates_from. simpl.
  unfold np_median, sorted, insert_sorted, py_min, py_max, np_average, np_clip,
    Rgtb, Rltb. simpl.
  repeat (progress (decide_reals; simpl)).
  do 2 f_equal. repeat f_equal; lra.
Qed.

End Examples.

Section RejectedEstimate.
Local Open Scope R_scope.

(** The layer above validates and does not clip: with the factor 70/3 of the
    round-trip history, 45 correct answers are estimated at 1050, and
    [calculate_score] fails instead of returning a result. *)
Lemma calculate_score_rejects_estimate_above_1000 :
  ∃ err, TriCalculator.calculate_score round_trip_calculator 45 0 0 0 0
         = Raise err.
Proof.
  destruct (TriCalculator.calculate_score round_trip_calculator 45 0 0 0 0)
    as [r|err] eqn:E; [exfalso|by eexists].
  apply calculate_score_Ok_inv in E
    as (_ & _ & _ & _ & _ & _ & _ & Hall &
        em & el & en & eh & Em & _ & _ & _ & Sm & _).
  apply Forall_cons in Hall as [Hmath _].
  assert (TriCalculator.estimators round_trip_calculator !! MATHEMATICS =
          Some (TriEstimator.set_historical_data
                  (TriEstimator.__init__ 45 300 900 500 100
                     (Some "mathematics") (Some "data"))
                  [20; 30]%Z [500; 650] None None).1) as Em' by reflexivity.
  rewrite Em' in Em. injection Em as <-.
  rewrite estimate_score_valid in Sm by (simpl; lia). simpl in Sm.
  rewrite score_map_of_points in Sm. simpl in Sm.
  rewrite np_median_pair in Sm. injection Sm as Sm. lra.
Qed.

End RejectedEstimate.

(** * Further properties of the estimator *)

Section GrowthFactor.
Local Open Scope R_scope.
Import TriEstimator.

(** X1. Whatever the history is (or if there is none), the growth factor
    lies between 0.9 and 1.15. *)
Theorem growth_factor_bounds self :
  0.9 <= _calculate_growth_factor self <= 1.15.
Proof.
  unfold _calculate_growth_factor.
  destruct (_historical_scores self) as [scores|]; [|lra].
  destruct (length scores <? 2)%nat; [lra|].
  destruct (growth_rates scores); [lra|].
  apply np_clip_bounds. lra.
Qed.

Lemma recency_weights_positive n :
  Forall (λ w, 0 < w) (recency_weights n).
Proof.
  unfold recency_weights. apply Forall_fmap, Forall_forall.
  intros i _. simpl. apply pow_lt. lra.
Qed.

Lemma recency_weights_length n : length (recency_weights n) = n.
Proof. unfold recency_weights. by rewrite length_fmap, length_seq. Qed.

(** A weighted sum compared with the sum of its weights. *)
Lemma weighted_sum_ge (rates weights : list R) :
  length rates = length weights →
  Forall (λ r, 1 <= r) rates → Forall (λ w, 0 < w) weights →
  sum_list weights <= sum_list (zip_with Rmult rates weights).
Proof.
  revert weights. induction rates as [|r rates IH]; intros [|w weights] Hlen Hr Hw;
    simpl in *; try discriminate; [lra|].
  inversion Hr; subst. inversion Hw; subst.
  specialize (IH weights ltac:(lia) ltac:(done) ltac:(done)). nra.
Qed.

Lemma weighted_sum_le (rates weights : list R) :
  length rates = length weights →
  Forall (λ r, r <= 1) rates → Forall (λ w, 0 < w) weights →
  sum_list (zip_with Rmult rates weights) <= sum_list weights.
Proof.
  revert weights. induction rates as [|r rates IH]; intros [|w weights] Hlen Hr Hw;
    simpl in *; try discriminate; [lra|].
  inversion Hr; subst. inversion Hw; subst.
  specialize (IH weights ltac:(lia) ltac:(done) ltac:(done)). nra.
Qed.

Lemma sum_list_positive (weights : list R) :
  weights ≠ [] → Forall (λ w, 0 < w) weights → 0 < sum_list weights.
Proof.
  intros Hne Hw. destruct Hw as [|w weights Hw0 Hw]; [done|]. simpl.
  clear Hne. induction Hw; simpl in *; lra.
Qed.

(** The rates of a history of positive scores that never falls are at least
    1, those of one that never rises at most 1. *)
Lemma growth_rates_from_ge prev rest :
  0 < prev → Forall (λ s, 0 < s) rest → Sorted Rle (prev :: rest) →
  Forall (λ r, 1 <= r) (growth_rates_from prev rest).
Proof.
  revert prev. induction rest as [|s rest IH]; intros prev Hprev Hpos Hsorted;
    simpl; [constructor|].
  inversion Hpos; subst. inversion Hsorted as [|? ? Hs Hhd]; subst.
  inversion Hhd; subst.
  rewrite (proj2 (Rgtb_true prev 0)) by lra.
  constructor; [|by apply IH].
  apply (Rmult_le_reg_r prev); [done|]. field_simplify; lra.
Qed.

Lemma growth_rates_from_le prev rest :
  0 < prev → Forall (λ s, 0 < s) rest → Sorted Rge (prev :: rest) →
  Forall (λ r, r <= 1) (growth_rates_from prev rest).
Proof.
  revert prev. induction rest as [|s rest IH]; intros prev Hprev Hpos Hsorted;
    simpl; [constructor|].
  inversion Hpos; subst. inversion Hsorted as [|? ? Hs Hhd]; subst.
  inversion Hhd; subst.
  rewrite (proj2 (Rgtb_true prev 0)) by lra.
  constructor; [|by apply IH].
  apply (Rmult_le_reg_r prev); [done|]. field_simplify; lra.
Qed.

(** X2. With positive historical scores, the growth factor is at least 1
    when the scores never fall from one year to the next, and at most 1 when
    they never rise (so it is 1 when they are all the same). *)
Theorem growth_factor_direction self scores :
  _historical_scores self = Some scores →
  Forall (λ s, 0 < s) scores →
  (Sorted Rle scores → 1 <= _calculate_growth_factor self) ∧
  (Sorted Rge scores → _calculate_growth_factor self <= 1).
Proof.
  intros Hs Hpos. unfold _calculate_growth_factor. rewrite Hs.
  destruct (length scores <? 2)%nat; [lra|].
  destruct scores as [|s0 rest]; simpl; [lra|].
  inversion Hpos; subst.
  destruct (growth_rates_from s0 rest) as [|r rates] eqn:Hrates; [lra|].
  set (weights := recency_weights (length (r :: rates))).
  assert (length (r :: rates) = length weights) as Hlen
    by (unfold weights; by rewrite recency_weights_length).
  assert (Forall (λ w, 0 < w) weights) as Hw by apply recency_weights_positive.
  assert (0 < sum_list weights) as Hsum.
  { apply sum_list_positive; [|done]. intros Hnil. rewrite Hnil in Hlen.
    discriminate. }
  split; intros Hsorted.
  - pose proof (growth_rates_from_ge s0 rest ltac:(done) ltac:(done) Hsorted) as Hge.
    rewrite Hrates in Hge.
    pose proof (weighted_sum_ge _ _ Hlen Hge Hw) as Hws.
    assert (1 <= np_average (r :: rates) weights) as Havg.
    { unfold np_average. apply (Rmult_le_reg_r (sum_list weights)); [done|].
      field_simplify; lra. }
    unfold np_clip, Rmin, Rmax. repeat destruct Rle_dec; lra.
  - pose proof (growth_rates_from_le s0 rest ltac:(done) ltac:(done) Hsorted) as Hle.
    rewrite Hrates in Hle.
    pose proof (weighted_sum_le _ _ Hlen Hle Hw) as Hws.
    assert (np_average (r :: rates) weights <= 1) as Havg.
    { unfold np_average. apply (Rmult_le_reg_r (sum_list weights)); [done|].
      field_simplify; lra. }
    unfold np_clip, Rmin, Rmax. repeat destruct Rle_dec; lra.
Qed.

End GrowthFactor.

Section GrowthFactorWitness.
Local Open Scope R_scope.
Import TriEstimator.

Lemma growth_factor_direction_witness :
  1 <= _calculate_growth_factor
         (set_historical_data with_defaults [20; 30]%Z [500; 650] None None).1.
Proof.
  apply (growth_factor_direction _ [500; 650]).
  - reflexivity.
  - repeat constructor; lra.
  - repeat constructor; lra.
Defined.

End GrowthFactorWitness.

Section PopulationModels.
Local Open Scope R_scope.
Import TriEstimator.

Lemma no_factor_no_exact self ca :
  personal_factor self = None → exact_historical_score self ca = None.
Proof. intros H. unfold exact_historical_score. by rewrite H. Qed.

Lemma estimate_score_linear_model self ca year :
  reachable self → personal_factor self = None →
  total_questions self ≠ 0%Z →
  (0 <= ca <= total_questions self)%Z →
  estimate_score self ca false year =
  Ok (min_score self +
      IZR ca / IZR (total_questions self) * (max_score self - min_score self)).
Proof.
  intros Hreach Hnone Htq Hca. apply reachable_consistent in Hreach.
  rewrite estimate_score_valid by done.
  rewrite score_map_exact, no_factor_no_exact by done.
  unfold consistent in Hreach.
  destruct (_interpolator self) as [f|] eqn:Hf.
  - destruct Hreach as (? & ? & _ & _ & _ & _ & _ & Hfac & _).
    unfold personal_factor in Hnone. by rewrite Hfac in Hnone.
  - unfold _estimate_with_linear, proportion.
    destruct (Z.eqb_spec (total_questions self) 0); done.
Qed.

(** X3. With [use_logistic=False], an estimator without personal factor
    and with a positive question count estimates a valid count [ca] by
    [min_score + ca / total_questions * (max_score - min_score)], the
    straight line that is exactly [min_score] at 0 correct answers and
    exactly [max_score] at [total_questions], whatever the order of the two
    scores.  For valid counts [ca1 <= ca2]: when [min_score <= max_score]
    the two estimates are ordered and lie in [min_score, max_score]; when
    [max_score <= min_score] the order is the reverse one, and they lie in
    [max_score, min_score]. *)
Theorem estimate_score_linear self ca1 ca2 year :
  reachable self → personal_factor self = None →
  (0 < total_questions self)%Z →
  (0 <= ca1)%Z → (ca1 <= ca2)%Z → (ca2 <= total_questions self)%Z →
  ∃ s1 s2,
    estimate_score self ca1 false year = Ok s1 ∧
    estimate_score self ca2 false year = Ok s2 ∧
    s1 = min_score self +
         IZR ca1 / IZR (total_questions self) *
         (max_score self - min_score self) ∧
    s2 = min_score self +
         IZR ca2 / IZR (total_questions self) *
         (max_score self - min_score self) ∧
    (ca1 = 0%Z → s1 = min_score self) ∧
    (ca2 = total_questions self → s2 = max_score self) ∧
    (min_score self <= max_score self →
     min_score self <= s1 ∧ s1 <= s2 ∧ s2 <= max_score self) ∧
    (max_score self <= min_score self →
     max_score self <= s2 ∧ s2 <= s1 ∧ s1 <= min_score self).
Proof.
  intros Hreach Hnone Htq H0 H12 H2.
  rewrite !estimate_score_linear_model by (done || lia).
  eexists _, _. split; [reflexivity|]. split; [reflexivity|].
  split; [reflexivity|]. split; [reflexivity|].
  assert (0 < IZR (total_questions self)) as Htq' by (apply IZR_lt; lia).
  assert (0 <= IZR ca1 / IZR (total_questions self)) as Hp0.
  { apply Rmult_le_pos; [apply IZR_le; lia|].
    left. by apply Rinv_0_lt_compat. }
  assert (IZR ca1 / IZR (total_questions self)
          <= IZR ca2 / IZR (total_questions self)) as Hp12.
  { apply Rmult_le_compat_r; [left; by apply Rinv_0_lt_compat|].
    by apply IZR_le. }
  assert (IZR ca2 / IZR (total_questions self) <= 1) as Hp1.
  { assert (IZR ca2 <= IZR (total_questions self)) by (apply IZR_le; lia).
    apply (Rmult_le_reg_r (IZR (total_questions self))); [done|].
    replace (IZR ca2 / IZR (total_questions self) * IZR (total_questions self))
      with (IZR ca2) by (field; lra).
    lra. }
  split; [intros ->; lra|]. split; [intros ->; field; lra|].
  split; intros Hle; (split; [nra|]); (split; nra).
Qed.

(** The default estimator, and one built with [min_score=900.0] and
    [max_score=300.0]. *)
Lemma estimate_score_linear_witness :
  (∃ s1 s2,
     estimate_score with_defaults 0 false None = Ok s1 ∧
     estimate_score with_defaults 45 false None = Ok s2 ∧
     s1 = 300 ∧ s2 = 900) ∧
  (∃ s1 s2,
     estimate_score (__init__ 45 900 300 500 100 None None) 0 false None =
       Ok s1 ∧
     estimate_score (__init__ 45 900 300 500 100 None None) 45 false None =
       Ok s2 ∧
     s1 = 900 ∧ s2 = 300).
Proof.
  split.
  - destruct (estimate_score_linear with_defaults 0 45 None)
      as (s1 & s2 & H1 & H2 & _ & _ & Hlo & Hhi & _).
    + apply reachable_init.
    + reflexivity.
    + simpl. lia.
    + lia.
    + lia.
    + simpl. lia.
    + exists s1, s2. split; [done|]. split; [done|].
      split; [by apply Hlo|by apply Hhi].
  - destruct (estimate_score_linear (__init__ 45 900 300 500 100 None None)
                0 45 None)
      as (s1 & s2 & H1 & H2 & _ & _ & Hlo & Hhi & _).
    + apply reachable_init.
    + reflexivity.
    + simpl. lia.
    + lia.
    + lia.
    + simpl. lia.
    + exists s1, s2. split; [done|]. split; [done|].
      split; [by apply Hlo|by apply Hhi].
Defined.

Lemma logistic_complement z :
  1 / (1 + exp (- z)) + 1 / (1 + exp (- - z)) = 1.
Proof.
  rewrite Ropp_involutive.
  pose proof (exp_pos z). pose proof (exp_pos (- z)).
  assert (exp z * exp (- z) = 1) as Hinv.
  { rewrite <- exp_plus. replace (z + - z) with 0 by lra. apply exp_0. }
  apply (Rmult_eq_reg_r ((1 + exp (- z)) * (1 + exp z))); [|nra].
  field_simplify; nra.
Qed.

(** X4. The logistic model is symmetric about half of the questions: on an
    estimator without personal factor, the estimates of [ca] and of
    [total_questions - ca] add up to [min_score + max_score]. *)
Theorem estimate_score_symmetric self ca year :
  reachable self → personal_factor self = None →
  min_score self <= max_score self →
  (0 < total_questions self)%Z →
  (0 <= ca <= total_questions self)%Z →
  ∃ s1 s2,
    estimate_score self ca true year = Ok s1 ∧
    estimate_score self (total_questions self - ca) true year = Ok s2 ∧
    s1 + s2 = min_score self + max_score self.
Proof.
  intros Hreach Hnone Hle Htq Hca.
  pose proof (reachable_consistent _ Hreach) as Hc.
  rewrite !estimate_score_no_exact
    by (done || lia || by apply no_factor_no_exact).
  rewrite Hnone. eexists _, _. split; [reflexivity|]. split; [reflexivity|].
  unfold logistic_population_model.
  assert (0 < IZR (total_questions self)) as Htq' by (apply IZR_lt; lia).
  rewrite minus_IZR.
  assert ((((IZR (total_questions self) - IZR ca) / IZR (total_questions self))
            - 0.5) / 0.15
          = - ((IZR ca / IZR (total_questions self) - 0.5) / 0.15)) as ->.
  { assert ((IZR (total_questions self) - IZR ca) / IZR (total_questions self)
            = 1 - IZR ca / IZR (total_questions self)) as -> by (field; lra).
    lra. }
  pose proof (logistic_complement
                ((IZR ca / IZR (total_questions self) - 0.5) / 0.15)).
  nra.
Qed.

Lemma estimate_score_symmetric_witness :
  ∃ s1 s2,
    estimate_score with_defaults 10 true None = Ok s1 ∧
    estimate_score with_defaults 35 true None = Ok s2 ∧
    s1 + s2 = 1200.
Proof.
  destruct (estimate_score_symmetric with_defaults 10 None)
    as (s1 & s2 & H1 & H2 & Hsum).
  - apply reachable_init.
  - reflexivity.
  - simpl. lra.
  - simpl. lia.
  - simpl. lia.
  - exists s1, s2. split; [done|]. split; [exact H2|]. simpl in Hsum. lra.
Defined.

Lemma logistic_strictly_increasing z1 z2 :
  z1 < z2 → 1 / (1 + exp (- z1)) < 1 / (1 + exp (- z2)).
Proof.
  intros Hz.
  pose proof (exp_pos (- z1)). pose proof (exp_pos (- z2)).
  assert (exp (- z2) < exp (- z1)) as Hexp by (apply exp_increasing; lra).
  unfold Rdiv. rewrite !Rmult_1_l.
  apply Rinv_lt_contravar; nra.
Qed.

(** X5. On an estimator without personal factor and with
    [min_score < max_score], the logistic estimate never touches the ends of
    the range and grows strictly with the count: for valid counts
    [ca1 < ca2], [min_score < estimate(ca1) < estimate(ca2) < max_score]. *)
Theorem estimate_score_strict self ca1 ca2 year :
  reachable self → personal_factor self = None →
  min_score self < max_score self →
  (0 < total_questions self)%Z →
  (0 <= ca1)%Z → (ca1 < ca2)%Z → (ca2 <= total_questions self)%Z →
  ∃ s1 s2,
    estimate_score self ca1 true year = Ok s1 ∧
    estimate_score self ca2 true year = Ok s2 ∧
    min_score self < s1 ∧ s1 < s2 ∧ s2 < max_score self.
Proof.
  intros Hreach Hnone Hlt Htq H0 H12 H2.
  pose proof (reachable_consistent _ Hreach) as Hc.
  rewrite !estimate_score_no_exact
    by (done || lia || lra || by apply no_factor_no_exact).
  rewrite Hnone. eexists _, _. split; [reflexivity|]. split; [reflexivity|].
  unfold logistic_population_model.
  assert (0 < IZR (total_questions self)) as Htq' by (apply IZR_lt; lia).
  assert (IZR ca1 < IZR ca2) as Hca by (apply IZR_lt; lia).
  assert ((IZR ca1 / IZR (total_questions self) - 0.5) / 0.15
          < (IZR ca2 / IZR (total_questions self) - 0.5) / 0.15) as Hz.
  { apply Rmult_lt_compat_r; [lra|].
    apply Rplus_lt_compat_r.
    apply Rmult_lt_compat_r; [by apply Rinv_0_lt_compat|done]. }
  apply logistic_strictly_increasing in Hz.
  pose proof (logistic_unit
                ((IZR ca1 / IZR (total_questions self) - 0.5) / 0.15)).
  pose proof (logistic_unit
                ((IZR ca2 / IZR (total_questions self) - 0.5) / 0.15)).
  repeat split; nra.
Qed.

Lemma estimate_score_strict_witness :
  ∃ s1 s2,
    estimate_score with_defaults 0 true None = Ok s1 ∧
    estimate_score with_defaults 45 true None = Ok s2 ∧
    300 < s1 ∧ s1 < s2 ∧ s2 < 900.
Proof.
  apply (estimate_score_strict with_defaults 0 45 None).
  - apply reachable_init.
  - reflexivity.
  - simpl. lra.
  - simpl. lia.
  - lia.
  - lia.
  - simpl. lia.
Defined.

End PopulationModels.

Section Proficiency.
Local Open Scope R_scope.
Import TriEstimator.

(** X6. [estimate_proficiency] with a positive question count returns for
    every count, valid or not: -3.0 when the proportion is at most 1%, 3.0
    when it is at least 99% (the inverse normal CDF is not called there);
    and if the inverse normal CDF is non-decreasing with values in [-3, 3]
    between 1% and 99%, the proficiency lies in [-3, 3] and never decreases
    when the count increases. *)
Theorem estimate_proficiency_clamped norm_ppf self ca1 ca2 :
  (0 < total_questions self)%Z →
  (∀ p q, 0.01 < p → p <= q → q < 0.99 → norm_ppf p <= norm_ppf q) →
  (∀ p, 0.01 < p → p < 0.99 → -3 <= norm_ppf p <= 3) →
  (ca1 <= ca2)%Z →
  ∃ t1 t2,
    estimate_proficiency norm_ppf self ca1 = Ok t1 ∧
    estimate_proficiency norm_ppf self ca2 = Ok t2 ∧
    -3 <= t1 ∧ t1 <= t2 ∧ t2 <= 3 ∧
    ((100 * ca1 <= total_questions self)%Z → t1 = -3) ∧
    ((99 * total_questions self <= 100 * ca2)%Z → t2 = 3).
Proof.
  intros Htq Hmono Hrange H12.
  unfold estimate_proficiency, proportion.
  destruct (Z.eqb_spec (total_questions self) 0); [lia|]. simpl.
  assert (0 < IZR (total_questions self)) as Htq' by (apply IZR_lt; lia).
  set (tq := IZR (total_questions self)) in *.
  assert (IZR ca1 / tq <= IZR ca2 / tq) as Hp.
  { apply Rmult_le_compat_r; [left; by apply Rinv_0_lt_compat|].
    by apply IZR_le. }
  assert (∀ ca, (100 * ca <= total_questions self)%Z → IZR ca / tq <= 0.01)
    as Hlow.
  { intros ca Hca. apply IZR_le in Hca. rewrite mult_IZR in Hca. fold tq in Hca.
    apply (Rmult_le_reg_r tq); [done|].
    replace (IZR ca / tq * tq) with (IZR ca) by (field; lra). lra. }
  assert (∀ ca, (99 * total_questions self <= 100 * ca)%Z → IZR ca / tq >= 0.99)
    as Hhigh.
  { intros ca Hca. apply IZR_le in Hca. rewrite !mult_IZR in Hca. fold tq in Hca.
    apply Rle_ge. apply (Rmult_le_reg_r tq); [done|].
    replace (IZR ca / tq * tq) with (IZR ca) by (field; lra). lra. }
  eexists _, _. split; [reflexivity|]. split; [reflexivity|].
  destruct (Rle_dec (IZR ca1 / tq) 0.01) as [L1|L1];
    destruct (Rle_dec (IZR ca2 / tq) 0.01) as [L2|L2];
    try destruct (Rge_dec (IZR ca1 / tq) 0.99) as [G1|G1];
    try destruct (Rge_dec (IZR ca2 / tq) 0.99) as [G2|G2];
    try lra;
    repeat split; try lra;
    try (intros Hc; first [apply Hlow in Hc | apply Hhigh in Hc]; lra);
    try (apply Hrange; lra);
    try (apply Hmono; lra).
Qed.

Lemma estimate_proficiency_clamped_witness :
  ∃ t1 t2,
    estimate_proficiency (λ p, p - 1 / 2) with_defaults 0 = Ok t1 ∧
    estimate_proficiency (λ p, p - 1 / 2) with_defaults 45 = Ok t2 ∧
    t1 = -3 ∧ t2 = 3.
Proof.
  destruct (estimate_proficiency_clamped (λ p, p - 1 / 2) with_defaults 0 45)
    as (t1 & t2 & H1 & H2 & _ & _ & _ & Hlo & Hhi).
  - simpl. lia.
  - intros p q ? ? ?. lra.
  - intros p ? ?. lra.
  - lia.
  - exists t1, t2. split; [done|]. split; [done|]. split.
    + apply Hlo. simpl. lia.
    + apply Hhi. simpl. lia.
Defined.

End Proficiency.

Section Recalibration.
Local Open Scope R_scope.
Import TriEstimator.

(** X7. A call of [set_historical_data] with two lists of equal length and
    at least 2 points replaces whatever an earlier call had stored: the
    estimator after both calls is the one that the second call alone would
    have produced. *)
Theorem set_historical_data_replaces self cas1 scores1 years1 stats1
    cas2 scores2 years2 stats2 :
  length cas2 = length scores2 → (2 <= length cas2)%nat →
  set_historical_data
    (set_historical_data self cas1 scores1 years1 stats1).1
    cas2 scores2 years2 stats2 =
  set_historical_data self cas2 scores2 years2 stats2.
Proof.
  intros Hlen H2.
  assert (∀ s, set_historical_data s cas2 scores2 years2 stats2 =
    let factors := conversion_factors (zip cas2 scores2) in
    if (0 <? length factors)%nat then
      (mk (total_questions s) (min_score s) (max_score s) (mean_score s)
          (std_deviation s) (area_name s) (data_dir s)
          (Some (build_score_map (group_scores (zip cas2 scores2))))
          (Some factor_interpolator) (Some cas2) (Some scores2) (Some years2)
          (Some (Some (np_median factors))), Ok tt)
    else
      (mk (total_questions s) (min_score s) (max_score s) (mean_score s)
          (std_deviation s) (area_name s) (data_dir s)
          None None (Some cas2) (Some scores2) (Some years2) (Some None),
       Ok tt)) as Hshape.
  { intros s. unfold set_historical_data.
    rewrite (proj2 (Nat.eqb_eq _ _) Hlen). simpl.
    destruct (Nat.ltb_spec (length cas2) 2); [lia|done]. }
  rewrite !Hshape. simpl.
  assert (∀ s, let s' := (set_historical_data s cas1 scores1 years1 stats1).1 in
               total_questions s' = total_questions s ∧
               min_score s' = min_score s ∧ max_score s' = max_score s ∧
               mean_score s' = mean_score s ∧
               std_deviation s' = std_deviation s ∧
               area_name s' = area_name s ∧ data_dir s' = data_dir s) as Hkeep.
  { intros s. unfold set_historical_data.
    destruct (negb _); simpl; [done|].
    destruct (_ <? 2)%nat; simpl; [done|].
    destruct (0 <? _)%nat; simpl; done. }
  destruct (Hkeep self) as (-> & -> & -> & -> & -> & -> & ->). done.
Qed.

Lemma set_historical_data_replaces_witness :
  set_historical_data
    (set_historical_data with_defaults [10; 40]%Z [400; 800] None None).1
    [20; 30]%Z [500; 650] None None =
  set_historical_data with_defaults [20; 30]%Z [500; 650] None None.
Proof.
  apply set_historical_data_replaces; [reflexivity|simpl; lia].
Defined.



End Recalibration.

Section LinearHistory.
Local Open Scope R_scope.
Import TriEstimator.

Lemma insert_sorted_replicate k n :
  insert_sorted k (replicate n k) = k :: replicate n k.
Proof.
  destruct n; simpl; [done|]. destruct (Rle_dec k k); [done|lra].
Qed.

Lemma sorted_replicate k n : sorted (replicate n k) = replicate n k.
Proof.
  induction n as [|n IH]; simpl; [done|].
  by rewrite IH, insert_sorted_replicate.
Qed.

Lemma nth_replicate_lt (k : R) n i : (i < n)%nat → nth i (replicate n k) 0 = k.
Proof.
  revert i. induction n as [|n IH]; intros i Hi; [lia|].
  destruct i; simpl; [done|]. apply IH. lia.
Qed.

(** The median of a non-empty list of equal numbers is that number. *)
Lemma np_median_replicate k n : (0 < n)%nat → np_median (replicate n k) = k.
Proof.
  intros Hn. unfold np_median.
  rewrite sorted_replicate, length_replicate.
  assert (n / 2 < n)%nat by (apply Nat.div_lt; lia).
  destruct (Nat.even n).
  - rewrite !nth_replicate_lt by lia. lra.
  - by rewrite nth_replicate_lt.
Qed.

Lemma py_min_replicate k n : (0 < n)%nat → py_min (replicate n k) = k.
Proof.
  destruct n; [lia|]. intros _. simpl.
  induction n as [|n IH]; simpl; [done|].
  rewrite Rmin_left by lra. done.
Qed.

Lemma py_max_replicate k n : (0 < n)%nat → py_max (replicate n k) = k.
Proof.
  destruct n; [lia|]. intros _. simpl.
  induction n as [|n IH]; simpl; [done|].
  rewrite Rmax_left by lra. done.
Qed.

Lemma conversion_factors_linear k cas :
  Forall (λ c, (0 < c)%Z) cas →
  conversion_factors (zip cas ((λ c, k * IZR c) <$> cas)) =
  replicate (length cas) k.
Proof.
  induction 1 as [|c cas Hc _ IH]; csimpl; [done|].
  destruct (Z.gtb_spec c 0); [|lia].
  rewrite IH. f_equal. field. apply not_0_IZR. lia.
Qed.

Lemma residuals_linear k cas :
  zip_with (λ ca score, score - k * IZR ca) cas ((λ c, k * IZR c) <$> cas) =
  replicate (length cas) 0.
Proof.
  induction cas as [|c cas IH]; csimpl; [done|].
  rewrite IH. f_equal. lra.
Qed.

(** The range of a calibrated estimator, written out: the base estimate
    by the factor, the residuals of the history, the two clipped ends, their
    swap, and the clipped growth-adjusted midpoint. *)
Lemma estimate_score_range_formula self ca year f cas scores factor :
  _interpolator self = Some f →
  _historical_correct_answers self = Some cas →
  _historical_scores self = Some scores →
  length cas = length scores → (2 <= length cas)%nat →
  _conversion_factor self = Some (Some factor) →
  estimate_score_range self ca year =
  let base := factor * IZR ca in
  let errors := zip_with (λ c s, s - factor * IZR c) cas scores in
  let p0 := np_clip (base + (py_min errors + np_median errors) / 2) 300 1000 in
  let o0 := np_clip (base + 0.9 * py_max errors) 300 1000 in
  let band := if Rgtb p0 o0 then (o0, p0) else (p0, o0) in
  Ok (Some (band.1,
            np_clip ((band.1 + band.2) / 2 * _calculate_growth_factor self)
              band.1 band.2,
            band.2)).
Proof.
  intros Hf Hcas Hs Hlen H2 Hfac. unfold estimate_score_range.
  rewrite Hf, Hcas.
  destruct (Nat.ltb_spec (length cas) 2); [lia|].
  destruct f. unfold call_interpolator at 1. rewrite Hfac. simpl.
  rewrite (prediction_errors_residuals self _ scores factor Hs Hfac) by lia.
  simpl. destruct (Rgtb _ _); reflexivity.
Qed.

(** X9. When every historical score is the same multiple [k] of its
    (positive) count, the personal factor is [k], all residuals are 0, and
    the three points of the range coincide: each is [k * correct_answers]
    clipped into [300, 1000]. *)
Theorem estimate_score_range_linear_history self cas k years stats ca year :
  (2 <= length cas)%nat → Forall (λ c, (0 < c)%Z) cas →
  let self' :=
    (set_historical_data self cas ((λ c, k * IZR c) <$> cas) years stats).1 in
  personal_factor self' = Some k ∧
  estimate_score_range self' ca year =
    Ok (Some (np_clip (k * IZR ca) 300 1000, np_clip (k * IZR ca) 300 1000,
              np_clip (k * IZR ca) 300 1000)).
Proof.
  intros H2 Hpos.
  assert (length cas = length ((λ c, k * IZR c) <$> cas)) as Hlen
    by (by rewrite length_fmap).
  rewrite set_historical_data_calibrated; try done.
  2:{ destruct Hpos as [|c cas' Hc _]; [simpl in H2; lia|].
      exists c. split; [by left|done]. }
  rewrite conversion_factors_linear by done.
  rewrite np_median_replicate by lia.
  split; [done|].
  erewrite estimate_score_range_formula; try reflexivity; try done.
  cbv zeta. rewrite residuals_linear.
  rewrite py_min_replicate, py_max_replicate, np_median_replicate by lia.
  replace (k * IZR ca + (0 + 0) / 2) with (k * IZR ca) by lra.
  replace (k * IZR ca + 0.9 * 0) with (k * IZR ca) by lra.
  set (p := np_clip (k * IZR ca) 300 1000).
  rewrite (proj2 (Rgtb_false p p)) by lra. simpl.
  do 4 f_equal.
  match goal with |- np_clip ?m p p = p =>
    pose proof (np_clip_bounds m p p ltac:(lra)) end.
  lra.
Qed.

Lemma estimate_score_range_linear_history_witness :
  estimate_score_range
    (set_historical_data with_defaults [20; 30]%Z
       ((λ c, 20 * IZR c) <$> [20; 30]%Z) None None).1 25 None =
  Ok (Some (500, 500, 500)).
Proof.
  destruct (estimate_score_range_linear_history with_defaults [20; 30]%Z 20
              None None 25 None) as [_ H].
  - simpl. lia.
  - repeat constructor; lia.
  - rewrite H. do 2 f_equal.
    assert (np_clip (20 * 25) 300 1000 = 500) as ->; [|done].
    unfold np_clip, Rmin, Rmax. repeat destruct Rle_dec; lra.
Defined.

End LinearHistory.

Section IntervalEdges.
Local Open Scope R_scope.
Import TriEstimator.


End IntervalEdges.

(** * Further properties of the models *)

Section Models.
Local Open Scope R_scope.

(** X11. The accuracy rate of every [ExamArea] that the constructor accepts
    lies between 0 and 1; with no questions at all it is 0 (there is no
    division by zero). *)
Theorem accuracy_rate_unit area tq ca score a :
  ExamArea.new area tq ca score = Ok a →
  0 <= ExamArea.accuracy_rate a <= 1 ∧
  (tq = 0%Z → ExamArea.accuracy_rate a = 0).
Proof.
  intros Hnew.
  destruct (exam_area_new_cases area tq ca score)
    as [[Hca Hok]|[_ (err & Herr & _)]]; [|congruence].
  rewrite Hok in Hnew. injection Hnew as <-.
  unfold ExamArea.accuracy_rate. simpl.
  destruct (Z.eqb_spec tq 0) as [->|Hne]; [split; [lra|done]|].
  split; [|done].
  assert (0 < IZR tq) as Htq by (apply IZR_lt; lia).
  assert (0 <= IZR ca) by (apply IZR_le; lia).
  assert (IZR ca <= IZR tq) by (apply IZR_le; lia).
  split.
  - apply Rmult_le_pos; [done|]. left. by apply Rinv_0_lt_compat.
  - apply (Rmult_le_reg_r (IZR tq)); [done|].
    replace (IZR ca / IZR tq * IZR tq) with (IZR ca) by (field; lra). lra.
Qed.

Lemma accuracy_rate_unit_witness :
  ∃ a, ExamArea.new MATHEMATICS 45 30 None = Ok a ∧
       0 <= ExamArea.accuracy_rate a <= 1.
Proof.
  exists (ExamArea.mk MATHEMATICS 45 30 None). split; [reflexivity|].
  apply (accuracy_rate_unit MATHEMATICS 45 30 None). reflexivity.
Defined.

(** X12. In an [ExamResult] that passed its validation, the average of the
    five scores and the average of the four objective scores both lie in
    [0, 1000], and the first is (4 * objective_average + essay_score) / 5. *)
Theorem averages_in_range r r' :
  ExamResult.__post_init__ r = Ok r' →
  0 <= ExamResult.average_score r' <= 1000 ∧
  0 <= ExamResult.objective_average r' <= 1000 ∧
  ExamResult.average_score r' =
    (4 * ExamResult.objective_average r' + ExamResult.essay_score r') / 5.
Proof.
  intros Hpost. pose proof (post_init_inv _ _ Hpost) as ->.
  apply post_init_ok in Hpost.
  apply Forall_cons in Hpost as [H1 Hpost].
  apply Forall_cons in Hpost as [H2 Hpost].
  apply Forall_cons in Hpost as [H3 Hpost].
  apply Forall_cons in Hpost as [H4 Hpost].
  apply Forall_cons in Hpost as [H5 _].
  unfold ExamResult.average_score, ExamResult.objective_average.
  repeat split; lra.
Qed.

(** X13. [ExamResult]'s validation accepts a result exactly when its five
    scores all lie in [0, 1000]; otherwise it raises the [ValueError] that
    carries the first offending score in the order mathematics, languages,
    natural sciences, human sciences, essay. *)
Theorem post_init_first_offender r :
  (Forall (λ s, 0 <= s <= 1000)
     [ExamResult.mathematics_score r; ExamResult.languages_score r;
      ExamResult.natural_sciences_score r; ExamResult.human_sciences_score r;
      ExamResult.essay_score r] ∧
   ExamResult.__post_init__ r = Ok r) ∨
  (∃ before s after,
     [ExamResult.mathematics_score r; ExamResult.languages_score r;
      ExamResult.natural_sciences_score r; ExamResult.human_sciences_score r;
      ExamResult.essay_score r] = before ++ s :: after ∧
     Forall (λ s, 0 <= s <= 1000) before ∧
     (s < 0 ∨ s > 1000) ∧
     ExamResult.__post_init__ r =
       Raise (ValueError [Lit "Score "; FmtFloat s;
                          Lit " must be between 0 and 1000"])).
Proof.
  unfold ExamResult.__post_init__.
  generalize [ExamResult.mathematics_score r; ExamResult.languages_score r;
      ExamResult.natural_sciences_score r; ExamResult.human_sciences_score r;
      ExamResult.essay_score r].
  intros scores.
  assert ((Forall (λ s, 0 <= s <= 1000) scores ∧
           ExamResult.check_scores scores = Ok tt) ∨
          (∃ before s after, scores = before ++ s :: after ∧
             Forall (λ s, 0 <= s <= 1000) before ∧ (s < 0 ∨ s > 1000) ∧
             ExamResult.check_scores scores =
               Raise (ValueError [Lit "Score "; FmtFloat s;
                                  Lit " must be between 0 and 1000"])))
    as [[Hall Hok]|(before & s & after & -> & Hb & Hs & Herr)].
  { induction scores as [|s scores IH]; simpl.
    - left. split; [constructor|done].
    - destruct (Rltb s 0 || Rgtb s 1000) eqn:Hs.
      + right. exists [], s, scores. apply out_of_range_true in Hs.
        repeat split; (done || constructor).
      + apply out_of_range_false in Hs.
        destruct IH as [[Hall Hok]|(before & s' & after & -> & Hb & Hs' & Herr)].
        * left. split; [by constructor|done].
        * right. exists (s :: before), s', after.
          repeat split; (done || by constructor). }
  - left. split; [done|]. by rewrite Hok.
  - right. exists before, s, after. rewrite Herr. done.
Qed.

End Models.

Section ModelsContinued.
Local Open Scope R_scope.

Lemma averages_in_range_witness :
  let r := ExamResult.mk 500 600 700 800 900 ∅ None None None None None None
             None None None None None None in
  0 <= ExamResult.average_score r <= 1000 ∧
  0 <= ExamResult.objective_average r <= 1000.
Proof.
  intros r.
  assert (ExamResult.__post_init__ r = Ok r) as Hpost.
  { apply post_init_ok. simpl. repeat (constructor; [lra|]). constructor. }
  destruct (averages_in_range r r Hpost) as (H1 & H2 & _). done.
Defined.

(** X14. [to_dict] has exactly seven keys; under the value string of each
    of the five areas it holds the score that [get_score_by_area] returns for
    that area, and under ["average"] and ["objective_average"] the two
    averages. *)
Theorem to_dict_agrees r :
  (∀ area, ExamResult.to_dict r !! AreaType_value area =
           Some (ExamResult.get_score_by_area r area)) ∧
  ExamResult.to_dict r !! "average" = Some (ExamResult.average_score r) ∧
  ExamResult.to_dict r !! "objective_average" =
    Some (ExamResult.objective_average r) ∧
  dom (ExamResult.to_dict r) =
    {[ "mathematics"; "languages"; "natural_sciences"; "human_sciences";
       "essay"; "average"; "objective_average" ]} ∧
  size (ExamResult.to_dict r) = 7%nat.
Proof.
  assert (dom (ExamResult.to_dict r) =
          ({[ "mathematics"; "languages"; "natural_sciences"; "human_sciences";
              "essay"; "average"; "objective_average" ]} : gset string)) as Hdom.
  { unfold ExamResult.to_dict. rewrite !dom_insert_L, dom_singleton_L.
    set_solver. }
  split; [intros []; reflexivity|].
  split; [reflexivity|]. split; [reflexivity|]. split; [done|].
  rewrite <- size_dom, Hdom. reflexivity.
Qed.

End ModelsContinued.

(** * Further properties of the calculator *)

Section CalculatorConstruction.
Local Open Scope R_scope.

Lemma insert_if {A} (b : bool) (k : AreaType) (x y : A) (m : gmap AreaType A) :
  (if b then <[k := x]> m else <[k := y]> m) = <[k := if b then x else y]> m.
Proof. by destruct b. Qed.

(** The parameters computed from the statistics files always cover the four
    objective areas. *)
Lemma foldl_ext_all {A B} (f g : A → B → A) (l : list B) (a : A) :
  (∀ a b, f a b = g a b) → foldl f a l = foldl g a l.
Proof.
  intros Hfg. revert a. induction l as [|b l IH]; intros a; simpl; [done|].
  by rewrite Hfg, IH.
Qed.

Lemma calculate_default_params_lookup load area :
  TriCalculator._calculate_default_params_from_inep load !! area =
  averaged_params load <$> TriCalculator.area_name_mapping area.
Proof.
  unfold TriCalculator._calculate_default_params_from_inep.
  rewrite (foldl_ext_all _
             (λ params entry, <[entry.2 := averaged_params load entry.1]> params)).
  2:{ intros params [name ty]. unfold averaged_params. cbv zeta.
      by rewrite insert_if. }
  unfold TriCalculator.area_mapping. cbn [foldl fst snd].
  destruct area; cbn [TriCalculator.area_name_mapping fmap option_fmap option_map];
    repeat (rewrite lookup_insert_ne by done);
    first [by rewrite lookup_insert_eq | by rewrite lookup_empty].
Qed.

Lemma load_inep_parameters_lookup load year area :
  TriCalculator._load_inep_parameters load year !! area =
  (λ name,
     match load year with
     | Some stats =>
         if decide (stats = ∅) then averaged_params load name
         else match stats !! name with
              | Some area_stats =>
                  TriCalculator.area_params (stat_min area_stats)
                    (stat_max area_stats) (stat_mean area_stats)
                    (stat_std area_stats)
              | None => averaged_params load name
              end
     | None => averaged_params load name
     end) <$> TriCalculator.area_name_mapping area.
Proof.
  unfold TriCalculator._load_inep_parameters.
  destruct (load year) as [stats|]; [|apply calculate_default_params_lookup].
  destruct (decide (stats = ∅)); [apply calculate_default_params_lookup|].
  simpl. rewrite !calculate_default_params_lookup. simpl.
  assert (∀ (o : option AreaStatistics) k (d : gmap string R)
            (m : gmap AreaType (gmap string R)),
            match o with
            | Some a => <[k := TriCalculator.area_params (stat_min a) (stat_max a)
                                 (stat_mean a) (stat_std a)]> m
            | None => <[k := d]> m
            end =
            <[k := match o with
                   | Some a => TriCalculator.area_params (stat_min a) (stat_max a)
                                 (stat_mean a) (stat_std a)
                   | None => d
                   end]> m) as Hm by (by intros []).
  rewrite !Hm.
  destruct area; simpl;
    repeat (rewrite lookup_insert_ne by done);
    first [by rewrite lookup_insert_eq | by rewrite lookup_empty].
Qed.

Lemma area_params_lookups mn mx mean sd :
  TriCalculator.area_params mn mx mean sd !! "min_score" = Some mn ∧
  TriCalculator.area_params mn mx mean sd !! "max_score" = Some mx ∧
  TriCalculator.area_params mn mx mean sd !! "mean_score" = Some mean ∧
  TriCalculator.area_params mn mx mean sd !! "std_deviation" = Some sd.
Proof. repeat split. Qed.

(** The estimator of an objective area, as the constructor builds it from
    the resolved parameters. *)
Lemma init_estimator_lookup load tq custom (use_inep : bool) year area :
  area ≠ ESSAY →
  let params :=
    match custom with
    | None =>
        if use_inep then TriCalculator._load_inep_parameters load year
        else TriCalculator._calculate_default_params_from_inep load
    | Some custom => custom
    end in
  let area_params := default ∅ (params !! area) in
  TriCalculator.estimators (TriCalculator.__init__ load tq custom use_inep year)
    !! area =
  Some (TriEstimator.__init__ tq
          (default 300 (area_params !! "min_score"))
          (default 900 (area_params !! "max_score"))
          (default 500 (area_params !! "mean_score"))
          (default 100 (area_params !! "std_deviation"))
          (TriCalculator.area_name_mapping area) (Some "data")).
Proof.
  intros Harea. unfold TriCalculator.__init__. simpl.
  destruct area; [..|done];
    repeat (rewrite lookup_insert_ne by done); by rewrite lookup_insert_eq.
Qed.

(** X15. Whatever the parameters come from, a new calculator has exactly
    the four objective areas as keys of its estimators (the essay has none),
    and each estimator has the calculator's question count, the name of its
    area, and no calibration: no factor, no exact scores, no range. *)
Theorem init_shape load tq custom use_inep year :
  let calc := TriCalculator.__init__ load tq custom use_inep year in
  TriCalculator.total_questions calc = tq ∧
  TriCalculator.reference_year calc = year ∧
  dom (TriCalculator.estimators calc) =
    {[ MATHEMATICS; LANGUAGES; NATURAL_SCIENCES; HUMAN_SCIENCES ]} ∧
  size (TriCalculator.estimators calc) = 4%nat ∧
  TriCalculator.estimators calc !! ESSAY = None ∧
  ∀ area estimator,
    TriCalculator.estimators calc !! area = Some estimator →
    TriEstimator.total_questions estimator = tq ∧
    TriEstimator.area_name estimator = TriCalculator.area_name_mapping area ∧
    personal_factor estimator = None ∧
    TriEstimator._score_map estimator = None ∧
    ∀ ca y, TriEstimator.estimate_score_range estimator ca y = Ok None.
Proof.
  intros calc.
  assert (dom (TriCalculator.estimators calc) =
          ({[ MATHEMATICS; LANGUAGES; NATURAL_SCIENCES; HUMAN_SCIENCES ]}
             : gset AreaType)) as Hdom.
  { unfold calc, TriCalculator.__init__. simpl.
    rewrite !dom_insert_L, dom_empty_L. apply set_eq. intros a.
    rewrite !elem_of_union, !elem_of_singleton, elem_of_empty. tauto. }
  assert (ESSAY ∉ dom (TriCalculator.estimators calc)) as Hessay.
  { rewrite Hdom, !elem_of_union, !elem_of_singleton.
    intros [[[?|?]|?]|?]; discriminate. }
  split; [done|]. split; [done|]. split; [done|].
  split; [rewrite <- size_dom, Hdom; reflexivity|].
  split; [by apply not_elem_of_dom|].
  intros area est Hest.
  assert (area ≠ ESSAY) as Harea.
  { intros ->. apply Hessay. apply elem_of_dom. by exists est. }
  unfold calc in Hest.
  rewrite (init_estimator_lookup load tq custom use_inep year area Harea) in Hest.
  injection Hest as <-. repeat split.
Qed.

(** X16. Custom parameters win over the statistics files, also when
    [use_inep_data] is true: each estimator takes the four parameters from
    the custom entry of its area, with 300, 900, 500 and 100 for the keys
    (or the whole area) that are missing, and nothing is read from the
    files. *)
Theorem init_custom_parameters load tq custom use_inep year area :
  area ≠ ESSAY →
  let area_params := default ∅ (custom !! area) in
  TriCalculator.estimators
    (TriCalculator.__init__ load tq (Some custom) use_inep year) !! area =
  Some (TriEstimator.__init__ tq
          (default 300 (area_params !! "min_score"))
          (default 900 (area_params !! "max_score"))
          (default 500 (area_params !! "mean_score"))
          (default 100 (area_params !! "std_deviation"))
          (TriCalculator.area_name_mapping area) (Some "data")) ∧
  TriCalculator.estimators
    (TriCalculator.__init__ load tq (Some custom) use_inep year) =
  TriCalculator.estimators
    (TriCalculator.__init__ no_statistics tq (Some custom) false year).
Proof.
  intros Harea. split.
  - by rewrite init_estimator_lookup.
  - apply map_eq. intros a. destruct (decide (a = ESSAY)) as [->|Ha].
    + reflexivity.
    + by rewrite !init_estimator_lookup.
Qed.

Lemma init_custom_parameters_witness :
  TriCalculator.estimators
    (TriCalculator.__init__ no_statistics 45
       (Some {[ MATHEMATICS := {[ "max_score" := 950 ]} ]}) true 2023)
    !! MATHEMATICS =
  Some (TriEstimator.__init__ 45 300 950 500 100 (Some "mathematics")
          (Some "data")).
Proof.
  destruct (init_custom_parameters no_statistics 45
              {[ MATHEMATICS := {[ "max_score" := 950 ]} ]} true 2023 MATHEMATICS)
    as [H _]; [done|].
  rewrite H. reflexivity.
Defined.

End CalculatorConstruction.

Section CalculatorStatistics.
Local Open Scope R_scope.

Lemma sum_list_fmap_le {A} (f g : A → R) (l : list A) :
  Forall (λ a, f a <= g a) l → sum_list (f <$> l) <= sum_list (g <$> l).
Proof.
  induction 1 as [|a l Ha _ IH]; csimpl; [lra|]. simpl. lra.
Qed.

(** The averaged parameters are a full parameter dict, and they keep
    [min <= max] when every record of the files has it. *)
Lemma averaged_params_shape load name :
  ∃ mn mx mean sd,
    averaged_params load name = TriCalculator.area_params mn mx mean sd ∧
    ((∀ y stats rec, load y = Some stats → stats !! name = Some rec →
                     stat_min rec <= stat_max rec) → mn <= mx) ∧
    ((∀ y, y ∈ TriCalculator.years_to_average →
           load y ≫= (.!! name) = None) →
     mn = 300 ∧ mx = 900 ∧ mean = 500 ∧ sd = 100).
Proof.
  unfold averaged_params.
  set (found := omap _ _).
  destruct (Nat.ltb_spec 0 (length found)) as [Hpos|Hzero].
  - eexists _, _, _, _. split; [reflexivity|]. split.
    + intros Hwf.
      assert (Forall (λ rec, stat_min rec <= stat_max rec) found) as Hall.
      { apply Forall_forall. intros rec Hin.
        apply list_elem_of_omap in Hin as (y & _ & Hy).
        destruct (load y) as [stats|] eqn:Hload; [|done]. simpl in Hy.
        by apply (Hwf y stats rec). }
      apply (sum_list_fmap_le stat_min stat_max) in Hall.
      assert (0 < INR (length found)) as Hn by (apply lt_0_INR; lia).
      apply Rmult_le_compat_r; [|done].
      left. by apply Rinv_0_lt_compat.
    + intros Hnone. exfalso.
      destruct found as [|rec found'] eqn:Hfound; [simpl in Hpos; lia|].
      assert (rec ∈ omap (λ year, load year ≫= (.!! name))
                     TriCalculator.years_to_average) as Hin.
      { fold found. rewrite Hfound. by left. }
      apply list_elem_of_omap in Hin as (y & Hy & Hrec).
      rewrite (Hnone y Hy) in Hrec. done.
  - eexists _, _, _, _. split; [reflexivity|]. split; [intros _; lra|].
    intros _. repeat split.
Qed.

(** X17. A calculator built from the statistics files (no custom
    parameters) has, for each objective area, an estimator with
    [min_score <= max_score] as soon as every record of the files has
    [min <= max]: the averaging over the years 2020-2024 and the fallback
    300/900 keep the order. *)
Theorem init_keeps_min_below_max load tq (use_inep : bool) year area :
  area ≠ ESSAY →
  (∀ y stats name rec, load y = Some stats → stats !! name = Some rec →
                       stat_min rec <= stat_max rec) →
  ∃ estimator,
    TriCalculator.estimators (TriCalculator.__init__ load tq None use_inep year)
      !! area = Some estimator ∧
    TriEstimator.min_score estimator <= TriEstimator.max_score estimator.
Proof.
  intros Harea Hwf.
  rewrite init_estimator_lookup by done. cbv zeta.
  eexists. split; [reflexivity|]. simpl.
  assert (∃ name, TriCalculator.area_name_mapping area = Some name)
    as [name Hname] by (destruct area; by eauto).
  assert (∀ p : gmap string R,
            (∃ mn mx mean sd,
               p = TriCalculator.area_params mn mx mean sd ∧ mn <= mx) →
            default 300 (p !! "min_score") <= default 900 (p !! "max_score"))
    as Hparams.
  { intros p (mn & mx & mean & sd & -> & Hle).
    destruct (area_params_lookups mn mx mean sd) as (-> & -> & _). done. }
  assert (∃ mn mx mean sd,
            averaged_params load name = TriCalculator.area_params mn mx mean sd
            ∧ mn <= mx) as Havg.
  { destruct (averaged_params_shape load name)
      as (mn & mx & mean & sd & Heq & Hle & _).
    exists mn, mx, mean, sd. split; [done|]. apply Hle.
    intros y stats rec. apply Hwf. }
  destruct use_inep.
  - rewrite load_inep_parameters_lookup, Hname. simpl.
    apply Hparams.
    destruct (load year) as [stats|] eqn:Hload; [|done].
    destruct (decide (stats = ∅)); [done|].
    destruct (stats !! name) as [rec|] eqn:Hrec; [|done].
    eexists _, _, _, _. split; [reflexivity|]. by apply (Hwf year stats name).
  - rewrite calculate_default_params_lookup, Hname. simpl.
    by apply Hparams.
Qed.

Lemma init_keeps_min_below_max_witness :
  ∃ estimator,
    TriCalculator.estimators
      (TriCalculator.__init__ no_statistics 45 None true 2023)
      !! MATHEMATICS = Some estimator ∧
    TriEstimator.min_score estimator <= TriEstimator.max_score estimator.
Proof.
  apply init_keeps_min_below_max; [done|].
  intros y stats name rec Hload. discriminate Hload.
Defined.

(** X18. When the files have no statistics of an area, neither for the
    reference year nor for any of the years 2020-2024, the estimator of that
    area gets the fixed parameters 300, 900, 500 and 100. *)
Theorem init_falls_back_to_defaults load tq (use_inep : bool) year area name :
  TriCalculator.area_name_mapping area = Some name →
  (∀ y, y = year ∨ y ∈ TriCalculator.years_to_average →
        load y ≫= (.!! name) = None) →
  TriCalculator.estimators (TriCalculator.__init__ load tq None use_inep year)
    !! area =
  Some (TriEstimator.__init__ tq 300 900 500 100 (Some name) (Some "data")).
Proof.
  intros Hname Hnone.
  assert (area ≠ ESSAY) as Harea by (intros ->; discriminate).
  rewrite init_estimator_lookup by done. cbv zeta. rewrite Hname.
  assert (averaged_params load name = TriCalculator.area_params 300 900 500 100)
    as Havg.
  { destruct (averaged_params_shape load name)
      as (mn & mx & mean & sd & Heq & _ & Hfix).
    destruct Hfix as (-> & -> & -> & ->); [|done].
    intros y Hy. apply Hnone. by right. }
  assert ((if use_inep then TriCalculator._load_inep_parameters load year
           else TriCalculator._calculate_default_params_from_inep load) !! area
          = Some (TriCalculator.area_params 300 900 500 100)) as ->.
  { destruct use_inep.
    - rewrite load_inep_parameters_lookup, Hname. simpl.
      pose proof (Hnone year (or_introl eq_refl)) as Hyear.
      destruct (load year) as [stats|]; [|by rewrite Havg].
      destruct (decide (stats = ∅)); [by rewrite Havg|].
      simpl in Hyear. rewrite Hyear. by rewrite Havg.
    - rewrite calculate_default_params_lookup, Hname. simpl. by rewrite Havg. }
  reflexivity.
Qed.

Lemma init_falls_back_to_defaults_witness :
  TriCalculator.estimators
    (TriCalculator.__init__ no_statistics 45 None true 2023) !! LANGUAGES =
  Some (TriEstimator.__init__ 45 300 900 500 100 (Some "languages")
          (Some "data")).
Proof.
  apply init_falls_back_to_defaults; [reflexivity|].
  intros y _. reflexivity.
Defined.

End CalculatorStatistics.

Section CalibrationOutcome.
Import TriEstimator.

(** The two outcomes of [set_historical_data], by the lengths alone. *)
Lemma set_historical_data_length_effect self cas scores years stats :
  let '(self', outcome) := set_historical_data self cas scores years stats in
  (length cas ≠ length scores →
     self' = self ∧
     outcome = Raise (ValueError
                 [Lit "correct_answers and scores must have same length"])) ∧
  (length cas = length scores → outcome = Ok tt).
Proof.
  unfold set_historical_data.
  destruct (Nat.eqb_spec (length cas) (length scores)) as [Hlen|Hlen]; simpl.
  - destruct (_ <? 2)%nat; simpl; [done|]. destruct (0 <? _)%nat; done.
  - done.
Qed.

End CalibrationOutcome.

Section CalculatorCalibration.
Local Open Scope R_scope.

(** X19. [calibrate_with_user_data] raises only for a non-essay area that
    has an estimator, with two non-empty lists of different lengths, and then
    the calculator is unchanged.  In every case the question count, the set
    of areas and the estimators of the other areas stay as they were; for the
    essay or with an empty list nothing changes at all, even when the lengths
    differ. *)
Theorem calibrate_with_user_data_frame load calc area cas scores years :
  let '(calc', outcome) :=
    TriCalculator.calibrate_with_user_data load calc area cas scores years in
  TriCalculator.total_questions calc' = TriCalculator.total_questions calc ∧
  TriCalculator.reference_year calc' = TriCalculator.reference_year calc ∧
  dom (TriCalculator.estimators calc') = dom (TriCalculator.estimators calc) ∧
  (∀ other, other ≠ area →
     TriCalculator.estimators calc' !! other =
     TriCalculator.estimators calc !! other) ∧
  (outcome ≠ Ok tt ↔
     area ≠ ESSAY ∧ is_Some (TriCalculator.estimators calc !! area) ∧
     cas ≠ [] ∧ scores ≠ [] ∧ length cas ≠ length scores) ∧
  (outcome ≠ Ok tt →
     calc' = calc ∧
     outcome = Raise (ValueError
                 [Lit "correct_answers and scores must have same length"])) ∧
  (area = ESSAY ∨ cas = [] ∨ scores = [] → calc' = calc ∧ outcome = Ok tt).
Proof.
  unfold TriCalculator.calibrate_with_user_data.
  destruct (decide (area = ESSAY)) as [->|Harea].
  { repeat split; try done. intros (? & _); done. }
  destruct (TriCalculator.estimators calc !! area) as [est|] eqn:Hest.
  2:{ repeat split; try done. intros (_ & [? ?] & _); done. }
  destruct cas as [|c cas].
  { simpl. repeat split; try done. intros (_ & _ & ? & _); done. }
  destruct scores as [|s scores].
  { simpl. repeat split; try done. intros (_ & _ & _ & ? & _); done. }
  cbn [length Nat.ltb Nat.leb andb].
  pose proof (set_historical_data_length_effect est (c :: cas) (s :: scores)
                years (TriCalculator.inep_stats_for load area years)) as Hset.
  destruct (TriEstimator.set_historical_data est (c :: cas) (s :: scores) years _)
    as [est' outcome].
  destruct Hset as (Hne & Heq).
  split; [done|]. split; [done|]. split.
  { simpl. rewrite dom_insert_L.
    assert (area ∈ dom (TriCalculator.estimators calc))
      by (apply elem_of_dom; eauto).
    apply set_eq. intros a. rewrite elem_of_union, elem_of_singleton.
    split; [intros [->|]; done|tauto]. }
  split.
  { intros other Hother. simpl. by rewrite lookup_insert_ne. }
  split; [|split].
  - split.
    + intros Hout. split; [done|]. split; [by exists est|].
      split; [done|]. split; [done|].
      intros Hlen. apply Hout. by apply Heq.
    + intros (_ & _ & _ & _ & Hlen). destruct (Hne Hlen) as [_ ->]. done.
  - intros Hout.
    assert (length (c :: cas) ≠ length (s :: scores)) as Hlen.
    { intros Hlen. apply Hout. by apply Heq. }
    destruct (Hne Hlen) as [-> ->]. split; [|done].
    destruct calc as [tq ests use yr]. simpl in *. f_equal.
    by apply insert_id.
  - intros [?|[?|?]]; done.
Qed.

End CalculatorCalibration.

Section CalculatorResult.
Local Open Scope R_scope.

(** A returned result, field by field. *)
Lemma calculate_score_Ok_full calc m l n h e r :
  TriCalculator.calculate_score calc m l n h e = Ok r →
  let tq := TriCalculator.total_questions calc in
  let year := Some (TriCalculator.reference_year calc) in
  ∃ e_math e_lang e_nat e_hum s_math s_lang s_nat s_hum
    r_math r_lang r_nat r_hum,
    TriCalculator.estimators calc !! MATHEMATICS = Some e_math ∧
    TriCalculator.estimators calc !! LANGUAGES = Some e_lang ∧
    TriCalculator.estimators calc !! NATURAL_SCIENCES = Some e_nat ∧
    TriCalculator.estimators calc !! HUMAN_SCIENCES = Some e_hum ∧
    TriEstimator.estimate_score e_math m true year = Ok s_math ∧
    TriEstimator.estimate_score e_lang l true year = Ok s_lang ∧
    TriEstimator.estimate_score e_nat n true year = Ok s_nat ∧
    TriEstimator.estimate_score e_hum h true year = Ok s_hum ∧
    TriEstimator.estimate_score_range e_math m year = Ok r_math ∧
    TriEstimator.estimate_score_range e_lang l year = Ok r_lang ∧
    TriEstimator.estimate_score_range e_nat n year = Ok r_nat ∧
    TriEstimator.estimate_score_range e_hum h year = Ok r_hum ∧
    r = ExamResult.mk s_math s_lang s_nat s_hum e
          {[ MATHEMATICS := ExamArea.mk MATHEMATICS tq m (Some s_math);
             LANGUAGES := ExamArea.mk LANGUAGES tq l (Some s_lang);
             NATURAL_SCIENCES := ExamArea.mk NATURAL_SCIENCES tq n (Some s_nat);
             HUMAN_SCIENCES := ExamArea.mk HUMAN_SCIENCES tq h (Some s_hum);
             ESSAY := ExamArea.mk ESSAY 1 1 (Some e) ]}
          ((λ r, r.1.1) <$> r_math) ((λ r, r.1.2) <$> r_math)
          ((λ r, r.2) <$> r_math)
          ((λ r, r.1.1) <$> r_lang) ((λ r, r.1.2) <$> r_lang)
          ((λ r, r.2) <$> r_lang)
          ((λ r, r.1.1) <$> r_nat) ((λ r, r.1.2) <$> r_nat)
          ((λ r, r.2) <$> r_nat)
          ((λ r, r.1.1) <$> r_hum) ((λ r, r.1.2) <$> r_hum)
          ((λ r, r.2) <$> r_hum).
Proof.
  unfold TriCalculator.calculate_score, TriCalculator.estimator_of.
  destruct (Rltb e 0 || Rgtb e 1000) eqn:He; [discriminate|].
  destruct (exam_area_new_cases MATHEMATICS (TriCalculator.total_questions calc) m None)
    as [[Hm ->]|[_ (? & -> & _)]]; [|discriminate].
  destruct (exam_area_new_cases LANGUAGES (TriCalculator.total_questions calc) l None)
    as [[Hl ->]|[_ (? & -> & _)]]; [|discriminate].
  destruct (exam_area_new_cases NATURAL_SCIENCES (TriCalculator.total_questions calc) n None)
    as [[Hn ->]|[_ (? & -> & _)]]; [|discriminate].
  destruct (exam_area_new_cases HUMAN_SCIENCES (TriCalculator.total_questions calc) h None)
    as [[Hh ->]|[_ (? & -> & _)]]; [|discriminate].
  rewrite exam_area_new_ok by lia. simpl.
  destruct (TriCalculator.estimators calc !! MATHEMATICS) as [e_math|];
    [simpl|discriminate].
  destruct (TriEstimator.estimate_score e_math m true _) as [s_math|] eqn:Em;
    [simpl|discriminate].
  destruct (TriCalculator.estimators calc !! LANGUAGES) as [e_lang|];
    [simpl|discriminate].
  destruct (TriEstimator.estimate_score e_lang l true _) as [s_lang|] eqn:El;
    [simpl|discriminate].
  destruct (TriCalculator.estimators calc !! NATURAL_SCIENCES) as [e_nat|];
    [simpl|discriminate].
  destruct (TriEstimator.estimate_score e_nat n true _) as [s_nat|] eqn:En;
    [simpl|discriminate].
  destruct (TriCalculator.estimators calc !! HUMAN_SCIENCES) as [e_hum|];
    [simpl|discriminate].
  destruct (TriEstimator.estimate_score e_hum h true _) as [s_hum|] eqn:Eh;
    [simpl|discriminate].
  destruct (TriEstimator.estimate_score_range e_math m _) as [r_math|] eqn:Rm;
    [simpl|discriminate].
  destruct (TriEstimator.estimate_score_range e_lang l _) as [r_lang|] eqn:Rl;
    [simpl|discriminate].
  destruct (TriEstimator.estimate_score_range e_nat n _) as [r_nat|] eqn:Rn;
    [simpl|discriminate].
  destruct (TriEstimator.estimate_score_range e_hum h _) as [r_hum|] eqn:Rh;
    [simpl|discriminate].
  intros Hpost. apply post_init_inv in Hpost as ->.
  exists e_math, e_lang, e_nat, e_hum, s_math, s_lang, s_nat, s_hum,
    r_math, r_lang, r_nat, r_hum.
  repeat (split; [done|]). reflexivity.
Qed.

(** The range of a consistent estimator is there exactly when the factor
    is, and then it is ordered inside [300, 1000]. *)
Lemma range_fields_cases est ca year rng :
  consistent est →
  TriEstimator.estimate_score_range est ca year = Ok rng →
  (personal_factor est = None ∧ rng = None) ∨
  (∃ p c o, personal_factor est ≠ None ∧ rng = Some (p, c, o) ∧
            300 <= p ∧ p <= c ∧ c <= o ∧ o <= 1000).
Proof.
  intros Hc Hr.
  destruct (TriEstimator._interpolator est) as [f|] eqn:Hf.
  - right.
    destruct (estimate_score_range_available est ca year Hc)
      as (p & c & o & Hrange & Hb); [congruence|].
    rewrite Hrange in Hr. injection Hr as <-.
    exists p, c, o. split; [|split; [done|tauto]].
    destruct (interpolator_factor est f ca Hc Hf) as (k & -> & _). done.
  - left. rewrite estimate_score_range_unavailable in Hr by done.
    injection Hr as <-. split; [|done].
    unfold consistent in Hc. rewrite Hf in Hc. tauto.
Qed.

(** X20. In a result that [calculate_score] returns on a reachable
    calculator, each objective area is recorded with its count and its
    score, the essay as one question of one with the essay score, and the
    three range fields of an area are all absent when its estimator has no
    personal factor and all present otherwise, with
    300 <= pessimistic <= calculated <= optimistic <= 1000. *)
Theorem calculate_score_result_shape load calc m l n h e r :
  reachable_calculator load calc →
  TriCalculator.calculate_score calc m l n h e = Ok r →
  ExamResult.areas r !! ESSAY = Some (ExamArea.mk ESSAY 1 1 (Some e)) ∧
  size (ExamResult.areas r) = 5%nat ∧
  ∀ area ca,
    (area, ca) ∈ [(MATHEMATICS, m); (LANGUAGES, l);
                  (NATURAL_SCIENCES, n); (HUMAN_SCIENCES, h)] →
    ExamResult.areas r !! area =
      Some (ExamArea.mk area (TriCalculator.total_questions calc) ca
              (Some (ExamResult.get_score_by_area r area))) ∧
    ∃ estimator,
      TriCalculator.estimators calc !! area = Some estimator ∧
      ((personal_factor estimator = None ∧
        result_range r area = (None, None, None)) ∨
       (∃ p c o, personal_factor estimator ≠ None ∧
                 result_range r area = (Some p, Some c, Some o) ∧
                 300 <= p ∧ p <= c ∧ c <= o ∧ o <= 1000)).
Proof.
  intros Hreach Hr. apply reachable_calculator_invariant in Hreach.
  apply calculate_score_Ok_full in Hr
    as (em & el & en & eh & sm & sl & sn & sh & rm & rl & rn & rh &
        Em & El & En & Eh & _ & _ & _ & _ & Rm & Rl & Rn & Rh & ->).
  split; [reflexivity|]. split; [reflexivity|].
  assert (∀ area est, TriCalculator.estimators calc !! area = Some est →
                      area ≠ ESSAY → consistent est) as Hcons.
  { intros area est Hest Harea.
    destruct (Hreach area Harea) as (est' & Hest' & _ & Hr).
    rewrite Hest in Hest'. injection Hest' as <-.
    by apply reachable_consistent. }
  intros area ca Hin.
  apply elem_of_cons in Hin as [[= -> ->]|Hin].
  { split; [reflexivity|]. exists em. split; [done|].
    destruct (range_fields_cases em m _ rm (Hcons _ _ Em ltac:(done)) Rm)
      as [[? ->]|(p & c & o & ? & -> & ?)]; [by left|].
    right. by exists p, c, o. }
  apply elem_of_cons in Hin as [[= -> ->]|Hin].
  { split; [reflexivity|]. exists el. split; [done|].
    destruct (range_fields_cases el l _ rl (Hcons _ _ El ltac:(done)) Rl)
      as [[? ->]|(p & c & o & ? & -> & ?)]; [by left|].
    right. by exists p, c, o. }
  apply elem_of_cons in Hin as [[= -> ->]|Hin].
  { split; [reflexivity|]. exists en. split; [done|].
    destruct (range_fields_cases en n _ rn (Hcons _ _ En ltac:(done)) Rn)
      as [[? ->]|(p & c & o & ? & -> & ?)]; [by left|].
    right. by exists p, c, o. }
  apply elem_of_cons in Hin as [[= -> ->]|Hin].
  { split; [reflexivity|]. exists eh. split; [done|].
    destruct (range_fields_cases eh h _ rh (Hcons _ _ Eh ltac:(done)) Rh)
      as [[? ->]|(p & c & o & ? & -> & ?)]; [by left|].
    right. by exists p, c, o. }
  by apply elem_of_nil in Hin.
Qed.

(** X21. [calculate_area_score] agrees with [calculate_score]: when the
    latter returns a result for four counts, the former returns, for each
    objective area and its count and whatever year it is given, the score
    that the result holds for the area. *)
Theorem calculate_area_score_agrees calc m l n h e r area ca year :
  TriCalculator.calculate_score calc m l n h e = Ok r →
  (area, ca) ∈ [(MATHEMATICS, m); (LANGUAGES, l);
                (NATURAL_SCIENCES, n); (HUMAN_SCIENCES, h)] →
  TriCalculator.calculate_area_score calc area ca year =
  Ok (ExamResult.get_score_by_area r area).
Proof.
  intros Hr Hin.
  apply calculate_score_Ok_full in Hr
    as (em & el & en & eh & sm & sl & sn & sh & rm & rl & rn & rh &
        Em & El & En & Eh & Sm & Sl & Sn & Sh & _ & _ & _ & _ & ->).
  unfold TriCalculator.calculate_area_score.
  repeat (apply elem_of_cons in Hin as [[= -> ->]|Hin];
          [rewrite decide_False by done;
           first [rewrite Em | rewrite El | rewrite En | rewrite Eh];
           simpl; assumption|]).
  by apply elem_of_nil in Hin.
Qed.

End CalculatorResult.

Section CalculatorReturns.
Local Open Scope R_scope.

(** On an uncalibrated calculator with a non-zero question count, valid
    counts and a valid essay score give a result. *)
Lemma uncalibrated_calculator_returns calc m l n h e :
  uncalibrated_calculator calc →
  TriCalculator.total_questions calc ≠ 0%Z →
  0 <= e <= 1000 →
  (0 <= m <= TriCalculator.total_questions calc)%Z →
  (0 <= l <= TriCalculator.total_questions calc)%Z →
  (0 <= n <= TriCalculator.total_questions calc)%Z →
  (0 <= h <= TriCalculator.total_questions calc)%Z →
  ∃ r, TriCalculator.calculate_score calc m l n h e = Ok r.
Proof.
  intros [Hinv Hparams] Htq He Hm Hl Hn Hh.
  assert (∀ area ca, area ≠ ESSAY →
            (0 <= ca <= TriCalculator.total_questions calc)%Z →
            ∃ est s,
              TriCalculator.estimators calc !! area = Some est ∧
              consistent est ∧
              TriEstimator.estimate_score est ca true
                (Some (TriCalculator.reference_year calc)) = Ok s ∧
              0 <= s <= 1000) as Harea.
  { intros area ca Hne Hca.
    destruct (Hinv area Hne) as (est & Hest & Hq & Hreach).
    destruct (Hparams area est Hest) as (Hnone & H0 & Hle & H1).
    destruct (estimate_score_bounded est ca
                (Some (TriCalculator.reference_year calc)))
      as (s & Hs & Hb); try done; try (rewrite Hq; done).
    exists est, s. split; [done|]. split; [by apply reachable_consistent|].
    split; [done|lra]. }
  destruct (Harea MATHEMATICS m) as (em & sm & ? & ? & ? & ?); [done..|].
  destruct (Harea LANGUAGES l) as (el & sl & ? & ? & ? & ?); [done..|].
  destruct (Harea NATURAL_SCIENCES n) as (en & sn & ? & ? & ? & ?); [done..|].
  destruct (Harea HUMAN_SCIENCES h) as (eh & sh & ? & ? & ? & ?); [done..|].
  destruct (calculate_score_returns calc m l n h e em el en eh sm sl sn sh)
    as (r & Hr & _); try done.
  by exists r.
Qed.

Lemma default_calculator_uncalibrated : uncalibrated_calculator default_calculator.
Proof.
  split; [apply init_invariant|].
  intros area est Hest.
  apply default_calculator_estimators in Hest as [name ->]. simpl.
  repeat split; (done || lra).
Qed.

Lemma default_calculator_reachable :
  reachable_calculator no_statistics default_calculator.
Proof. apply reachable_calculator_init. Qed.

Lemma calculate_score_result_shape_witness :
  ∃ r,
    TriCalculator.calculate_score default_calculator 10 20 30 40 700 = Ok r ∧
    ExamResult.areas r !! MATHEMATICS =
      Some (ExamArea.mk MATHEMATICS 45 10
              (Some (ExamResult.mathematics_score r))) ∧
    result_range r MATHEMATICS = (None, None, None).
Proof.
  destruct (uncalibrated_calculator_returns default_calculator 10 20 30 40 700)
    as [r Hr].
  - apply default_calculator_uncalibrated.
  - simpl. lia.
  - lra.
  - simpl. lia.
  - simpl. lia.
  - simpl. lia.
  - simpl. lia.
  - exists r. split; [done|].
    destruct (calculate_score_result_shape no_statistics default_calculator
                10 20 30 40 700 r default_calculator_reachable Hr)
      as (_ & _ & Hareas).
    destruct (Hareas MATHEMATICS 10%Z) as (Harea & est & Hest & Hrange);
      [by left|].
    split; [exact Harea|].
    destruct Hrange as [[_ ?]|(p & c & o & Hfactor & _)]; [done|].
    exfalso. apply Hfactor.
    apply default_calculator_estimators in Hest as [name ->]. reflexivity.
Defined.

Lemma calculate_area_score_agrees_witness :
  ∃ r,
    TriCalculator.calculate_score default_calculator 10 20 30 40 700 = Ok r ∧
    TriCalculator.calculate_area_score default_calculator LANGUAGES 20 None =
    Ok (ExamResult.languages_score r).
Proof.
  destruct (uncalibrated_calculator_returns default_calculator 10 20 30 40 700)
    as [r Hr].
  - apply default_calculator_uncalibrated.
  - simpl. lia.
  - lra.
  - simpl. lia.
  - simpl. lia.
  - simpl. lia.
  - simpl. lia.
  - exists r. split; [done|].
    apply (calculate_area_score_agrees default_calculator 10 20 30 40 700 r
             LANGUAGES 20 None Hr).
    right. by left.
Defined.

End CalculatorReturns.

(** * The personal history and the calibration from it *)

Section PersonalHistory.
Local Open Scope R_scope.
Import UserDataLoader.

Lemma usable_points_cons area year_data years :
  usable_points area (year_data :: years) =
  match area_fields area year_data with
  | Some (Some ca, Some score) =>
      if (ca >? 0)%Z then (ca, score) :: usable_points area years
      else usable_points area years
  | _ => usable_points area years
  end.
Proof.
  unfold usable_points. csimpl.
  destruct (area_fields area year_data) as [[[ca|] [score|]]|]; try done.
  by destruct (ca >? 0)%Z.
Qed.

Lemma area_fields_count_present area year_data correct score :
  counts_present year_data →
  area_fields area year_data = Some (correct, score) → is_Some correct.
Proof.
  intros (Hm & Hl & Hn & Hh). unfold area_fields.
  repeat case_decide; intros [= <- <-]; done.
Qed.

Lemma get_historical_data_for_area_from_spec area years :
  Forall counts_present years →
  ∀ correct_answers scores,
    get_historical_data_for_area_from area years correct_answers scores =
    Ok (correct_answers ++ (usable_points area years).*1,
        scores ++ (usable_points area years).*2).
Proof.
  induction 1 as [|year_data years Hpresent _ IH]; intros cas scores.
  - simpl. by rewrite !app_nil_r.
  - cbn [get_historical_data_for_area_from]. rewrite usable_points_cons.
    destruct (area_fields area year_data) as [[correct [score|]]|] eqn:Hfields;
      [|destruct correct; apply IH|apply IH].
    destruct (area_fields_count_present _ _ _ _ Hpresent Hfields) as [ca ->].
    destruct (ca >? 0)%Z; [|apply IH].
    rewrite IH. csimpl. by rewrite <- !app_assoc.
Qed.

Lemma usable_points_positive area years :
  Forall (λ p, (0 < p.1)%Z) (usable_points area years).
Proof.
  induction years as [|year_data years IH]; [constructor|].
  rewrite usable_points_cons.
  destruct (area_fields area year_data) as [[[ca|] [score|]]|]; try done.
  destruct (Z.gtb_spec ca 0); [|done]. constructor; [simpl; lia|done].
Qed.

Lemma usable_points_unknown_area area years :
  (∀ year_data, area_fields area year_data = None) →
  usable_points area years = [].
Proof.
  intros Hnone. induction years as [|year_data years IH]; [done|].
  rewrite usable_points_cons, Hnone. done.
Qed.

(** X22. On a history in which every count is present,
    [get_historical_data_for_area] returns two lists of the same length that
    hold, in order, the counts and the scores of exactly the years whose
    score for the area is present and whose count is positive; so every
    returned count is positive.  For a name that is none of the four areas
    both lists are empty. *)
Theorem get_historical_data_for_area_usable loader area :
  Forall counts_present (previous_years loader) →
  ∃ correct_answers scores,
    get_historical_data_for_area loader area = Ok (correct_answers, scores) ∧
    zip correct_answers scores = usable_points area (previous_years loader) ∧
    length correct_answers = length scores ∧
    Forall (λ ca, (0 < ca)%Z) correct_answers ∧
    (area ∉ ["mathematics"; "languages"; "natural_sciences"; "human_sciences"] →
     correct_answers = [] ∧ scores = []).
Proof.
  intros Hpresent. unfold get_historical_data_for_area.
  rewrite get_historical_data_for_area_from_spec by done. simpl.
  eexists _, _. split; [reflexivity|].
  split; [apply zip_fst_snd|].
  split; [by rewrite !length_fmap|].
  split.
  - apply Forall_fmap. apply usable_points_positive.
  - intros Hnot. rewrite usable_points_unknown_area; [done|].
    intros yd. unfold area_fields.
    repeat case_decide; try done; subst; exfalso; apply Hnot;
      repeat (first [by left | right]).
Qed.

Lemma get_historical_data_for_area_usable_witness :
  let loader :=
    mk None
       [mkYearData 2022 (Some 20%Z) (Some 500) (Some 0%Z) (Some 480)
                   (Some 0%Z) None (Some 0%Z) None (Some 600);
        mkYearData 2023 (Some 30%Z) (Some 650) (Some 25%Z) (Some 560)
                   (Some 0%Z) None (Some 0%Z) None (Some 700)]
       (mkSettings None None None) in
  ∃ correct_answers scores,
    get_historical_data_for_area loader "languages"
      = Ok (correct_answers, scores) ∧
    zip correct_answers scores = [(25%Z, 560)] ∧
    length correct_answers = length scores.
Proof.
  intros loader.
  assert (Forall counts_present (previous_years loader)) as Hpresent.
  { repeat constructor; simpl; eauto. }
  destruct (get_historical_data_for_area_usable loader "languages" Hpresent)
    as (cas & scores & Heq & Hzip & Hlen & _).
  exists cas, scores. split; [done|]. split; [|done].
  rewrite Hzip. reflexivity.
Defined.

End PersonalHistory.

Section HistoryViews.
Local Open Scope R_scope.
Import UserDataLoader.

(** The years whose score for the area is present, with count, score and
    year, as one list. *)
Lemma get_historical_data_with_years_from_spec area years :
  ∀ acc,
    ∃ rows : list (option Z * R * Z),
      get_historical_data_with_years_from area years acc =
        (acc.1.1 ++ rows.*1.*1, acc.1.2 ++ rows.*1.*2, acc.2 ++ rows.*2) ∧
      (∀ scores, get_historical_scores_only_from area years scores =
                 scores ++ rows.*1.*2) ∧
      usable_points area years =
        omap (λ row : option Z * R * Z,
                match row.1.1 with
                | Some ca => if (ca >? 0)%Z then Some (ca, row.1.2) else None
                | None => None
                end) rows.
Proof.
  induction years as [|year_data years IH]; intros acc.
  - exists []. simpl. rewrite !app_nil_r. split; [by destruct acc as [[? ?] ?]|].
    split; [intros; by rewrite app_nil_r|done].
  - cbn [get_historical_data_with_years_from get_historical_scores_only_from].
    rewrite usable_points_cons.
    destruct (area_fields area year_data) as [[correct [score|]]|] eqn:Hfields.
    + destruct (IH (acc.1.1 ++ [correct], acc.1.2 ++ [score],
                    acc.2 ++ [year year_data])) as (rows & Hrows & Hscores & Husable).
      exists ((correct, score, year year_data) :: rows).
      split; [|split].
      * rewrite Hrows. csimpl. by rewrite <- !app_assoc.
      * intros scores. rewrite Hscores. csimpl. by rewrite <- app_assoc.
      * csimpl. rewrite <- Husable.
        destruct correct as [ca|]; [|done]. by destruct (ca >? 0)%Z.
    + destruct (IH acc) as (rows & Hrows & Hscores & Husable).
      exists rows. repeat split; try done. by destruct correct.
    + destruct (IH acc) as (rows & Hrows & Hscores & Husable).
      exists rows. repeat split; done.
Qed.

(** X23. The three lists of [get_historical_data_with_years] have the same
    length; its scores are exactly what [get_historical_scores_only] returns;
    and the usable points of the area (the years that
    [get_historical_data_for_area] keeps when every count is present) are
    those of its rows whose count is present and positive, so a year with a
    score and a count of 0 appears in the first two views and not in the
    third. *)
Theorem history_views_agree loader area :
  let '(correct_answers, scores, years) :=
    get_historical_data_with_years loader area in
  length correct_answers = length scores ∧
  length scores = length years ∧
  get_historical_scores_only loader area = scores ∧
  usable_points area (previous_years loader) =
    omap (λ row : option Z * R,
            match row.1 with
            | Some ca => if (ca >? 0)%Z then Some (ca, row.2) else None
            | None => None
            end) (zip correct_answers scores).
Proof.
  unfold get_historical_data_with_years, get_historical_scores_only.
  destruct (get_historical_data_with_years_from_spec area
              (previous_years loader) ([], [], []))
    as (rows & -> & Hscores & Husable).
  simpl. rewrite Hscores, Husable. simpl.
  split; [by rewrite !length_fmap|]. split; [by rewrite !length_fmap|].
  split; [done|].
  rewrite zip_fst_snd.
  clear. induction rows as [|[[c s] y] rows IH]; csimpl; [done|].
  rewrite IH. done.
Qed.

End HistoryViews.

Section CalibrationFromHistory.
Local Open Scope R_scope.

Variable load : Z → option (gmap string AreaStatistics).

Lemma area_mapping_entry name area :
  (name, area) ∈ TriCalculator.area_mapping → area ≠ ESSAY.
Proof.
  unfold TriCalculator.area_mapping. intros Hin.
  repeat (apply elem_of_cons in Hin as [[= -> ->]|Hin]; [done|]).
  by apply elem_of_nil in Hin.
Qed.

(** What [set_historical_data] leaves on the points [usable_points] keeps:
    with two of them or more the personal factor is the median of their
    ratios, with one the estimator is as it was; it does not fail. *)
Lemma set_historical_data_usable_points est name history years stats :
  let points := usable_points name history in
  let after :=
    TriEstimator.set_historical_data est points.*1 points.*2 years stats in
  after.2 = Ok tt ∧
  ((2 <= length points)%nat →
   personal_factor after.1 =
     Some (np_median (factors_of_positive_counts points))) ∧
  ((length points < 2)%nat → after.1 = est).
Proof.
  intros points after. subst after.
  split; [|split].
  - pose proof (set_historical_data_length_effect est points.*1 points.*2
                  years stats) as Heffect.
    destruct (TriEstimator.set_historical_data est _ _ years stats).
    simpl. apply Heffect. by rewrite !length_fmap.
  - intros Htwo. rewrite set_historical_data_calibrated.
    + unfold personal_factor. simpl. rewrite zip_fst_snd.
      by rewrite conversion_factors_spec.
    + by rewrite !length_fmap.
    + by rewrite length_fmap.
    + pose proof (usable_points_positive name history) as Hpositive.
      fold points in Hpositive.
      destruct points as [|[ca score] rest]; [simpl in Htwo; lia|].
      exists ca. split; [csimpl; left|].
      by apply Forall_cons in Hpositive as [Hca _].
  - intros Hone. unfold TriEstimator.set_historical_data.
    rewrite !length_fmap, Nat.eqb_refl. simpl.
    by rewrite (proj2 (Nat.ltb_lt _ _) Hone).
Qed.

(** One round of the loop: an area with a usable year is calibrated with
    its usable points and counted, another one is left alone; no round
    fails, and the other areas keep their estimators. *)
Lemma calibrate_area_spec loader calc n name area est :
  Forall counts_present (UserDataLoader.previous_years loader) →
  (name, area) ∈ TriCalculator.area_mapping →
  TriCalculator.estimators calc !! area = Some est →
  reachable_calculator load calc →
  let points := usable_points name (UserDataLoader.previous_years loader) in
  ∃ calc' est',
    Cli.calibrate_area load loader (calc, n) (name, area) =
      ((calc', if (0 <? length points)%nat then S n else n), Ok tt) ∧
    reachable_calculator load calc' ∧
    (∀ other, other ≠ area →
       TriCalculator.estimators calc' !! other =
       TriCalculator.estimators calc !! other) ∧
    TriCalculator.estimators calc' !! area = Some est' ∧
    ((2 <= length points)%nat →
     personal_factor est' =
       Some (np_median (factors_of_positive_counts points))) ∧
    ((length points < 2)%nat → est' = est).
Proof.
  intros Hpresent Hentry Hest Hreach points.
  pose proof (area_mapping_entry _ _ Hentry) as Harea.
  unfold Cli.calibrate_area, UserDataLoader.get_historical_data_for_area.
  rewrite get_historical_data_for_area_from_spec by done. simpl.
  fold points. rewrite length_fmap.
  destruct (Nat.ltb_spec 0 (length points)) as [Hpos|Hzero].
  - pose proof (reachable_calculator_calibrate load calc area points.*1
                  points.*2 (Some (Cli.years_list loader)) Hreach) as Hreach'.
    revert Hreach'.
    unfold TriCalculator.calibrate_with_user_data.
    rewrite decide_False by done. rewrite Hest, !length_fmap.
    rewrite (proj2 (Nat.ltb_lt _ _) Hpos). simpl.
    destruct (set_historical_data_usable_points est name
                (UserDataLoader.previous_years loader)
                (Some (Cli.years_list loader))
                (TriCalculator.inep_stats_for load area
                   (Some (Cli.years_list loader))))
      as (Hout & Htwo & Hone).
    fold points in Hout, Htwo, Hone.
    destruct (TriEstimator.set_historical_data est _ _ _ _) as [est' outcome].
    simpl in Hout, Htwo, Hone. subst outcome. simpl. intros Hreach'.
    eexists _, est'. split; [done|]. split; [done|]. simpl.
    split; [by intros other Hother; rewrite lookup_insert_ne|].
    split; [by rewrite lookup_insert_eq|done].
  - exists calc, est. split; [done|]. split; [done|]. split; [done|].
    split; [done|]. split; [lia|done].
Qed.

(** The loop over any entries of the area table that name each area once. *)
Lemma calibrate_areas_spec loader entries :
  Forall counts_present (UserDataLoader.previous_years loader) →
  NoDup entries.*2 →
  (∀ entry, entry ∈ entries → entry ∈ TriCalculator.area_mapping) →
  ∀ calc n,
    reachable_calculator load calc →
    ∃ calc',
      Cli.calibrate_areas load loader (calc, n) entries =
        ((calc',
          (n + length (filter
                 (λ entry, (0 < length (usable_points entry.1
                     (UserDataLoader.previous_years loader)))%nat)
                 entries))%nat),
         Ok tt) ∧
      reachable_calculator load calc' ∧
      (∀ other, other ∉ entries.*2 →
         TriCalculator.estimators calc' !! other =
         TriCalculator.estimators calc !! other) ∧
      (∀ name area, (name, area) ∈ entries →
         ∃ est est',
           TriCalculator.estimators calc !! area = Some est ∧
           TriCalculator.estimators calc' !! area = Some est' ∧
           let points :=
             usable_points name (UserDataLoader.previous_years loader) in
           ((2 <= length points)%nat →
            personal_factor est' =
              Some (np_median (factors_of_positive_counts points))) ∧
           ((length points < 2)%nat → est' = est)).
Proof.
  intros Hpresent. induction entries as [|[name area] entries IH];
    intros Hnodup Hentries calc n Hreach.
  - exists calc. simpl. rewrite Nat.add_0_r. split; [done|]. split; [done|].
    split; [done|]. intros ?? Hin. by apply elem_of_nil in Hin.
  - csimpl in Hnodup. apply NoDup_cons in Hnodup as [Hfresh Hnodup].
    assert ((name, area) ∈ TriCalculator.area_mapping) as Hentry
      by (apply Hentries, elem_of_cons; by left).
    pose proof (area_mapping_entry _ _ Hentry) as Harea.
    destruct (reachable_calculator_invariant load calc Hreach area Harea)
      as (est & Hest & _).
    destruct (calibrate_area_spec loader calc n name area est
                Hpresent Hentry Hest Hreach)
      as (calc1 & est1 & Hstep & Hreach1 & Hframe1 & Hest1 & Htwo & Hone).
    cbn [Cli.calibrate_areas]. rewrite Hstep.
    destruct (IH Hnodup (λ e He, Hentries e (proj2 (elem_of_cons _ _ _) (or_intror He)))
                calc1 (if (0 <? length (usable_points name
                         (UserDataLoader.previous_years loader)))%nat
                       then S n else n) Hreach1)
      as (calc' & Hloop & Hreach' & Hframe & Heach).
    exists calc'. split; [|split; [done|split]].
    + rewrite Hloop. do 2 f_equal. rewrite filter_cons. simpl.
      destruct (Nat.ltb_spec 0 (length (usable_points name
                  (UserDataLoader.previous_years loader)))) as [Hpos|Hzero].
      * rewrite decide_True by done. simpl. lia.
      * rewrite decide_False by lia. lia.
    + intros other Hother. csimpl in Hother.
      apply not_elem_of_cons in Hother as [Hne Hother].
      rewrite Hframe by done. by apply Hframe1.
    + intros name' area' Hin.
      apply elem_of_cons in Hin as [[= -> ->]|Hin].
      * exists est, est1. split; [done|]. split; [|done].
        rewrite Hframe by done. done.
      * destruct (Heach name' area' Hin) as (est0 & est' & Hest0 & Hest' & Hrest).
        exists est0, est'. split; [|done].
        rewrite <- Hest0. symmetry. apply Hframe1.
        intros ->. apply Hfresh.
        apply (list_elem_of_fmap_2 snd) in Hin. done.
Qed.

(** X24. The calibration the command line runs before it computes a result:
    on a history in which every count is present and a reachable calculator,
    it never fails and leaves a reachable calculator; when historical data
    is switched on and there is at least one previous year, the number it
    reports is the number of areas with at least one usable year (a present
    score and a positive count), and otherwise 0; an area with two usable
    years or more ends with the median of their [score / count] as personal
    factor, and an area with fewer, or any area when historical data is
    switched off, keeps the estimator it had. *)
Theorem calibrate_from_history_effect loader calc :
  Forall counts_present (UserDataLoader.previous_years loader) →
  reachable_calculator load calc →
  ∃ calc',
    Cli.calibrate_from_history load loader calc =
      ((calc',
        if UserDataLoader.use_historical_data loader
           && UserDataLoader.has_historical_data loader
        then length (filter
               (λ entry, (0 < length (usable_points entry.1
                   (UserDataLoader.previous_years loader)))%nat)
               TriCalculator.area_mapping)
        else 0%nat),
       Ok tt) ∧
    reachable_calculator load calc' ∧
    ∀ name area, (name, area) ∈ TriCalculator.area_mapping →
      ∃ est est',
        TriCalculator.estimators calc !! area = Some est ∧
        TriCalculator.estimators calc' !! area = Some est' ∧
        let points :=
          usable_points name (UserDataLoader.previous_years loader) in
        (UserDataLoader.use_historical_data loader = true →
         (2 <= length points)%nat →
         personal_factor est' =
           Some (np_median (factors_of_positive_counts points))) ∧
        (UserDataLoader.use_historical_data loader = false ∨
         (length points < 2)%nat → est' = est).
Proof.
  intros Hpresent Hreach. unfold Cli.calibrate_from_history.
  destruct (UserDataLoader.use_historical_data loader) eqn:Huse; simpl.
  - destruct (UserDataLoader.has_historical_data loader) eqn:Hhas.
    + assert (NoDup TriCalculator.area_mapping.*2) as Hnodup.
      { unfold TriCalculator.area_mapping. csimpl.
        repeat (apply NoDup_cons; split;
                [rewrite ?elem_of_cons, elem_of_nil; intros Hin;
                 repeat destruct Hin as [Hin|Hin]; done|]).
        apply NoDup_nil_2. }
      destruct (calibrate_areas_spec loader TriCalculator.area_mapping
                  Hpresent Hnodup (λ e He, He) calc 0%nat Hreach)
        as (calc' & Hloop & Hreach' & _ & Heach).
      exists calc'. split; [done|]. split; [done|].
      intros name area Hin.
      destruct (Heach name area Hin) as (est & est' & Hest & Hest' & Htwo & Hone).
      exists est, est'. split; [done|]. split; [done|].
      split; [by intros _|]. intros [?|?]; [done|by apply Hone].
    + exists calc. split; [done|]. split; [done|].
      intros name area Hin.
      destruct (reachable_calculator_invariant load calc Hreach area
                  (area_mapping_entry _ _ Hin)) as (est & Hest & _).
      exists est, est. split; [done|]. split; [done|].
      unfold UserDataLoader.has_historical_data in Hhas.
      apply Nat.ltb_ge in Hhas.
      destruct (UserDataLoader.previous_years loader); [|simpl in Hhas; lia].
      split; [simpl; lia|done].
  - exists calc. split; [done|]. split; [done|].
    intros name area Hin.
    destruct (reachable_calculator_invariant load calc Hreach area
                (area_mapping_entry _ _ Hin)) as (est & Hest & _).
    exists est, est. split; [done|]. split; [done|]. split; [done|done].
Qed.

End CalibrationFromHistory.

Section CalibrationFromHistoryWitness.
Local Open Scope R_scope.

Lemma calibrate_from_history_effect_witness :
  ∃ calc',
    Cli.calibrate_from_history no_statistics
      (UserDataLoader.mk None
         [UserDataLoader.mkYearData 2022 (Some 20%Z) (Some 500)
            (Some 0%Z) (Some 480) (Some 0%Z) None (Some 0%Z) None (Some 600);
          UserDataLoader.mkYearData 2023 (Some 30%Z) (Some 650)
            (Some 25%Z) (Some 560) (Some 0%Z) None (Some 0%Z) None (Some 700)]
         (UserDataLoader.mkSettings None None None))
      default_calculator = ((calc', 2%nat), Ok tt) ∧
    (∃ est',
       TriCalculator.estimators calc' !! MATHEMATICS = Some est' ∧
       personal_factor est' =
         Some (np_median
                 (factors_of_positive_counts [(20%Z, 500); (30%Z, 650)]))) ∧
    TriCalculator.estimators calc' !! LANGUAGES =
      TriCalculator.estimators default_calculator !! LANGUAGES.
Proof.
  pose (loader :=
    UserDataLoader.mk None
      [UserDataLoader.mkYearData 2022 (Some 20%Z) (Some 500)
         (Some 0%Z) (Some 480) (Some 0%Z) None (Some 0%Z) None (Some 600);
       UserDataLoader.mkYearData 2023 (Some 30%Z) (Some 650)
         (Some 25%Z) (Some 560) (Some 0%Z) None (Some 0%Z) None (Some 700)]
      (UserDataLoader.mkSettings None None None)).
  assert (Forall counts_present (UserDataLoader.previous_years loader))
    as Hpresent by (repeat constructor; simpl; eauto).
  destruct (calibrate_from_history_effect no_statistics loader
              default_calculator Hpresent default_calculator_reachable)
    as (calc' & Hrun & _ & Heach).
  exists calc'. split; [exact Hrun|]. split.
  - destruct (Heach "mathematics" MATHEMATICS) as (est & est' & _ & Hest' & Htwo & _).
    { apply elem_of_cons. by left. }
    exists est'. split; [exact Hest'|]. apply Htwo; [reflexivity|].
    simpl. lia.
  - destruct (Heach "languages" LANGUAGES) as (est & est' & Hest & Hest' & _ & Hone).
    { apply elem_of_cons. right. apply elem_of_cons. by left. }
    rewrite Hest, Hest'. f_equal. apply Hone. right. simpl. lia.
Defined.

End CalibrationFromHistoryWitness.

Section CurrentYearValidation.
Local Open Scope R_scope.
Import UserDataLoader.

(** A round of the loop leaves no error exactly when there was none and the
    count is there, from 0 to 45. *)
Lemma validate_count_nil errors entry :
  validate_count errors entry = [] ↔
  errors = [] ∧ ∃ value, entry.2 = Some value ∧ (0 <= value <= 45)%Z.
Proof.
  unfold validate_count. destruct entry as [field [value|]]; simpl.
  - destruct (Z.leb_spec 0 value), (Z.leb_spec value 45); simpl;
      (split;
       [ intros Hnil;
         first [ by apply app_nil in Hnil as [_ ?]
               | split; [done|]; exists value; split; [done|lia] ]
       | intros [-> (v & [= <-] & Hv)]; first [done | lia] ]).
  - split; [intros Hnil; by apply app_nil in Hnil as [_ ?]|].
    by intros [_ (v & ? & _)].
Qed.

Lemma validate_count_length errors entry :
  (length (validate_count errors entry) <= S (length errors))%nat.
Proof.
  unfold validate_count. destruct entry as [field [value|]]; simpl.
  - destruct (negb _); [rewrite length_app; simpl|]; lia.
  - rewrite length_app. simpl. lia.
Qed.

(** The data that [validate_current_year] accepts. *)
Lemma validate_current_year_accepts self :
  (validate_current_year self).2 = [] ↔
  ∃ cy m l n h e,
    current_year self = Some cy ∧
    mathematics_correct cy = Some m ∧ languages_correct cy = Some l ∧
    natural_sciences_correct cy = Some n ∧ human_sciences_correct cy = Some h ∧
    essay_score cy = Some e ∧
    (0 <= m <= 45)%Z ∧ (0 <= l <= 45)%Z ∧ (0 <= n <= 45)%Z ∧
    (0 <= h <= 45)%Z ∧ 0 <= e <= 1000.
Proof.
  unfold validate_current_year.
  destruct (current_year self) as [cy|]; simpl;
    [|split; [done|by intros (? & ? & ? & ? & ? & ? & ? & _)]].
  set (errors := validate_count _ _).
  assert (errors = [] ↔
          ∃ m l n h,
            mathematics_correct cy = Some m ∧ languages_correct cy = Some l ∧
            natural_sciences_correct cy = Some n ∧
            human_sciences_correct cy = Some h ∧
            (0 <= m <= 45)%Z ∧ (0 <= l <= 45)%Z ∧ (0 <= n <= 45)%Z ∧
            (0 <= h <= 45)%Z) as Hcounts.
  { subst errors. rewrite !validate_count_nil. simpl. split.
    - intros ((((_ & m & ? & ?) & l & ? & ?) & n & ? & ?) & h & ? & ?).
      by exists m, l, n, h.
    - intros (m & l & n & h & ? & ? & ? & ? & ? & ? & ? & ?).
      repeat split; eauto. }
  split.
  - intros Hnil.
    destruct (essay_score cy) as [e|] eqn:He;
      [|by apply app_nil in Hnil as [_ ?]].
    unfold Rgtb, Rltb in Hnil.
    destruct (Rlt_dec e 0) as [Hlow|Hlow]; simpl in Hnil;
      [by apply app_nil in Hnil as [_ ?]|].
    destruct (Rlt_dec 1000 e) as [Hhigh|Hhigh]; simpl in Hnil;
      [by apply app_nil in Hnil as [_ ?]|].
    apply Hcounts in Hnil as (m & l & n & h & ? & ? & ? & ? & ? & ? & ? & ?).
    exists cy, m, l, n, h, e. repeat split; first [done | lia | lra].
  - intros (cy' & m & l & n & h & e & [= <-] & Hm & Hl & Hn & Hh & He & ? & ? & ? & ? & ?).
    rewrite He. unfold Rgtb, Rltb.
    destruct (Rlt_dec e 0) as [Hlow|Hlow]; [lra|].
    destruct (Rlt_dec 1000 e) as [Hhigh|Hhigh]; [lra|]. simpl.
    apply Hcounts. by exists m, l, n, h.
Qed.

Lemma validate_current_year_flag self :
  (validate_current_year self).1 = true ↔ (validate_current_year self).2 = [].
Proof.
  unfold validate_current_year.
  destruct (current_year self) as [cy|]; simpl; [|done].
  rewrite Nat.eqb_eq. apply length_zero_iff_nil.
Qed.

(** X25. [validate_current_year] answers [True] exactly when it reports no
    error, and it reports none exactly when there is a current year whose
    four counts are present and between 0 and 45 and whose essay score is
    present and between 0 and 1000; it reports at most five errors, and
    exactly one when there is no current year. *)
Theorem validate_current_year_sound self :
  let '(is_valid, errors) := validate_current_year self in
  (is_valid = true ↔ errors = []) ∧
  (errors = [] ↔
   ∃ cy m l n h e,
     current_year self = Some cy ∧
     mathematics_correct cy = Some m ∧ languages_correct cy = Some l ∧
     natural_sciences_correct cy = Some n ∧
     human_sciences_correct cy = Some h ∧
     essay_score cy = Some e ∧
     (0 <= m <= 45)%Z ∧ (0 <= l <= 45)%Z ∧ (0 <= n <= 45)%Z ∧
     (0 <= h <= 45)%Z ∧ 0 <= e <= 1000) ∧
  (length errors <= 5)%nat ∧
  (current_year self = None → errors = [[Lit "No current year data found"]]).
Proof.
  pose proof (validate_current_year_flag self) as Hflag.
  pose proof (validate_current_year_accepts self) as Haccepts.
  assert (length (validate_current_year self).2 <= 5)%nat as Hlength.
  { unfold validate_current_year.
    destruct (current_year self) as [cy|]; simpl; [|lia].
    set (e1 := validate_count [] _).
    set (e2 := validate_count e1 _).
    set (e3 := validate_count e2 _).
    set (e4 := validate_count e3 _).
    pose proof (validate_count_length []
                  ("mathematics", mathematics_correct cy)) as H1.
    pose proof (validate_count_length e1
                  ("languages", languages_correct cy)) as H2.
    pose proof (validate_count_length e2
                  ("natural_sciences", natural_sciences_correct cy)) as H3.
    pose proof (validate_count_length e3
                  ("human_sciences", human_sciences_correct cy)) as H4.
    fold e1 in H1. fold e2 in H2. fold e3 in H3. fold e4 in H4. simpl in H1.
    destruct (essay_score cy) as [e|]; [destruct (_ || _)|];
      rewrite ?length_app; simpl; lia. }
  assert (current_year self = None →
          (validate_current_year self).2 =
            [[Lit "No current year data found"]]) as Hnone.
  { intros Hcy. unfold validate_current_year. by rewrite Hcy. }
  destruct (validate_current_year self) as [is_valid errors]. done.
Qed.

(** X26. Data that [validate_current_year] accepts never makes
    [calculate_score] fail on a reachable calculator with 45 questions in
    which no estimator has a personal factor and every estimator has
    [0 <= min_score <= max_score <= 1000] (as with the default parameters):
    the five values of the current year are there and the call returns a
    result. *)
Theorem validated_data_calculates load self calc :
  (validate_current_year self).1 = true →
  reachable_calculator load calc →
  TriCalculator.total_questions calc = 45%Z →
  (∀ area estimator,
     TriCalculator.estimators calc !! area = Some estimator →
     personal_factor estimator = None ∧
     0 <= TriEstimator.min_score estimator ∧
     TriEstimator.min_score estimator <= TriEstimator.max_score estimator ∧
     TriEstimator.max_score estimator <= 1000) →
  ∃ cy m l n h e r,
    current_year self = Some cy ∧
    mathematics_correct cy = Some m ∧ languages_correct cy = Some l ∧
    natural_sciences_correct cy = Some n ∧
    human_sciences_correct cy = Some h ∧
    essay_score cy = Some e ∧
    TriCalculator.calculate_score calc m l n h e = Ok r.
Proof.
  intros Hvalid Hreach Htotal Hparams.
  apply validate_current_year_flag, validate_current_year_accepts in Hvalid
    as (cy & m & l & n & h & e & ? & ? & ? & ? & ? & ? & ? & ? & ? & ? & ?).
  destruct (uncalibrated_calculator_returns calc m l n h e) as [r Hr];
    rewrite ?Htotal; try done.
  { split; [by eapply reachable_calculator_invariant|done]. }
  by exists cy, m, l, n, h, e, r.
Qed.

Lemma validated_data_calculates_witness :
  ∃ r,
    TriCalculator.calculate_score default_calculator 10 20 30 40 700 = Ok r.
Proof.
  destruct (validated_data_calculates no_statistics
              (mk (Some (mkYearData 2024 (Some 10%Z) None (Some 20%Z) None
                           (Some 30%Z) None (Some 40%Z) None (Some 700)))
                  [] (mkSettings None None None))
              default_calculator)
    as (cy & m & l & n & h & e & r & [= <-] & [= <-] & [= <-] & [= <-]
        & [= <-] & [= <-] & Hr).
  - unfold validate_current_year, Rgtb, Rltb. simpl.
    destruct (Rlt_dec 700 0); [lra|]. destruct (Rlt_dec 1000 700); [lra|].
    reflexivity.
  - apply default_calculator_reachable.
  - reflexivity.
  - apply default_calculator_uncalibrated.
  - by exists r.
Defined.

End CurrentYearValidation.
